(** * GAM_API: the report transformer and the CSV publisher of [src/main.py]

    A shallow embedding of [transform_report_data], [send_to_gs] and
    [data_processing].  A DataFrame is a list of rows (records whose fields
    are the columns); a missing value (NaN) is [None]; Python strings
    are lists of Unicode code points, exceptions are an error monad and the
    storage bucket is a finite map from blob names to bytes.

    The module [Pipeline] then embeds the program around them:
    [get_report_data], [data_processing] with its download, and the two
    branches of the main block, over a state that holds the console, the
    temporary files and the bucket, with the report service as a
    parameter and the dates of [datetime.date]. *)

From Stdlib Require Import ZArith NArith List Bool Ascii String Lia Permutation Sorted.
From Stdlib Require Import Strings.Byte.
From Stdlib Require Import DecimalString DecimalN PrimFloat FloatOps SpecFloat.
From stdpp Require Import gmap.

Import ListNotations.
Local Open Scope N_scope.
Local Open Scope list_scope.

(** ** Python strings *)

(** A [str] is a sequence of code points; [py] reads an ASCII literal. *)
Definition pystr : Type := list N.

Definition py (s : string) : pystr := map N_of_ascii (list_ascii_of_string s).

Fixpoint str_eqb (a b : pystr) : bool :=
  match a, b with
  | [], [] => true
  | x :: a', y :: b' => N.eqb x y && str_eqb a' b'
  | _, _ => false
  end.

(** [s.startswith(p)] and [s.endswith(p)]. *)
Fixpoint startswith (p s : pystr) : bool :=
  match p, s with
  | [], _ => true
  | x :: p', y :: s' => N.eqb x y && startswith p' s'
  | _ :: _, [] => false
  end.

Definition endswith (p s : pystr) : bool := startswith (rev p) (rev s).

(** [s.split(sep)] for a non-empty separator: the occurrences of [sep] are
    found from left to right and do not overlap.  [skip] counts the code
    points of a separator that is being stepped over, [cur] is the segment
    read so far. *)
Fixpoint split_go (sep : pystr) (skip : nat) (cur s : pystr) : list pystr :=
  match s with
  | [] => [cur]
  | c :: s' =>
      match skip with
      | S k => split_go sep k cur s'
      | O =>
          if startswith sep s
          then cur :: split_go sep (Nat.pred (length sep)) [] s'
          else split_go sep 0 (cur ++ [c]) s'
      end
  end.

Definition split (sep s : pystr) : list pystr := split_go sep 0 [] s.

(** [sep.join(parts)]. *)
Fixpoint join (sep : pystr) (parts : list pystr) : pystr :=
  match parts with
  | [] => []
  | [p] => p
  | p :: rest => p ++ sep ++ join sep rest
  end.

(** ** The regular expression of [transform_report_data]

    [regex_pattern = r'([a-zA-Z_.0-9]+)\s\([0-9]+\)']. *)

(** The class [[a-zA-Z_.0-9]]. *)
Definition is_label_char (c : N) : bool :=
  ((97 <=? c) && (c <=? 122)) || ((65 <=? c) && (c <=? 90))
  || (c =? 95) || (c =? 46) || ((48 <=? c) && (c <=? 57)).

(** The class [[0-9]]. *)
Definition is_digit (c : N) : bool := (48 <=? c) && (c <=? 57).

(** [\s] on a [str] pattern: the Unicode white space of [re]. *)
Definition is_space (c : N) : bool :=
  ((9 <=? c) && (c <=? 13)) || ((28 <=? c) && (c <=? 32))
  || (c =? 133) || (c =? 160) || (c =? 5760)
  || ((8192 <=? c) && (c <=? 8202))
  || (c =? 8232) || (c =? 8233) || (c =? 8239) || (c =? 8287) || (c =? 12288).

Section Backtracking.
Context {R : Type}.

(** One code point of a class, then the continuation [k] on the rest. *)
Definition one (p : N -> bool) (k : pystr -> option R) (s : pystr) : option R :=
  match s with
  | c :: s' => if p c then k s' else None
  | [] => None
  end.

(** Greedy [p+]: as many code points of the class as possible, giving
    them back one at a time while the continuation fails.  [acc] is what
    the repetition has consumed; the continuation receives it with the
    rest of the subject. *)
Fixpoint many1 (p : N -> bool) (k : pystr -> pystr -> option R)
         (acc s : pystr) : option R :=
  match s with
  | c :: s' =>
      if p c then
        match many1 p k (acc ++ [c]) s' with
        | Some r => Some r
        | None => k (acc ++ [c]) s'
        end
      else None
  | [] => None
  end.

End Backtracking.

(** A match of [regex_pattern] anchored at the start of [s]; the result is
    group 1. *)
Definition match_here (s : pystr) : option pystr :=
  many1 is_label_char
    (fun group1 s1 =>
       one is_space
         (one (N.eqb 40)
            (many1 is_digit
               (fun _ s2 => one (N.eqb 41) (fun _ => Some group1) s2)
               []))
         s1)
    [] s.

(** [regex.search(s)]: the match at the leftmost position that has one. *)
Fixpoint search (s : pystr) : option pystr :=
  match match_here s with
  | Some g => Some g
  | None =>
      match s with
      | [] => None
      | _ :: s' => search s'
      end
  end.

(** The hierarchy delimiter of line 65 of [main.py], exactly as the
    source file has it: the two code points U+00C2 U+00BB. *)
Definition delimiter : pystr := [194; 187].


(** ** Exceptions *)

Inductive exn : Type :=
| ValueError
| UnicodeEncodeError
| AttributeError.

Inductive result (A : Type) : Type :=
| Ok (a : A)
| Raise (e : exn).
Arguments Ok {A} a.
Arguments Raise {A} e.

#[global] Instance result_ret : MRet result := fun _ a => Ok a.
#[global] Instance result_bind : MBind result := fun _ _ f m =>
  match m with
  | Ok a => f a
  | Raise e => Raise e
  end.

(** A column operation that converts every cell stops at the first cell
    that raises. *)
Fixpoint traverse {A B : Type} (f : A -> result B) (l : list A) : result (list B) :=
  match l with
  | [] => Ok []
  | a :: l' => b ← f a; bs ← traverse f l'; Ok (b :: bs)
  end.

(** ** Cells and rows *)

(** The [float64] values of the revenue column, the sum that
    [groupby(...).sum()] computes over the values of one group (in row
    order), and the text that [to_csv] writes for a value. *)
Class Float64 : Type := {
  float : Type;
  group_sum : list float -> float;
  float_text : float -> pystr
}.

Record Date : Type := { year : N; month : N; day : N }.

#[global] Instance Date_eq_dec : EqDecision Date.
Proof. solve_decision. Defined.

(** A cell of [Dimension.DATE], by what [pd.to_datetime(...,
    format='%Y-%m-%d')] makes of it: a calendar day, or a text that does
    not match the format. *)
Inductive DateCell : Type :=
| DateValue (d : Date)
| DateUnparsable (text : pystr).

Set Implicit Arguments.
Set Maximal Implicit Insertion.

(** A cell of [Column.TOTAL_LINE_ITEM_LEVEL_ALL_REVENUE], by what
    [astype(float)] makes of it: a number, or a text that [float] rejects.
    An empty cell, or one of the texts that [pd.read_csv] takes for a
    missing value ("n/a", "NA", "null" and the like), is the number NaN. *)
Inductive RevenueCell (float : Type) : Type :=
| RevenueValue (x : float)
| RevenueUnparsable (text : pystr).

(** A row of the table that [pd.read_csv] returns.  [DATE] and
    [AD_UNIT_NAME] are dimensions of the report, which gives them for every
    row; the two counts are integers, in columns of the dtype [int64]. *)
Record RawRow (float : Type) : Type := {
  Dimension_DATE : DateCell;
  Dimension_AD_UNIT_NAME : pystr;
  Column_TOTAL_LINE_ITEM_LEVEL_IMPRESSIONS : Z;
  Column_TOTAL_LINE_ITEM_LEVEL_ALL_REVENUE : RevenueCell float;
  Column_TOTAL_AD_REQUESTS : Z
}.

(** A row of [df_report] once lines 65 to 82 have added and renamed the
    columns. *)
Record Row (float : Type) : Type := {
  ad_unit_all_level : list pystr;
  ad_unit_level_0 : option pystr;
  section : option pystr;
  sub_section : option pystr;
  ad_unit_name : option pystr;
  device_type : option pystr;
  date : Date;
  revenue : float;
  impressions : Z;
  total_ad_requests : Z
}.

(** A row of the table that [transform_report_data] returns: after
    [reset_index] the key columns come first, then the summed columns in the
    order of [columns_to_display]. *)
Record AggregatedRow (float : Type) : Type := {
  agg_date : Date;
  agg_device_type : pystr;
  agg_section : pystr;
  agg_sub_section : pystr;
  agg_impressions : Z;
  agg_revenue : float;
  agg_total_ad_requests : Z
}.

Unset Maximal Implicit Insertion.
Unset Implicit Arguments.
Arguments RevenueUnparsable {float} text.

Section Transformer.
Context {F : Float64}.

(** ** The [.str] accessor *)

(** [.str[i]] on a column of lists: the element at [i], counted from the
    end when [i] is negative, NaN when there is none. *)
Definition str_get {A : Type} (i : Z) (l : list A) : option A :=
  let n := Z.of_nat (length l) in
  if ((0 <=? i) && (i <? n))%Z then nth_error l (Z.to_nat i)
  else if ((- n <=? i) && (i <? 0))%Z then nth_error l (Z.to_nat (n + i))
  else None.

(** [.str.extract(regex_pattern)], cell by cell: group 1 of the first
    match, NaN when the cell is NaN or has no match. *)
Definition str_extract (cell : option pystr) : option pystr := cell ≫= search.

Definition isna {A : Type} (cell : option A) : bool :=
  match cell with
  | None => true
  | Some _ => false
  end.

(** A column that holds cells and only NaN: [.str[i]] gives such a column
    the dtype [float64], where a column with a text in it, or with no cell
    at all, has the dtype [object]. *)
Definition all_nan {A : Type} (column : list (option A)) : bool :=
  match column with
  | [] => false
  | _ => forallb isna column
  end.

(** [column.str.extract(regex_pattern)] on the column that [.str[i]]
    returns: the [.str] accessor of a [float64] column raises
    [AttributeError] ("Can only use .str accessor with string values"). *)
Definition str_extract_column (column : list (option pystr))
    : result (list (option pystr)) :=
  if all_nan column then Raise AttributeError else Ok (map str_extract column).

(** [.str.endswith(pat)]: NaN on a NaN cell. *)
Definition str_endswith (pat : pystr) (cell : option pystr) : option bool :=
  endswith pat <$> cell.

(** [column == value]: False on a NaN cell. *)
Definition eq_value (cell : option pystr) (value : pystr) : bool :=
  match cell with
  | Some s => str_eqb s value
  | None => false
  end.

(** [left | right] on masks that may hold NaN: a missing right operand
    counts as False, and so does the result for a missing left operand. *)
Definition logical_or (left right : option bool) : bool :=
  match left with
  | Some a => a || default false right
  | None => false
  end.

(** ** Lines 65 to 82: the derived columns *)

Definition to_datetime (cell : DateCell) : result Date :=
  match cell with
  | DateValue d => Ok d
  | DateUnparsable _ => Raise ValueError
  end.

Definition astype_float (cell : RevenueCell float) : result float :=
  match cell with
  | RevenueValue x => Ok x
  | RevenueUnparsable _ => Raise ValueError
  end.

(** The dictionary given to [replace] at lines 75 to 77. *)
Definition device_types : gmap pystr pystr :=
  {[ py "20minutes_web" := py "Desktop";
     py "20minutes_web_video_P2" := py "Desktop";
     py "20minutes_mobile" := py "Mobile Web" ]}.

Definition replace (to_replace : gmap pystr pystr) (cell : option pystr) : option pystr :=
  (fun v => default v (to_replace !! v)) <$> cell.

(** The cells that lines 65 to 82 give to one row.  The program works
    column by column: the four [.str.extract] of lines 66 to 69 come
    first and are in [transform_report_data] below, where a column of NaN
    only makes the run raise; past them, [to_datetime] and [astype(float)]
    are the two statements that can raise, both with [ValueError], so that
    converting row by row fails on the same tables as converting column by
    column. *)
Definition derive_columns (r : RawRow float) : result (Row float) :=
  let AD_UNIT_ALL_LEVEL := split delimiter (Dimension_AD_UNIT_NAME r) in
  let level_0 := str_extract (str_get 0 AD_UNIT_ALL_LEVEL) in
  d ← to_datetime (Dimension_DATE r);
  x ← astype_float (Column_TOTAL_LINE_ITEM_LEVEL_ALL_REVENUE r);
  Ok {| ad_unit_all_level := AD_UNIT_ALL_LEVEL;
        ad_unit_level_0 := level_0;
        section := str_extract (str_get 1 AD_UNIT_ALL_LEVEL);
        sub_section := str_extract (str_get 2 AD_UNIT_ALL_LEVEL);
        ad_unit_name := str_extract (str_get (-1) AD_UNIT_ALL_LEVEL);
        device_type := replace device_types level_0;
        date := d;
        revenue := x;
        impressions := Column_TOTAL_LINE_ITEM_LEVEL_IMPRESSIONS r;
        total_ad_requests := Column_TOTAL_AD_REQUESTS r |}.

(** ** Lines 84 to 95: the two filters *)

Definition filter_1 (r : Row float) : bool :=
  eq_value (ad_unit_level_0 r) (py "20minutes_web")
  || eq_value (ad_unit_level_0 r) (py "20minutes_web_video_P2")
  || eq_value (ad_unit_level_0 r) (py "20minutes_mobile").

Definition filter_2 (r : Row float) : bool :=
  logical_or
    (Some (logical_or (str_endswith (py "_Diapo") (sub_section r))
                      (str_endswith (py "_art") (sub_section r))))
    (Some (eq_value (section r) (py "amp"))).

(** ** Lines 96 to 99: projection and aggregation *)

Definition columns_to_display : list pystr :=
  [py "date"; py "device_type"; py "section"; py "sub_section";
   py "impressions"; py "revenue"; py "total_ad_requests"].

Definition groupby_columns : list pystr :=
  [py "date"; py "device_type"; py "section"; py "sub_section"].

Record GroupKey : Type := {
  key_date : Date;
  key_device_type : pystr;
  key_section : pystr;
  key_sub_section : pystr
}.

#[global] Instance GroupKey_eq_dec : EqDecision GroupKey.
Proof. solve_decision. Defined.

(** The key of a row; a row with NaN in a key column has none and
    [groupby] leaves it out ([dropna] is on by default). *)
Definition group_key (r : Row float) : option GroupKey :=
  dev ← device_type r; s ← section r; ss ← sub_section r;
  Some {| key_date := date r; key_device_type := dev;
          key_section := s; key_sub_section := ss |}.

Definition date_compare (a b : Date) : comparison :=
  match year a ?= year b with
  | Eq => match month a ?= month b with
          | Eq => day a ?= day b
          | c => c
          end
  | c => c
  end.

(** The order of [str]: by code points, a proper prefix first. *)
Fixpoint str_compare (a b : pystr) : comparison :=
  match a, b with
  | [], [] => Eq
  | [], _ :: _ => Lt
  | _ :: _, [] => Gt
  | x :: a', y :: b' =>
      match x ?= y with
      | Eq => str_compare a' b'
      | c => c
      end
  end.

Definition key_compare (a b : GroupKey) : comparison :=
  match date_compare (key_date a) (key_date b) with
  | Eq =>
      match str_compare (key_device_type a) (key_device_type b) with
      | Eq =>
          match str_compare (key_section a) (key_section b) with
          | Eq => str_compare (key_sub_section a) (key_sub_section b)
          | c => c
          end
      | c => c
      end
  | c => c
  end.

Definition key_eqb (a b : GroupKey) : bool :=
  match key_compare a b with
  | Eq => true
  | _ => false
  end.

Definition key_leb (a b : GroupKey) : bool :=
  match key_compare a b with
  | Gt => false
  | _ => true
  end.

(** The distinct keys, in the order of their first appearance. *)
Fixpoint unique (seen keys : list GroupKey) : list GroupKey :=
  match keys with
  | [] => []
  | k :: keys' =>
      if existsb (key_eqb k) seen then unique seen keys'
      else k :: unique (k :: seen) keys'
  end.

Fixpoint insert_sorted (k : GroupKey) (sorted : list GroupKey) : list GroupKey :=
  match sorted with
  | [] => [k]
  | h :: t => if key_leb k h then k :: sorted else h :: insert_sorted k t
  end.

(** [groupby] sorts the group keys ([sort] is on by default). *)
Definition sort_keys (keys : list GroupKey) : list GroupKey :=
  fold_right insert_sorted [] keys.

Definition in_group (k : GroupKey) (r : Row float) : bool :=
  match group_key r with
  | Some k' => key_eqb k' k
  | None => false
  end.

(** The sum of a list of integers, in [Z]. *)
Definition sum_int (l : list Z) : Z := fold_right Z.add 0%Z l.

(** The counts are [int64] columns: an addition wraps around at 2^63. *)
Definition int64 (z : Z) : Z := ((z + 2 ^ 63) mod 2 ^ 64 - 2 ^ 63)%Z.

(** The sum of the counts of one group as [groupby(...).sum()] computes
    it: added one after the other, in [int64]. *)
Definition sum_int64 (l : list Z) : Z :=
  fold_left (fun total v => int64 (total + v)) l 0%Z.

Definition agg_key (o : AggregatedRow float) : GroupKey :=
  {| key_date := agg_date o; key_device_type := agg_device_type o;
     key_section := agg_section o; key_sub_section := agg_sub_section o |}.

Definition sum_group (k : GroupKey) (group : list (Row float)) : AggregatedRow float :=
  {| agg_date := key_date k;
     agg_device_type := key_device_type k;
     agg_section := key_section k;
     agg_sub_section := key_sub_section k;
     agg_impressions := sum_int64 (map impressions group);
     agg_revenue := group_sum (map revenue group);
     agg_total_ad_requests := sum_int64 (map total_ad_requests group) |}.

(** The keys of the groups of a table, sorted. *)
Definition group_keys (df : list (Row float)) : list GroupKey :=
  sort_keys (unique [] (omap group_key df)).

(** [df.groupby(by).sum().reset_index()] on the seven columns of
    [columns_to_display]. *)
Definition groupby_sum (df : list (Row float)) : list (AggregatedRow float) :=
  map (fun k => sum_group k (List.filter (in_group k) df)) (group_keys df).

(** Lines 70 to 95, row by row: [df_report] after
    [df_report[filter_1 & filter_2]], once lines 66 to 69 have given the
    four columns of labels. *)
Definition filtered (report : list (RawRow float)) : result (list (Row float)) :=
  df_report ← traverse derive_columns report;
  Ok (List.filter (fun r => filter_1 r && filter_2 r) df_report).

(** Lines 70 to 99, row by row. *)
Definition aggregated (report : list (RawRow float)) : result (list (AggregatedRow float)) :=
  df_report ← filtered report;
  Ok (groupby_sum df_report).

(** Lines 61 to 101.  Lines 66 to 69 take the labels out of the first,
    the second, the third and the last piece of every path, a column at a
    time; the cells they give are those of [derive_columns].  A report
    with rows of which none has a second piece, or none a third, ends at
    line 67 or 68 with [AttributeError], before any date or revenue is
    converted. *)
Definition transform_report_data (report : list (RawRow float)) : result (list (AggregatedRow float)) :=
  let AD_UNIT_ALL_LEVEL :=
    map (fun r => split delimiter (Dimension_AD_UNIT_NAME r)) report in
  _ ← str_extract_column (map (str_get 0) AD_UNIT_ALL_LEVEL);
  _ ← str_extract_column (map (str_get 1) AD_UNIT_ALL_LEVEL);
  _ ← str_extract_column (map (str_get 2) AD_UNIT_ALL_LEVEL);
  _ ← str_extract_column (map (str_get (-1)) AD_UNIT_ALL_LEVEL);
  aggregated report.

(** The number of pieces of the path of a row. *)
Definition levels (r : RawRow float) : nat :=
  length (split delimiter (Dimension_AD_UNIT_NAME r)).

(** The reports on which lines 66 to 69 do not raise: those without a
    row, and those with a path of three pieces or more. *)
Definition extractable (report : list (RawRow float)) : bool :=
  match report with
  | [] => true
  | _ => existsb (fun r => (3 <=? levels r)%nat) report
  end.

(** The counts of a report are not negative, and those of each column add
    up to less than 2^63: no sum of counts leaves [int64]. *)
Definition counts_fit (report : list (RawRow float)) : bool :=
  forallb (fun r => (0 <=? Column_TOTAL_LINE_ITEM_LEVEL_IMPRESSIONS r)%Z
                    && (0 <=? Column_TOTAL_AD_REQUESTS r)%Z) report
  && (sum_int (map Column_TOTAL_LINE_ITEM_LEVEL_IMPRESSIONS report) <? 2 ^ 63)%Z
  && (sum_int (map Column_TOTAL_AD_REQUESTS report) <? 2 ^ 63)%Z.

End Transformer.

(** ** [send_to_gs]: serialisation and upload *)

(** [str(z)] for an integer. *)
Definition str_of_Z (z : Z) : pystr := py (NilEmpty.string_of_int (Z.to_int z)).

Definition zfill (width : nat) (s : pystr) : pystr :=
  repeat 48 (width - length s)%nat ++ s.

(** A day as [%Y-%m-%d]: what [to_csv] writes for the cells of a
    [datetime64] column that holds days only, what [print] writes for a
    date, and what [strftime] gives for a report date from the year 1000
    on (for an earlier year [%Y] may come without the leading zeros). *)
Definition isoformat (d : Date) : pystr :=
  zfill 4 (str_of_Z (Z.of_N (year d))) ++ py "-"
  ++ zfill 2 (str_of_Z (Z.of_N (month d))) ++ py "-"
  ++ zfill 2 (str_of_Z (Z.of_N (day d))).

Definition comma : pystr := [44].
Definition lineterminator : pystr := [10].
Definition quotechar : N := 34.

(** The writer of the [csv] module with minimal quoting: a field that
    holds the delimiter, the quote character or a character of the line
    terminator is quoted, its quote characters doubled. *)
Definition needs_quoting (c : N) : bool :=
  existsb (N.eqb c) comma || (c =? quotechar) || existsb (N.eqb c) lineterminator.

Definition csv_field (s : pystr) : pystr :=
  if existsb needs_quoting s
  then quotechar :: flat_map (fun c => if c =? quotechar then [c; c] else [c]) s
       ++ [quotechar]
  else s.

(** A text that the writer leaves as it is. *)
Definition plain (s : pystr) : bool := forallb (fun c => negb (needs_quoting c)) s.

Definition csv_line (cells : list pystr) : pystr :=
  join comma (map csv_field cells) ++ lineterminator.

(** [s.encode()]: UTF-8; a surrogate has no encoding. *)
Definition octet (n : N) : byte := default x00 (Byte.of_N n).

Definition utf8 (c : N) : result (list byte) :=
  if c <? 128 then Ok [octet c]
  else if c <? 2048 then
    Ok [octet (N.lor 192 (N.shiftr c 6)); octet (N.lor 128 (N.land c 63))]
  else if c <? 65536 then
    if (55296 <=? c) && (c <=? 57343) then Raise UnicodeEncodeError
    else Ok [octet (N.lor 224 (N.shiftr c 12));
             octet (N.lor 128 (N.land (N.shiftr c 6) 63));
             octet (N.lor 128 (N.land c 63))]
  else if c <? 1114112 then
    Ok [octet (N.lor 240 (N.shiftr c 18));
        octet (N.lor 128 (N.land (N.shiftr c 12) 63));
        octet (N.lor 128 (N.land (N.shiftr c 6) 63));
        octet (N.lor 128 (N.land c 63))]
  else Raise UnicodeEncodeError.

Definition encode (s : pystr) : result (list byte) :=
  chunks ← traverse utf8 s; Ok (concat chunks).

Section Publisher.
Context {F : Float64}.

(** The columns of the aggregated table: the grouping keys, then what is
    left of [columns_to_display]. *)
Definition result_columns : list pystr :=
  groupby_columns
  ++ List.filter (fun c => negb (existsb (str_eqb c) groupby_columns)) columns_to_display.

Definition cells (o : AggregatedRow float) : list pystr :=
  [isoformat (agg_date o); agg_device_type o; agg_section o; agg_sub_section o;
   str_of_Z (agg_impressions o); float_text (agg_revenue o);
   str_of_Z (agg_total_ad_requests o)].

(** [df_report.to_csv(f, index=False)], then [f.getvalue()]. *)
Definition to_csv (df_report : list (AggregatedRow float)) : pystr :=
  concat (map csv_line (result_columns :: map cells df_report)).

(** The objects of the bucket [solar.20mn.net], by name. *)
Definition blob_name (name_file : pystr) : pystr :=
  py "internal/applications/solar/gam/" ++ name_file.

Definition send_to_gs (df_report : list (AggregatedRow float)) (name_file : pystr)
    (gcs : gmap pystr (list byte)) : result (gmap pystr (list byte)) :=
  f ← encode (to_csv df_report);
  Ok (<[blob_name name_file := f]> gcs).

Definition name_file (date_ : Date) : pystr :=
  py "solar_20mn_ads.gam_revenue_page_" ++ isoformat date_ ++ py ".csv".

(** [data_processing] for the report date [date_], where [report] is the
    table that [get_report_data] has downloaded for that date. *)
Definition data_processing (report : list (RawRow float)) (date_ : Date)
    (gcs : gmap pystr (list byte)) : result (gmap pystr (list byte)) :=
  df_report ← transform_report_data report;
  send_to_gs df_report (name_file date_) gcs.

End Publisher.

(** ** Binary64 numbers *)

(** The sum of one group as the [group_sum] kernel of pandas computes it:
    compensated (Kahan) summation in row order, NaN skipped. *)
Definition kahan_step (st : PrimFloat.float * PrimFloat.float) (v : PrimFloat.float)
    : PrimFloat.float * PrimFloat.float :=
  if PrimFloat.eqb v v then
    let y := PrimFloat.sub v (snd st) in
    let t := PrimFloat.add (fst st) y in
    (t, PrimFloat.sub (PrimFloat.sub t (fst st)) y)
  else st.

Definition kahan_sum (l : list PrimFloat.float) : PrimFloat.float :=
  fst (fold_left kahan_step l (PrimFloat.zero, PrimFloat.zero)).

(** Trailing zeros removed. *)
Fixpoint rstrip0 (s : pystr) : pystr :=
  match s with
  | [] => []
  | c :: s' =>
      match rstrip0 s' with
      | [] => if c =? 48 then [] else [c]
      | t => c :: t
      end
  end.

Definition fraction_text (digits : pystr) : pystr :=
  match rstrip0 digits with
  | [] => py "0"
  | t => t
  end.

(** The exact decimal expansion of a number.  It is the text that
    [to_csv] writes for the amounts of the examples below (5.5, 0.5, 8.0),
    not for every number: [to_csv] writes the shortest decimal that
    identifies the number (0.1 for the number next to a tenth), in
    scientific notation when it is large or small.  The theorems take the
    text of a number as a parameter; this instance serves the examples.
    A missing value is written as the empty text. *)
Definition decimal_text (x : PrimFloat.float) : pystr :=
  match Prim2SF x with
  | S754_nan => []
  | S754_zero s => (if s then py "-" else []) ++ py "0.0"
  | S754_infinity s => (if s then py "-" else []) ++ py "inf"
  | S754_finite s m e =>
      (if s then py "-" else [])
      ++ match e with
         | Z.neg k =>
             let scale := (10 ^ Z.pos k)%Z in
             let num := (Z.pos m * 5 ^ Z.pos k)%Z in
             str_of_Z (num / scale) ++ py "."
             ++ fraction_text (zfill (Pos.to_nat k) (str_of_Z (num mod scale)))
         | _ => str_of_Z (Z.pos m * 2 ^ e) ++ py ".0"
         end
  end.

Definition binary64 : Float64 :=
  {| float := PrimFloat.float; group_sum := kahan_sum; float_text := decimal_text |}.

(** ** Sample reports *)

Definition day_2024_01_01 : Date := {| year := 2024; month := 1; day := 1 |}.

Definition report_row (name : pystr) (n_impressions : Z) (x : PrimFloat.float)
    (n_requests : Z) : RawRow PrimFloat.float :=
  {| Dimension_DATE := DateValue day_2024_01_01;
     Dimension_AD_UNIT_NAME := name;
     Column_TOTAL_LINE_ITEM_LEVEL_IMPRESSIONS := n_impressions;
     Column_TOTAL_LINE_ITEM_LEVEL_ALL_REVENUE := RevenueValue x;
     Column_TOTAL_AD_REQUESTS := n_requests |}.

(** The path of the scenario with the segments joined as the report
    joins them, by U+00BB between two spaces. *)
Definition photos_path : pystr :=
  py "20minutes_web (1) " ++ [187] ++ py " News (2) " ++ [187] ++ py " Photos_Diapo (3)".

(** The same path with the segments joined by [delimiter]. *)
Definition photos_path_split : pystr :=
  py "20minutes_web (1) " ++ delimiter ++ py " News (2) " ++ delimiter
  ++ py " Photos_Diapo (3)".

(** An ad unit of the second level: it has no sub-section. *)
Definition amp_path : pystr := py "20minutes_mobile (1) " ++ delimiter ++ py " amp (2)".

Definition amp_other_path : pystr :=
  py "20minutes_mobile (1) " ++ delimiter ++ py " amp (2) " ++ delimiter
  ++ py " Other (3)".

Definition tablet_path : pystr :=
  py "20minutes_tablet (1) " ++ delimiter ++ py " News (2) " ++ delimiter
  ++ py " Photos_Diapo (3)".


(** What the transformer returns for the scenario: one row. *)
Definition photos_row (n_impressions : Z) (x : PrimFloat.float) (n_requests : Z)
    : AggregatedRow PrimFloat.float :=
  {| agg_date := day_2024_01_01;
     agg_device_type := py "Desktop";
     agg_section := py "News";
     agg_sub_section := py "Photos_Diapo";
     agg_impressions := n_impressions;
     agg_revenue := x;
     agg_total_ad_requests := n_requests |}.

Definition amp_other_row : AggregatedRow PrimFloat.float :=
  {| agg_date := day_2024_01_01;
     agg_device_type := py "Mobile Web";
     agg_section := py "amp";
     agg_sub_section := py "Other";
     agg_impressions := 40;
     agg_revenue := 0.5%float;
     agg_total_ad_requests := 45 |}.

(** ** Paths of ad units *)

(** A word of the class [[a-zA-Z_.0-9]], and a number: what the two
    repetitions of [regex_pattern] match. *)
Definition is_label (s : pystr) : bool :=
  match s with
  | [] => false
  | _ => forallb is_label_char s
  end.

Definition is_id (s : pystr) : bool :=
  match s with
  | [] => false
  | _ => forallb is_digit s
  end.

(** A segment of a path: the label of an ad unit, a space, and its
    identifier in brackets. *)
Definition segment (unit : pystr * pystr) : pystr :=
  fst unit ++ py " (" ++ snd unit ++ py ")".

(** The path of an ad unit: the segments from the top of the hierarchy
    down, joined by [delimiter] between two spaces. *)
Definition path (units : list (pystr * pystr)) : pystr :=
  join (py " " ++ delimiter ++ py " ") (map segment units).

(** What [regex_pattern] matches: a label, one white space, and a number
    in brackets. *)
Definition matched (g : pystr) (sp : N) (digits : pystr) : pystr :=
  g ++ sp :: 40 :: digits ++ [41].

(** The units whose segments [regex_pattern] matches. *)
Definition well_formed (unit : pystr * pystr) : Prop :=
  is_label (fst unit) = true /\ is_id (snd unit) = true.

(** The pieces that splitting a path on [delimiter] gives: the segments,
    each with the space that stood before or after a delimiter. *)
Definition piece (first last : bool) (s : pystr) : pystr :=
  (if first then [] else [32]) ++ s ++ (if last then [] else [32]).

Fixpoint pieces_from (first : bool) (segments : list pystr) : list pystr :=
  match segments with
  | [] => []
  | [s] => [piece first true s]
  | s :: rest => piece first false s :: pieces_from false rest
  end.

(** ** Texts of ASCII characters, and the number that a text of digits writes *)

Definition is_ascii (s : pystr) : bool := forallb (fun c => c <? 128) s.

(** The [string] of a text of characters below 256: the inverse of [py]. *)
Definition unpy (s : pystr) : string := string_of_list_ascii (map ascii_of_N s).

(** [int(s)] for a text of decimal digits. *)
Definition int_of_str (s : pystr) : option N :=
  N.of_uint <$> NilEmpty.uint_of_string (unpy s).

(** ** More sample reports *)

Definition day_2024_01_02 : Date := {| year := 2024; month := 1; day := 2 |}.

(** The units of the scenario, and a unit one level below them. *)
Definition photos_units : list (pystr * pystr) :=
  [(py "20minutes_web", py "1"); (py "News", py "2"); (py "Photos_Diapo", py "3")].

Definition banner_units : list (pystr * pystr) :=
  photos_units ++ [(py "Banner_top", py "4")].

(** ** Days: the calendar of [datetime.date] *)

Definition is_leap (year : Z) : bool :=
  ((year mod 4 =? 0) && (negb (year mod 100 =? 0) || (year mod 400 =? 0)))%Z.

(** The number of days before January 1st of [year]. *)
Definition days_before_year (year : Z) : Z :=
  let y := (year - 1)%Z in (y * 365 + y / 4 - y / 100 + y / 400)%Z.

Definition DAYS_IN_MONTH : list Z :=
  [-1; 31; 28; 31; 30; 31; 30; 31; 31; 30; 31; 30; 31]%Z.

Definition DAYS_BEFORE_MONTH : list Z :=
  [-1; 0; 31; 59; 90; 120; 151; 181; 212; 243; 273; 304; 334]%Z.

Definition days_before_month (year month : Z) : Z :=
  (nth (Z.to_nat month) DAYS_BEFORE_MONTH 0
   + (if (2 <? month) && is_leap year then 1 else 0))%Z.

(** The ordinal of a day, 0001-01-01 being day 1. *)
Definition ymd2ord (year month day : Z) : Z :=
  (days_before_year year + days_before_month year month + day)%Z.

Definition DI400Y : Z := Eval cbv in days_before_year 401.
Definition DI100Y : Z := Eval cbv in days_before_year 101.
Definition DI4Y : Z := Eval cbv in days_before_year 5.

Definition ord2ymd (n : Z) : Z * Z * Z :=
  let n := (n - 1)%Z in
  let n400 := (n / DI400Y)%Z in
  let n := (n mod DI400Y)%Z in
  let year := (n400 * 400 + 1)%Z in
  let n100 := (n / DI100Y)%Z in
  let n := (n mod DI100Y)%Z in
  let n4 := (n / DI4Y)%Z in
  let n := (n mod DI4Y)%Z in
  let n1 := (n / 365)%Z in
  let n := (n mod 365)%Z in
  let year := (year + (n100 * 100 + n4 * 4 + n1))%Z in
  if ((n1 =? 4) || (n100 =? 4))%Z then ((year - 1)%Z, 12%Z, 31%Z)
  else
    let leapyear := ((n1 =? 3) && (negb (n4 =? 24) || (n100 =? 3)))%Z in
    let month := Z.shiftr (n + 50) 5 in
    let preceding :=
      (nth (Z.to_nat month) DAYS_BEFORE_MONTH 0
       + (if (2 <? month) && leapyear then 1 else 0))%Z in
    if (n <? preceding)%Z then
      let month := (month - 1)%Z in
      let preceding :=
        (preceding
         - (nth (Z.to_nat month) DAYS_IN_MONTH 0
            + (if (month =? 2) && leapyear then 1 else 0)))%Z in
      (year, month, (n - preceding + 1)%Z)
    else (year, month, (n - preceding + 1)%Z).

(** The ordinal of 9999-12-31. *)
Definition MAXORDINAL : Z := 3652059.

Definition toordinal (d : Date) : Z :=
  ymd2ord (Z.of_N (year d)) (Z.of_N (month d)) (Z.of_N (day d)).

Definition fromordinal (n : Z) : Date :=
  let '(y, m, d) := ord2ymd n in
  {| year := Z.to_N y; month := Z.to_N m; day := Z.to_N d |}.

(** [d + timedelta(days)]; [None] stands for its [OverflowError]. *)
Definition date_add (d : Date) (days : Z) : option Date :=
  let o := (toordinal d + days)%Z in
  if ((0 <? o) && (o <=? MAXORDINAL))%Z then Some (fromordinal o) else None.

(** [d - timedelta(days)]. *)
Definition date_sub (d : Date) (days : Z) : option Date := date_add d (- days).

(** [(a - b).days] for two dates. *)
Definition days_between (a b : Date) : Z := (toordinal a - toordinal b)%Z.

(** [p] on every number from 0 below [k]. *)
Definition all_below (p : Z -> bool) (k : N) : bool :=
  snd (N.iter k (fun st => ((fst st + 1)%Z, snd st && p (fst st))) (0%Z, true)).

(** The three facts about the tables of the calendar that the proof of
    [ord2ymd] checks case by case.  For the years of a cycle of 400, by
    their centuries, their groups of four years and their years: the days
    before the year, and whether it is a leap year. *)
Definition year_check (n100 n4 n1 : Z) : bool :=
  let year := (1 + (n100 * 100 + n4 * 4 + n1))%Z in
  ((days_before_year year =? 36524 * n100 + 1461 * n4 + 365 * n1)%Z
   && Bool.eqb (is_leap year) ((n1 =? 3) && (negb (n4 =? 24) || (n100 =? 3)))%Z).

(** For the days of a year but the last of a leap year: the month and the
    day of the month that [ord2ymd] finds. *)
Definition day_check (leapyear : bool) (n : Z) : bool :=
  let month := Z.shiftr (n + 50) 5 in
  let preceding :=
    (nth (Z.to_nat month) DAYS_BEFORE_MONTH 0
     + (if (2 <? month) && leapyear then 1 else 0))%Z in
  let '(m, d) :=
    if (n <? preceding)%Z then
      let month := (month - 1)%Z in
      let preceding :=
        (preceding
         - (nth (Z.to_nat month) DAYS_IN_MONTH 0
            + (if (month =? 2) && leapyear then 1 else 0)))%Z in
      (month, (n - preceding + 1)%Z)
    else (month, (n - preceding + 1)%Z) in
  ((1 <=? m) && (m <=? 12) && (1 <=? d) && (d <=? 31)
   && (nth (Z.to_nat m) DAYS_BEFORE_MONTH 0
       + (if (2 <? m) && leapyear then 1 else 0) + d =? n + 1))%Z.

(** For the last day of a group of four years: the ordinal of December
    31st. *)
Definition year_end_check (n100 n4 : Z) : bool :=
  (ymd2ord (n100 * 100 + n4 * 4 + 4) 12 31 =? 36524 * n100 + 1461 * n4 + 1461)%Z.

(** * The program: the report service, the temporary files and the console *)

Module Pipeline.

(** What a run can raise: the use of a local variable that was never
    assigned, a date beyond the calendar, or an exception of the
    transformer or of the publisher. *)
Inductive error : Type :=
| UnboundLocalError (name : pystr)
| OverflowError
| Raised (e : exn).

Inductive outcome (A : Type) : Type :=
| Returned (a : A)
| Failed (e : error).
Arguments Returned {A} a.
Arguments Failed {A} e.

(** [report_job['reportQuery']], lines 32 to 41. *)
Record ReportQuery : Type := {
  dimensions : list pystr;
  adUnitView : pystr;
  columns : list pystr;
  dateRangeType : pystr;
  startDate : Date;
  endDate : Date
}.

Set Implicit Arguments.
Set Maximal Implicit Insertion.

(** The report service behind a client.  [WaitForReport] answers a query
    with the identifier of the finished job, or raises
    [AdManagerReportError] with a message ([inl]); [DownloadReportToFile]
    writes the report of a job, here as the table that [pd.read_csv] makes
    of the file.  The service answers a query the same way each time it is
    asked; its other failures (the network, the credentials) and those of
    the upload are left out, as is a configuration file that
    [LoadFromStorage] cannot read. *)
Record AdManagerClient (float : Type) : Type := {
  WaitForReport : ReportQuery -> pystr + N;
  DownloadReportToFile : N -> list (RawRow float)
}.

(** What a run acts on: the lines printed, the temporary files by order of
    creation (with the table written to each, if any), the jobs whose
    report was downloaded, and the objects of the bucket. *)
Record World (float : Type) : Type := {
  stdout : list pystr;
  temporary_files : list (option (list (RawRow float)));
  downloads : list N;
  gcs : gmap pystr (list byte)
}.

Unset Maximal Implicit Insertion.
Unset Implicit Arguments.

Section Run.
Context {F : Float64}.

(** [print(line)]: one more line on the console. *)
Definition print (line : pystr) (w : World float) : World float :=
  {| stdout := stdout w ++ [line];
     temporary_files := temporary_files w;
     downloads := downloads w;
     gcs := gcs w |}.

(** [tempfile.NamedTemporaryFile(suffix='.csv.gz', mode='wb',
    delete=False)], then what the body of the [with] writes: the file
    stays when it is closed. *)
Definition NamedTemporaryFile (content : option (list (RawRow float)))
    (w : World float) : World float :=
  {| stdout := stdout w;
     temporary_files := temporary_files w ++ [content];
     downloads := downloads w;
     gcs := gcs w |}.

(** The report of a job has been asked of [DownloadReportToFile]. *)
Definition downloaded (report_job_id : N) (w : World float) : World float :=
  {| stdout := stdout w;
     temporary_files := temporary_files w;
     downloads := downloads w ++ [report_job_id];
     gcs := gcs w |}.

(** [send_to_gs] has left the bucket as [bucket]. *)
Definition uploaded (bucket : gmap pystr (list byte)) (w : World float) : World float :=
  {| stdout := stdout w;
     temporary_files := temporary_files w;
     downloads := downloads w;
     gcs := bucket |}.

(** Line 17. *)
Definition authentificate_ad_manager
    (LoadFromStorage : pystr -> AdManagerClient float) (path_yaml : pystr)
    : AdManagerClient float :=
  LoadFromStorage path_yaml.

Definition report_job (report_date : Date) : ReportQuery :=
  {| dimensions := [py "DATE"; py "AD_UNIT_ID"; py "AD_UNIT_NAME"];
     adUnitView := py "FLAT";
     columns := [py "TOTAL_LINE_ITEM_LEVEL_IMPRESSIONS";
                 py "TOTAL_LINE_ITEM_LEVEL_ALL_REVENUE";
                 py "TOTAL_AD_REQUESTS"];
     dateRangeType := py "CUSTOM_DATE";
     startDate := report_date;
     endDate := report_date |}.

(** Lines 44 to 51.  The handler of [AdManagerReportError] prints and
    goes on, with [report_job_id] not assigned; the temporary file is
    opened before the arguments of [DownloadReportToFile] are evaluated.
    The function returns the file, here the table in it. *)
Definition get_report_data (ad_manager_client : AdManagerClient float) (report_date : Date)
    (w : World float) : World float * outcome (list (RawRow float)) :=
  let '(report_job_id, w) :=
    match WaitForReport ad_manager_client (report_job report_date) with
    | inr id => (Some id, w)
    | inl e => (None, print (py "Failed to generate report. Error was: " ++ e) w)
    end in
  match report_job_id with
  | None => (NamedTemporaryFile None w, Failed (UnboundLocalError (py "report_job_id")))
  | Some id =>
      let report := DownloadReportToFile ad_manager_client id in
      (NamedTemporaryFile (Some report) (downloaded id w), Returned report)
  end.

(** Lines 126 to 132, for [param = [ad_manager_client, date_]]. *)
Definition data_processing (ad_manager_client : AdManagerClient float) (date_ : Date)
    (w : World float) : World float * outcome unit :=
  match get_report_data ad_manager_client date_ w with
  | (w, Failed e) => (w, Failed e)
  | (w, Returned report_file) =>
      match transform_report_data report_file with
      | Raise e => (w, Failed (Raised e))
      | Ok df_report =>
          match send_to_gs df_report (name_file date_) (gcs w) with
          | Raise e => (w, Failed (Raised e))
          | Ok bucket => (uploaded bucket w, Returned tt)
          end
      end
  end.

(** [for x in items: body(x)]: an exception ends the loop. *)
Fixpoint for_in {A : Type} (items : list A)
    (body : A -> World float -> World float * outcome unit)
    (w : World float) : World float * outcome unit :=
  match items with
  | [] => (w, Returned tt)
  | x :: rest =>
      match body x w with
      | (w, Returned _) => for_in rest body w
      | (w, Failed e) => (w, Failed e)
      end
  end.

(** [range(n)]: empty when [n] is not positive. *)
Definition range (n : Z) : list Z := map Z.of_nat (seq 0 (Z.to_nat n)).

(** The bytes that a run for [date_] uploads when it returns: the
    encoded CSV text of the transformed report of that day. *)
Definition expected_object (client : AdManagerClient float) (date_ : Date)
    : option (list byte) :=
  match WaitForReport client (report_job date_) with
  | inl _ => None
  | inr id =>
      match transform_report_data (DownloadReportToFile client id) with
      | Raise _ => None
      | Ok df_report =>
          match encode (to_csv df_report) with
          | Raise _ => None
          | Ok f => Some f
          end
      end
  end.

(** The [count] days from [first] on. *)
Definition days_from (first : Date) (count : Z) : list Date :=
  map (fun i => fromordinal (toordinal first + i)) (range count).

(** One turn of the loop of lines 158 to 166, and lines 147 to 150. *)
Definition process_and_print (client : AdManagerClient float) (date_ : Date)
    (w : World float) : World float * outcome unit :=
  match data_processing client date_ w with
  | (w, Returned _) => (print (isoformat date_) w, Returned tt)
  | (w, Failed e) => (w, Failed e)
  end.

(** Line 138. *)
Definition historical : bool := false.

Definition path_yaml : pystr := py "src/googleads.yaml".

(** Line 154. *)
Definition from_date : Date := {| year := 2021; month := 7; day := 20 |}.

(** Lines 146 to 150, [today] being [date.today()]. *)
Definition daily_extraction (client : AdManagerClient float) (today : Date)
    (w : World float) : World float * outcome unit :=
  match date_sub today 1 with
  | None => (w, Failed OverflowError)
  | Some date_ =>
      let w := print (py "Extraction") w in
      process_and_print client date_ w
  end.

(** Lines 154 to 166. *)
Definition historical_extraction (client : AdManagerClient float) (today : Date)
    (w : World float) : World float * outcome unit :=
  match date_sub today 1 with
  | None => (w, Failed OverflowError)
  | Some to_date =>
      let n := (days_between to_date from_date + 1)%Z in
      let w := print (py "Extraction") w in
      for_in (range n)
        (fun i w =>
           match date_add from_date i with
           | None => (w, Failed OverflowError)
           | Some date_ => process_and_print client date_ w
           end)
        w
  end.

(** Lines 135 to 166. *)
Definition main (LoadFromStorage : pystr -> AdManagerClient float) (today : Date)
    (w : World float) : World float * outcome unit :=
  let client := authentificate_ad_manager LoadFromStorage path_yaml in
  let w := print (py "Authentification : Done") w in
  if negb historical then daily_extraction client today w
  else historical_extraction client today w.

End Run.

End Pipeline.

(** ** Sample services *)

(** A service that gives the report of the scenario for every day. *)
Definition sample_client : Pipeline.AdManagerClient PrimFloat.float :=
  {| Pipeline.WaitForReport := fun _ => inr 7;
     Pipeline.DownloadReportToFile := fun _ => [report_row photos_path_split 100 5.5 120] |}.

Definition day_2021_07_21 : Date := {| year := 2021; month := 7; day := 21 |}.
Definition day_2021_07_22 : Date := {| year := 2021; month := 7; day := 22 |}.
Definition day_2021_07_23 : Date := {| year := 2021; month := 7; day := 23 |}.

(** The same service, but the report of 2021-07-21 fails to generate. *)
Definition failing_client : Pipeline.AdManagerClient PrimFloat.float :=
  {| Pipeline.WaitForReport := fun query =>
       if bool_decide (Pipeline.startDate query = day_2021_07_21)
       then inl (py "FAILED") else inr 7;
     Pipeline.DownloadReportToFile := fun _ => [report_row photos_path_split 100 5.5 120] |}.

Definition empty_world : Pipeline.World PrimFloat.float :=
  {| Pipeline.stdout := []; Pipeline.temporary_files := [];
     Pipeline.downloads := []; Pipeline.gcs := ∅ |}.

(** * Properties *)

(** ** Strings *)

Lemma str_eqb_eq (a b : pystr) : str_eqb a b = true <-> a = b.
Proof.
  revert b. induction a as [|x a IH]; intros [|y b]; simpl; split; try easy.
  - intros H. apply andb_true_iff in H as [Hx Hab].
    apply N.eqb_eq in Hx. apply IH in Hab. congruence.
  - intros H. injection H as -> ->. rewrite N.eqb_refl. simpl. now apply IH.
Qed.

Lemma startswith_prefix (p s : pystr) :
  startswith p s = true <-> exists q, s = p ++ q.
Proof.
  revert s. induction p as [|x p IH]; intros s; simpl.
  - split; [intros _; now exists s | easy].
  - destruct s as [|y s].
    + split; [easy | intros [q Hq]; discriminate].
    + rewrite andb_true_iff, N.eqb_eq, IH. split.
      * intros [-> [q ->]]. now exists q.
      * intros [q Hq]. injection Hq as -> ->. split; [easy | now exists q].
Qed.

Lemma endswith_suffix (p s : pystr) :
  endswith p s = true <-> exists q, s = q ++ p.
Proof.
  unfold endswith. rewrite startswith_prefix. split.
  - intros [q Hq]. exists (rev q).
    rewrite <- (rev_involutive s), Hq, rev_app_distr, rev_involutive. reflexivity.
  - intros [q ->]. exists (rev q). apply rev_app_distr.
Qed.

Lemma str_compare_eq (a b : pystr) : str_compare a b = Eq -> a = b.
Proof.
  revert b. induction a as [|x a IH]; intros [|y b]; simpl; try easy.
  destruct (x ?= y) eqn:Hxy; try easy.
  apply N.compare_eq in Hxy. intros H. apply IH in H. congruence.
Qed.

Lemma str_compare_refl (a : pystr) : str_compare a a = Eq.
Proof. induction a as [|x a IH]; simpl; [easy|]. now rewrite N.compare_refl. Qed.

Lemma date_compare_eq (a b : Date) : date_compare a b = Eq -> a = b.
Proof.
  destruct a as [ya ma da], b as [yb mb db]. unfold date_compare. simpl.
  destruct (ya ?= yb) eqn:Hy; try easy.
  destruct (ma ?= mb) eqn:Hm; try easy.
  intros Hd. apply N.compare_eq in Hy, Hm, Hd. congruence.
Qed.

Lemma date_compare_refl (a : Date) : date_compare a a = Eq.
Proof. unfold date_compare. now rewrite !N.compare_refl. Qed.

(** ** The error monad *)

Lemma traverse_app {A B : Type} (f : A -> result B) (l1 l2 : list A) :
  traverse f (l1 ++ l2) =
  match traverse f l1 with
  | Ok a => match traverse f l2 with
            | Ok b => Ok (a ++ b)
            | Raise e => Raise e
            end
  | Raise e => Raise e
  end.
Proof.
  induction l1 as [|x l1 IH]; simpl.
  - now destruct (traverse f l2).
  - destruct (f x) as [b|e]; simpl; [|easy]. rewrite IH.
    destruct (traverse f l1) as [a|e]; simpl; [|easy].
    now destruct (traverse f l2).
Qed.

Lemma traverse_In {A B : Type} (f : A -> result B) (l : list A) (bs : list B) a b :
  traverse f l = Ok bs -> In a l -> f a = Ok b -> In b bs.
Proof.
  revert bs. induction l as [|x l IH]; intros bs Hl Ha Hb; [easy|].
  simpl in Hl. destruct (f x) as [bx|e] eqn:Hx; simpl in Hl; [|easy].
  destruct (traverse f l) as [bl|e]; simpl in Hl; [|easy].
  injection Hl as <-. destruct Ha as [->|Ha].
  - left. congruence.
  - right. now apply IH.
Qed.


(** ** Grouping *)

Lemma key_compare_eq (a b : GroupKey) : key_compare a b = Eq -> a = b.
Proof.
  destruct a as [d1 v1 s1 t1], b as [d2 v2 s2 t2]. unfold key_compare. simpl.
  destruct (date_compare d1 d2) eqn:Hd; try easy.
  destruct (str_compare v1 v2) eqn:Hv; try easy.
  destruct (str_compare s1 s2) eqn:Hs; try easy.
  intros Ht. apply date_compare_eq in Hd.
  apply str_compare_eq in Hv, Hs, Ht. congruence.
Qed.

Lemma key_compare_refl (a : GroupKey) : key_compare a a = Eq.
Proof.
  unfold key_compare. now rewrite date_compare_refl, !str_compare_refl.
Qed.

Lemma key_eqb_eq (a b : GroupKey) : key_eqb a b = true <-> a = b.
Proof.
  unfold key_eqb. split.
  - destruct (key_compare a b) eqn:H; try easy. intros _. now apply key_compare_eq.
  - intros ->. now rewrite key_compare_refl.
Qed.

Lemma key_eqb_refl (a : GroupKey) : key_eqb a a = true.
Proof. now apply key_eqb_eq. Qed.

Lemma existsb_key_In (k : GroupKey) (l : list GroupKey) :
  existsb (key_eqb k) l = true <-> In k l.
Proof.
  rewrite existsb_exists. split.
  - intros [x [Hx Hk]]. apply key_eqb_eq in Hk. congruence.
  - intros H. exists k. split; [easy | apply key_eqb_refl].
Qed.

Lemma unique_In (seen keys : list GroupKey) (k : GroupKey) :
  In k (unique seen keys) <-> In k keys /\ ~ In k seen.
Proof.
  revert seen. induction keys as [|x keys IH]; intros seen; simpl; [tauto|].
  destruct (existsb (key_eqb x) seen) eqn:Hx.
  - apply existsb_key_In in Hx. rewrite IH. split.
    + tauto.
    + intros [[->|H] Hn]; tauto.
  - assert (~ In x seen) as Hn.
    { intros H. apply existsb_key_In in H. congruence. }
    simpl. rewrite IH. simpl. split.
    + intros [->|[H1 H2]]; tauto.
    + intros [[->|H] Hs]; [tauto|].
      destruct (key_eqb x k) eqn:Hxk.
      * apply key_eqb_eq in Hxk. tauto.
      * right. split; [easy|]. intros [->|H']; [|tauto].
        now rewrite key_eqb_refl in Hxk.
Qed.

Lemma unique_NoDup (seen keys : list GroupKey) : List.NoDup (unique seen keys).
Proof.
  revert seen. induction keys as [|x keys IH]; intros seen; simpl.
  - constructor.
  - destruct (existsb (key_eqb x) seen); [apply IH|].
    constructor; [|apply IH].
    intros H. apply unique_In in H. simpl in H. tauto.
Qed.

Lemma insert_sorted_Permutation (k : GroupKey) (l : list GroupKey) :
  Permutation (insert_sorted k l) (k :: l).
Proof.
  induction l as [|h t IH]; simpl; [easy|].
  destruct (key_leb k h); [easy|].
  rewrite IH. apply perm_swap.
Qed.

Lemma sort_keys_Permutation (l : list GroupKey) : Permutation (sort_keys l) l.
Proof.
  induction l as [|k l IH]; simpl; [easy|].
  rewrite insert_sorted_Permutation. now constructor.
Qed.

Section GroupingFacts.
Context {F : Float64}.


Lemma In_omap_group_key (df : list (Row float)) (k : GroupKey) :
  In k (omap group_key df) <-> exists r, In r df /\ group_key r = Some k.
Proof.
  induction df as [|x df IH]; simpl.
  - split; [easy | intros [r [[] _]]].
  - destruct (group_key x) as [kx|] eqn:Hx; simpl; rewrite IH; split.
    + intros [<-|[r [Hr Hk]]]; [exists x; tauto | exists r; tauto].
    + intros [r [[->|Hr] Hk]]; [left; congruence | right; now exists r].
    + intros [r [Hr Hk]]. exists r. tauto.
    + intros [r [[->|Hr] Hk]]; [congruence | now exists r].
Qed.

Lemma group_keys_In (df : list (Row float)) (k : GroupKey) :
  In k (group_keys df) <-> exists r, In r df /\ group_key r = Some k.
Proof.
  unfold group_keys. rewrite <- In_omap_group_key. split; intros H.
  - apply (Permutation_in _ (sort_keys_Permutation _)) in H.
    now apply unique_In in H.
  - apply (Permutation_in _ (Permutation_sym (sort_keys_Permutation _))).
    apply unique_In. simpl. tauto.
Qed.

Lemma group_keys_NoDup (df : list (Row float)) : List.NoDup (group_keys df).
Proof.
  unfold group_keys.
  eapply Permutation_NoDup; [apply Permutation_sym, sort_keys_Permutation|].
  apply unique_NoDup.
Qed.

Lemma groupby_sum_keys (df : list (Row float)) :
  map agg_key (groupby_sum df) = group_keys df.
Proof.
  unfold groupby_sum. rewrite map_map.
  rewrite <- (map_id (group_keys df)) at 2. apply map_ext.
  now intros [d v s t].
Qed.


(** A row without a key is in no group. *)
Lemma groupby_sum_drop (before after : list (Row float)) (r : Row float) :
  group_key r = None ->
  groupby_sum (before ++ r :: after) = groupby_sum (before ++ after).
Proof.
  intros Hr. unfold groupby_sum, group_keys.
  assert (omap group_key (before ++ r :: after) = omap group_key (before ++ after)) as ->.
  { rewrite !omap_app. simpl. now rewrite Hr. }
  apply map_ext. intros k. f_equal.
  rewrite !List.filter_app. simpl. unfold in_group at 2. now rewrite Hr.
Qed.

End GroupingFacts.

(** ** Sums over groups *)

Lemma sum_int_zero {A : Type} (l : list A) : sum_int (map (fun _ => 0%Z) l) = 0%Z.
Proof. induction l as [|x l IH]; simpl; [easy|]. now rewrite IH. Qed.

Lemma sum_int_add {A : Type} (g h : A -> Z) (l : list A) :
  sum_int (map (fun x => (g x + h x)%Z) l) = (sum_int (map g l) + sum_int (map h l))%Z.
Proof. induction l as [|x l IH]; simpl; [easy|]. rewrite IH. lia. Qed.

Lemma sum_int_indicator_out (k0 : GroupKey) (v : Z) (ks : list GroupKey) :
  ~ In k0 ks ->
  sum_int (map (fun k => if key_eqb k0 k then v else 0%Z) ks) = 0%Z.
Proof.
  induction ks as [|k ks IH]; simpl; [easy|]. intros Hn.
  destruct (key_eqb k0 k) eqn:Hk.
  - apply key_eqb_eq in Hk. exfalso. apply Hn. now left.
  - rewrite IH; [easy | tauto].
Qed.

Lemma sum_int_indicator_in (k0 : GroupKey) (v : Z) (ks : list GroupKey) :
  List.NoDup ks -> In k0 ks ->
  sum_int (map (fun k => if key_eqb k0 k then v else 0%Z) ks) = v.
Proof.
  induction ks as [|k ks IH]; simpl; [easy|]. intros Hnd Hin.
  apply List.NoDup_cons_iff in Hnd as [Hk Hnd].
  destruct (key_eqb k0 k) eqn:Hk0.
  - apply key_eqb_eq in Hk0. subst k. rewrite sum_int_indicator_out; [lia | easy].
  - destruct Hin as [->|Hin]; [now rewrite key_eqb_refl in Hk0|].
    rewrite IH; [lia | easy | easy].
Qed.

Section Sums.
Context {F : Float64}.

(** The groups partition the rows that have a key: summing a column group
    by group, then over the groups, is summing it over those rows. *)
Lemma sum_over_groups (f : Row float -> Z) (ks : list GroupKey) (df : list (Row float)) :
  List.NoDup ks ->
  (forall r k, In r df -> group_key r = Some k -> In k ks) ->
  sum_int (map (fun k => sum_int (map f (List.filter (in_group k) df))) ks)
  = sum_int (map f (List.filter (fun r => bool_decide (is_Some (group_key r))) df)).
Proof.
  intros Hnd. induction df as [|r df IH]; intros Hks.
  - apply sum_int_zero.
  - assert (IH' := IH (fun r' k Hr' => Hks r' k (or_intror Hr'))). clear IH.
    cbn [List.filter]. destruct (group_key r) as [k0|] eqn:Hr.
    + rewrite bool_decide_eq_true_2 by eauto. cbn [map sum_int fold_right].
      fold (sum_int (map f (List.filter
        (fun r => bool_decide (is_Some (group_key r))) df))).
      rewrite <- IH'.
      rewrite <- (sum_int_indicator_in k0 (f r) ks Hnd) at 1
        by (apply (Hks r); [now left | easy]).
      rewrite <- sum_int_add. f_equal. apply map_ext. intros k.
      unfold in_group at 1. rewrite Hr. now destruct (key_eqb k0 k).
    + rewrite bool_decide_eq_false_2 by (intros [k Hk]; discriminate).
      rewrite <- IH'. f_equal. apply map_ext. intros k.
      unfold in_group at 1. now rewrite Hr.
Qed.

Lemma groupby_sum_total (f : Row float -> Z) (g : AggregatedRow float -> Z) (df : list (Row float)) :
  (forall k, In k (group_keys df) ->
             g (sum_group k (List.filter (in_group k) df))
             = sum_int (map f (List.filter (in_group k) df))) ->
  sum_int (map g (groupby_sum df))
  = sum_int (map f (List.filter (fun r => bool_decide (is_Some (group_key r))) df)).
Proof.
  intros Hg. unfold groupby_sum. rewrite map_map.
  rewrite <- (sum_over_groups f (group_keys df) df).
  - f_equal. apply map_ext_in. intros k Hk. now apply Hg.
  - apply group_keys_NoDup.
  - intros r k Hr Hk. apply group_keys_In. now exists r.
Qed.

(** ** Rows that reach no group *)

Lemma aggregated_drop (before after : list (RawRow float)) (r : RawRow float) (row : Row float) :
  derive_columns r = Ok row ->
  filter_1 row && filter_2 row = false \/ group_key row = None ->
  aggregated (before ++ r :: after) = aggregated (before ++ after).
Proof.
  intros Hr Hdrop. unfold aggregated, filtered.
  rewrite !traverse_app. simpl. rewrite Hr. simpl.
  destruct (traverse derive_columns before) as [a|e]; [|easy].
  destruct (traverse derive_columns after) as [b|e]; [|easy].
  simpl. f_equal. rewrite !List.filter_app. simpl.
  destruct (filter_1 row && filter_2 row) eqn:Hf; [|easy].
  destruct Hdrop as [Hd|Hd]; [easy|]. now apply groupby_sum_drop.
Qed.

Lemma filtered_In (report : list (RawRow float)) (kept : list (Row float)) (r : RawRow float) (row : Row float) :
  filtered report = Ok kept -> In r report -> derive_columns r = Ok row ->
  filter_1 row = true -> filter_2 row = true -> In row kept.
Proof.
  unfold filtered. intros Hk Hr Hrow H1 H2.
  destruct (traverse derive_columns report) as [df|e] eqn:Hdf; [|easy].
  simpl in Hk. injection Hk as <-. apply filter_In. split.
  - eapply traverse_In; eauto.
  - now rewrite H1, H2.
Qed.

End Sums.

(** ** The derived columns and the filters *)

Lemma lookup_device_types_other (v : pystr) :
  v <> py "20minutes_web" -> v <> py "20minutes_web_video_P2" ->
  v <> py "20minutes_mobile" -> device_types !! v = None.
Proof.
  intros H1 H2 H3. unfold device_types.
  rewrite lookup_insert_ne by congruence.
  rewrite lookup_insert_ne by congruence.
  apply lookup_singleton_ne. congruence.
Qed.

Section Columns.
Context {F : Float64}.

Lemma derive_columns_device_type (r : RawRow float) (row : Row float) :
  derive_columns r = Ok row ->
  device_type row = replace device_types (ad_unit_level_0 row).
Proof.
  unfold derive_columns. intros H.
  destruct (to_datetime (Dimension_DATE r)); simpl in H; [|easy].
  destruct (astype_float (Column_TOTAL_LINE_ITEM_LEVEL_ALL_REVENUE r)); simpl in H; [|easy].
  now injection H as <-.
Qed.

Lemma derive_columns_raises (r : RawRow float) (e : exn) :
  derive_columns r = Raise e -> e = ValueError.
Proof.
  unfold derive_columns. intros H.
  destruct (Dimension_DATE r); simpl in H; [|congruence].
  destruct (Column_TOTAL_LINE_ITEM_LEVEL_ALL_REVENUE r); simpl in H; [easy|congruence].
Qed.

Lemma eq_value_spec (cell : option pystr) (value : pystr) :
  eq_value cell value = true <-> cell = Some value.
Proof.
  destruct cell as [s|]; simpl; [|easy].
  rewrite str_eqb_eq. split; congruence.
Qed.

Lemma filter_1_spec (row : Row float) :
  filter_1 row = true <->
  ad_unit_level_0 row = Some (py "20minutes_web")
  \/ ad_unit_level_0 row = Some (py "20minutes_web_video_P2")
  \/ ad_unit_level_0 row = Some (py "20minutes_mobile").
Proof.
  unfold filter_1. rewrite !orb_true_iff, !eq_value_spec. tauto.
Qed.

Lemma filter_2_spec (row : Row float) :
  filter_2 row = true <->
  (exists s q, sub_section row = Some s /\ s = q ++ py "_Diapo")
  \/ (exists s q, sub_section row = Some s /\ s = q ++ py "_art")
  \/ section row = Some (py "amp").
Proof.
  unfold filter_2, logical_or, str_endswith.
  rewrite <- eq_value_spec.
  destruct (sub_section row) as [s|]; simpl.
  - rewrite !orb_true_iff, !endswith_suffix. split.
    + intros [[[q Hq]|[q Hq]]|H]; [left|right; left|right; right]; eauto.
    + intros [[s' [q [Hs Hq]]]|[[s' [q [Hs Hq]]]|H]].
      * left. left. exists q. congruence.
      * left. right. exists q. congruence.
      * now right.
  - split.
    + intros H. now right; right.
    + intros [[s [q [Hs _]]]|[[s [q [Hs _]]]|H]]; easy.
Qed.

(** A row that Filter 1 keeps has a device type. *)
Lemma filter_1_device_type (r : RawRow float) (row : Row float) :
  derive_columns r = Ok row -> filter_1 row = true ->
  exists dev, device_type row = Some dev.
Proof.
  intros Hr H1. rewrite (derive_columns_device_type r row Hr).
  apply filter_1_spec in H1.
  destruct (ad_unit_level_0 row) as [v|]; simpl; [eauto|].
  destruct H1 as [H|[H|H]]; discriminate.
Qed.

Lemma filtered_derived (report : list (RawRow float)) (kept : list (Row float)) (row : Row float) :
  filtered report = Ok kept -> In row kept ->
  (exists r, In r report /\ derive_columns r = Ok row)
  /\ filter_1 row = true /\ filter_2 row = true.
Proof.
  unfold filtered. intros Hk Hrow.
  destruct (traverse derive_columns report) as [df|e] eqn:Hdf; [|easy].
  simpl in Hk. injection Hk as <-. apply filter_In in Hrow as [Hrow Hf].
  apply andb_true_iff in Hf. split; [|easy].
  clear Hf. revert df Hdf Hrow.
  induction report as [|x report IH]; intros df Hdf Hrow; simpl in Hdf.
  - injection Hdf as <-. easy.
  - destruct (derive_columns x) as [bx|e] eqn:Hx; simpl in Hdf; [|easy].
    destruct (traverse derive_columns report) as [bl|e]; simpl in Hdf; [|easy].
    injection Hdf as <-. destruct Hrow as [<-|Hrow].
    + exists x. split; [now left | easy].
    + destruct (IH bl eq_refl Hrow) as [r [Hr Hd]]. exists r. split; [now right | easy].
Qed.

End Columns.

(** ** The [.str] accessor, column by column *)

Lemma str_get_nat {A : Type} (i : nat) (l : list A) :
  str_get (Z.of_nat i) l = nth_error l i.
Proof.
  unfold str_get.
  destruct (Z.leb_spec 0 (Z.of_nat i)); [|lia].
  destruct (Z.ltb_spec (Z.of_nat i) (Z.of_nat (length l))); simpl.
  - now rewrite Nat2Z.id.
  - destruct (Z.ltb_spec (Z.of_nat i) 0); [lia|]. rewrite andb_false_r.
    symmetry. apply nth_error_None. lia.
Qed.

Lemma str_get_last {A : Type} (l : list A) :
  l <> [] -> str_get (-1) l = nth_error l (length l - 1).
Proof.
  intros Hne. unfold str_get.
  assert (0 < length l)%nat by (destruct l; [easy | simpl; lia]).
  destruct (Z.leb_spec 0 (-1)); [lia|]. simpl.
  destruct (Z.leb_spec (- Z.of_nat (length l)) (-1)); [|lia].
  destruct (Z.ltb_spec (-1) 0); [|lia]. simpl. f_equal. lia.
Qed.

Lemma isna_nth_error {A : Type} (l : list A) (i : nat) :
  isna (nth_error l i) = (length l <=? i)%nat.
Proof.
  destruct (Nat.leb_spec (length l) i) as [H|H].
  - apply nth_error_None in H. now rewrite H.
  - destruct (nth_error l i) eqn:E; [easy|]. apply nth_error_None in E. lia.
Qed.

Lemma split_go_nonempty (sep : pystr) (skip : nat) (cur s : pystr) :
  split_go sep skip cur s <> [].
Proof.
  revert skip cur. induction s as [|c s IH]; intros skip cur; simpl; [easy|].
  destruct skip as [|k]; [|apply IH].
  destruct (startswith sep (c :: s)); [easy | apply IH].
Qed.

Lemma all_nan_map {A B : Type} (f : A -> option B) (l : list A) :
  all_nan (map f l)
  = match l with
    | [] => false
    | _ => forallb (fun a => isna (f a)) l
    end.
Proof.
  destruct l as [|a l]; [reflexivity|].
  unfold all_nan. cbn [map forallb]. f_equal.
  induction l as [|b l IH]; [reflexivity|]. cbn [map forallb]. now rewrite IH.
Qed.

Section Accessors.
Context {F : Float64}.

Lemma levels_pos (r : RawRow float) : (1 <= levels r)%nat.
Proof.
  unfold levels, split.
  pose proof (split_go_nonempty delimiter 0 [] (Dimension_AD_UNIT_NAME r)) as H.
  destruct (split_go delimiter 0 [] (Dimension_AD_UNIT_NAME r)); [easy | simpl; lia].
Qed.

(** The column of [.str[i]] is of NaN only when the report has rows and
    none has more than [i] pieces. *)
Lemma all_nan_str_get (i : nat) (report : list (RawRow float)) :
  all_nan (map (str_get (Z.of_nat i))
             (map (fun r => split delimiter (Dimension_AD_UNIT_NAME r)) report))
  = match report with
    | [] => false
    | _ => forallb (fun r => (levels r <=? i)%nat) report
    end.
Proof.
  rewrite map_map, all_nan_map. destruct report as [|r report]; [reflexivity|].
  generalize (r :: report). intros rows.
  induction rows as [|x rows IH]; [reflexivity|]. cbn [forallb].
  now rewrite IH, str_get_nat, isna_nth_error.
Qed.

Lemma all_nan_str_get_last (report : list (RawRow float)) :
  all_nan (map (str_get (-1))
             (map (fun r => split delimiter (Dimension_AD_UNIT_NAME r)) report))
  = false.
Proof.
  rewrite map_map, all_nan_map. destruct report as [|r report]; [reflexivity|].
  cbn [forallb]. apply andb_false_iff. left.
  pose proof (levels_pos r) as Hr. unfold levels in Hr.
  rewrite str_get_last by (intros E; rewrite E in Hr; simpl in Hr; lia).
  rewrite isna_nth_error. apply Nat.leb_gt. lia.
Qed.

(** Lines 66 to 69 raise on the reports with rows of which none has three
    pieces; on the others the run is that of the lines after them. *)
Lemma transform_extractable (report : list (RawRow float)) :
  transform_report_data report
  = if extractable report then aggregated report else Raise AttributeError.
Proof.
  unfold transform_report_data. cbv zeta. unfold str_extract_column.
  rewrite (all_nan_str_get 0), (all_nan_str_get 1), (all_nan_str_get 2),
    all_nan_str_get_last.
  destruct report as [|r report]; [reflexivity|].
  set (rows := r :: report). unfold extractable. fold rows.
  assert (forallb (fun x => (levels x <=? 0)%nat) rows = false) as ->.
  { unfold rows. cbn [forallb]. apply andb_false_iff. left.
    apply Nat.leb_gt. apply levels_pos. }
  unfold mbind, result_bind.
  destruct (existsb (fun x => (3 <=? levels x)%nat) rows) eqn:Hwide.
  - apply existsb_exists in Hwide as [x [Hx Hwide]]. apply Nat.leb_le in Hwide.
    assert (forallb (fun x => (levels x <=? 1)%nat) rows = false) as ->.
    { apply not_true_is_false. intros H. rewrite forallb_forall in H.
      specialize (H x Hx). apply Nat.leb_le in H. lia. }
    assert (forallb (fun x => (levels x <=? 2)%nat) rows = false) as ->.
    { apply not_true_is_false. intros H. rewrite forallb_forall in H.
      specialize (H x Hx). apply Nat.leb_le in H. lia. }
    reflexivity.
  - destruct (forallb (fun x => (levels x <=? 1)%nat) rows); [reflexivity|].
    assert (forallb (fun x => (levels x <=? 2)%nat) rows = true) as ->; [|reflexivity].
    apply forallb_forall. intros x Hx. apply Nat.leb_le.
    destruct (Nat.leb_spec 3 (levels x)) as [H|H]; [|lia].
    assert (existsb (fun x => (3 <=? levels x)%nat) rows = true) as E.
    { apply existsb_exists. exists x. split; [exact Hx | now apply Nat.leb_le]. }
    congruence.
Qed.

(** The cells of the four columns of labels are those of the rows. *)
Lemma derived_labels (report : list (RawRow float)) (df : list (Row float)) :
  traverse derive_columns report = Ok df ->
  let AD_UNIT_ALL_LEVEL :=
    map (fun r => split delimiter (Dimension_AD_UNIT_NAME r)) report in
  map ad_unit_level_0 df = map str_extract (map (str_get 0) AD_UNIT_ALL_LEVEL)
  /\ map section df = map str_extract (map (str_get 1) AD_UNIT_ALL_LEVEL)
  /\ map sub_section df = map str_extract (map (str_get 2) AD_UNIT_ALL_LEVEL)
  /\ map ad_unit_name df = map str_extract (map (str_get (-1)) AD_UNIT_ALL_LEVEL).
Proof.
  revert df. induction report as [|r report IH]; intros df H; simpl in H.
  - injection H as <-. now cbn.
  - destruct (derive_columns r) as [row|e] eqn:Hr; simpl in H; [|easy].
    destruct (traverse derive_columns report) as [rows|e]; simpl in H; [|easy].
    injection H as <-. destruct (IH rows eq_refl) as [H0 [H1 [H2 H3]]].
    unfold derive_columns in Hr.
    destruct (to_datetime (Dimension_DATE r)); simpl in Hr; [|easy].
    destruct (astype_float (Column_TOTAL_LINE_ITEM_LEVEL_ALL_REVENUE r));
      simpl in Hr; [|easy].
    injection Hr as <-. cbn [map ad_unit_level_0 section sub_section ad_unit_name].
    cbv zeta in H0, H1, H2, H3. now rewrite H0, H1, H2, H3.
Qed.

Lemma extractable_spec (report : list (RawRow float)) :
  extractable report = true
  <-> report = [] \/ exists r, In r report /\ (3 <= levels r)%nat.
Proof.
  destruct report as [|r report]; unfold extractable.
  - split; [now left | easy].
  - rewrite existsb_exists. split.
    + intros [x [Hx H]]. right. exists x. split; [exact Hx | now apply Nat.leb_le].
    + intros [H|[x [Hx H]]]; [easy|]. exists x. split; [exact Hx | now apply Nat.leb_le].
Qed.

Lemma transform_Ok (report : list (RawRow float)) (out : list (AggregatedRow float)) :
  transform_report_data report = Ok out
  <-> extractable report = true /\ aggregated report = Ok out.
Proof.
  rewrite transform_extractable. destruct (extractable report); split; easy.
Qed.

Lemma transform_filtered (report : list (RawRow float)) (out : list (AggregatedRow float)) :
  transform_report_data report = Ok out ->
  exists kept, filtered report = Ok kept /\ out = groupby_sum kept.
Proof.
  intros H. apply transform_Ok in H as [_ H]. unfold aggregated in H.
  destruct (filtered report) as [kept|e]; simpl in H; [|easy].
  injection H as <-. now exists kept.
Qed.

(** A row that reaches no group, in a run that returns: the other rows
    give the same table, when the run on them returns. *)
Lemma transform_drop (before after : list (RawRow float)) (r : RawRow float) (row : Row float)
    (out : list (AggregatedRow float)) :
  derive_columns r = Ok row ->
  filter_1 row && filter_2 row = false \/ group_key row = None ->
  transform_report_data (before ++ r :: after) = Ok out ->
  aggregated (before ++ after) = Ok out
  /\ (transform_report_data (before ++ after) = Ok out
      \/ transform_report_data (before ++ after) = Raise AttributeError).
Proof.
  intros Hr Hdrop Hout. apply transform_Ok in Hout as [_ Hout].
  rewrite (aggregated_drop before after r row Hr Hdrop) in Hout.
  split; [exact Hout|]. rewrite transform_extractable.
  destruct (extractable (before ++ after)); [now left | now right].
Qed.

(** A row that passes both filters and has its two labels is in the
    table that the run returns, by its key. *)
Lemma transform_retains (report : list (RawRow float)) (out : list (AggregatedRow float))
    (r : RawRow float) (row : Row float) (s t : pystr) :
  transform_report_data report = Ok out ->
  In r report -> derive_columns r = Ok row ->
  filter_1 row = true -> filter_2 row = true ->
  section row = Some s -> sub_section row = Some t ->
  exists o, In o out
            /\ agg_date o = date row
            /\ Some (agg_device_type o) = device_type row
            /\ agg_section o = s
            /\ agg_sub_section o = t.
Proof.
  intros Hout Hin Hr H1 H2 Hsec Hsub.
  apply transform_filtered in Hout as [kept [Hkept ->]].
  assert (In row kept) as Hrow by (eapply filtered_In; eauto).
  destruct (filter_1_device_type r row Hr H1) as [dev Hdev].
  set (k := {| key_date := date row; key_device_type := dev;
               key_section := s; key_sub_section := t |}).
  assert (group_key row = Some k) as Hk.
  { unfold group_key. now rewrite Hdev, Hsec, Hsub. }
  assert (In k (map agg_key (groupby_sum kept))) as Hko.
  { rewrite groupby_sum_keys. apply group_keys_In. now exists row. }
  apply in_map_iff in Hko as [o [Ho Hino]]. exists o.
  split; [easy|]. destruct o; unfold agg_key in Ho; simpl in *.
  injection Ho as -> -> -> ->. now rewrite Hdev.
Qed.

(** Every row of the table that the run returns has the key of a row of
    the report that passes both filters. *)
Lemma transform_origin (report : list (RawRow float)) (out : list (AggregatedRow float))
    (o : AggregatedRow float) :
  transform_report_data report = Ok out -> In o out ->
  exists r row,
    In r report /\ derive_columns r = Ok row
    /\ filter_1 row = true /\ filter_2 row = true
    /\ date row = agg_date o
    /\ device_type row = Some (agg_device_type o)
    /\ section row = Some (agg_section o)
    /\ sub_section row = Some (agg_sub_section o).
Proof.
  intros Hout Ho.
  apply transform_filtered in Hout as [kept [Hkept ->]].
  assert (In (agg_key o) (group_keys kept)) as Hk.
  { rewrite <- groupby_sum_keys. now apply in_map. }
  apply group_keys_In in Hk as [row [Hrow Hkey]].
  destruct (filtered_derived report kept row Hkept Hrow) as [[r [Hr Hd]] [H1 H2]].
  exists r, row. split; [exact Hr|]. split; [exact Hd|].
  split; [exact H1|]. split; [exact H2|].
  unfold group_key in Hkey.
  destruct (device_type row) as [dev|]; simpl in Hkey; [|easy].
  destruct (section row) as [s|]; simpl in Hkey; [|easy].
  destruct (sub_section row) as [t|]; simpl in Hkey; [|easy].
  injection Hkey as Hd' Hv Hs Ht. simpl in *. now subst.
Qed.

End Accessors.

(** ** Counts in [int64] *)

Lemma int64_small (z : Z) : (- 2 ^ 63 <= z < 2 ^ 63)%Z -> int64 z = z.
Proof. intros H. unfold int64. rewrite Z.mod_small; lia. Qed.

Lemma int64_add (a v : Z) : int64 (int64 a + v) = int64 (a + v).
Proof.
  unfold int64. f_equal.
  replace ((a + 2 ^ 63) mod 2 ^ 64 - 2 ^ 63 + v + 2 ^ 63)%Z
    with ((a + 2 ^ 63) mod 2 ^ 64 + v)%Z by lia.
  rewrite Z.add_mod_idemp_l by easy. f_equal. lia.
Qed.

(** Adding in [int64] is adding in [Z] and wrapping the total. *)
Lemma sum_int64_wraps (l : list Z) : sum_int64 l = int64 (sum_int l).
Proof.
  unfold sum_int64. change 0%Z with (int64 0) at 1.
  replace (sum_int l) with (0 + sum_int l)%Z by lia.
  generalize 0%Z. induction l as [|v l IH]; intros a; simpl.
  - f_equal. lia.
  - rewrite int64_add, IH. f_equal. lia.
Qed.

Lemma sum_int_filter_bounds {A : Type} (f : A -> Z) (p : A -> bool) (l : list A) :
  (forall x, In x l -> (0 <= f x)%Z) ->
  (0 <= sum_int (map f (List.filter p l)) <= sum_int (map f l))%Z.
Proof.
  induction l as [|x l IH]; intros H; simpl; [lia|].
  assert (0 <= f x)%Z as Hx by (apply H; now left).
  assert (0 <= sum_int (map f (List.filter p l)) <= sum_int (map f l))%Z as Hl
    by (apply IH; intros y Hy; apply H; now right).
  destruct (p x); simpl; fold (sum_int (map f (List.filter p l)));
    fold (sum_int (map f l)); lia.
Qed.

Section Counts.
Context {F : Float64}.

Lemma traverse_derive_counts (report : list (RawRow float)) (df : list (Row float)) :
  traverse derive_columns report = Ok df ->
  map impressions df = map Column_TOTAL_LINE_ITEM_LEVEL_IMPRESSIONS report
  /\ map total_ad_requests df = map Column_TOTAL_AD_REQUESTS report.
Proof.
  revert df. induction report as [|r report IH]; intros df H; simpl in H.
  - now injection H as <-.
  - destruct (derive_columns r) as [row|e] eqn:Hr; simpl in H; [|easy].
    destruct (traverse derive_columns report) as [rows|e]; simpl in H; [|easy].
    injection H as <-. destruct (IH rows eq_refl) as [Hi Hq].
    unfold derive_columns in Hr.
    destruct (to_datetime (Dimension_DATE r)); simpl in Hr; [|easy].
    destruct (astype_float (Column_TOTAL_LINE_ITEM_LEVEL_ALL_REVENUE r));
      simpl in Hr; [|easy].
    injection Hr as <-. simpl. now rewrite Hi, Hq.
Qed.

(** In a report whose counts fit, the sum of the counts of any of the rows
    kept is the same in [int64] as in [Z]. *)
Lemma counts_fit_kept (report : list (RawRow float)) (kept : list (Row float))
    (q : Row float -> bool) :
  counts_fit report = true -> filtered report = Ok kept ->
  sum_int64 (map impressions (List.filter q kept))
  = sum_int (map impressions (List.filter q kept))
  /\ sum_int64 (map total_ad_requests (List.filter q kept))
     = sum_int (map total_ad_requests (List.filter q kept)).
Proof.
  unfold counts_fit, filtered. intros Hfit Hkept.
  apply andb_true_iff in Hfit as [Hfit Hq]. apply andb_true_iff in Hfit as [Hpos Hi].
  apply Z.ltb_lt in Hi, Hq. rewrite forallb_forall in Hpos.
  destruct (traverse derive_columns report) as [df|e] eqn:Hdf; simpl in Hkept; [|easy].
  injection Hkept as <-.
  destruct (traverse_derive_counts report df Hdf) as [Ei Eq].
  assert (forall x, In x df -> (0 <= impressions x)%Z) as Pi.
  { intros x Hx. apply (in_map impressions) in Hx. rewrite Ei in Hx.
    apply in_map_iff in Hx as [r [<- Hr]]. specialize (Hpos r Hr).
    apply andb_true_iff in Hpos as [H _]. now apply Z.leb_le. }
  assert (forall x, In x df -> (0 <= total_ad_requests x)%Z) as Pq.
  { intros x Hx. apply (in_map total_ad_requests) in Hx. rewrite Eq in Hx.
    apply in_map_iff in Hx as [r [<- Hr]]. specialize (Hpos r Hr).
    apply andb_true_iff in Hpos as [_ H]. now apply Z.leb_le. }
  set (p := fun r : Row float => filter_1 r && filter_2 r).
  pose proof (sum_int_filter_bounds impressions p df Pi) as B1.
  pose proof (sum_int_filter_bounds total_ad_requests p df Pq) as B2.
  assert (forall x, In x (List.filter p df) -> In x df) as Hsub
    by (intros x Hx; now apply filter_In in Hx).
  pose proof (sum_int_filter_bounds impressions q (List.filter p df)
                (fun x Hx => Pi x (Hsub x Hx))) as C1.
  pose proof (sum_int_filter_bounds total_ad_requests q (List.filter p df)
                (fun x Hx => Pq x (Hsub x Hx))) as C2.
  rewrite Ei in B1. rewrite Eq in B2.
  rewrite !sum_int64_wraps. split; apply int64_small; lia.
Qed.

End Counts.

(** ** The transformer *)

Section Claims.
Context {F : Float64}.

(** C5.  Filter 1 keeps a row exactly when its [ad_unit_level_0] is one of
    "20minutes_web", "20minutes_web_video_P2" and "20minutes_mobile".  A
    row with any other value there ("20minutes_other", "20minutes_tablet",
    or none) is not in the table that a run returns, whatever its section
    and sub-section are: the table is what the other rows give, and it is
    what the run on the other rows returns unless that run raises.  A row
    with one of the three values that passes Filter 2 and has a section and
    a sub-section has its row in the table, and every row of the table
    comes from rows that Filter 1 keeps. *)
Theorem C5_platform_filter :
  (forall row : Row float,
      filter_1 row = true <->
      ad_unit_level_0 row = Some (py "20minutes_web")
      \/ ad_unit_level_0 row = Some (py "20minutes_web_video_P2")
      \/ ad_unit_level_0 row = Some (py "20minutes_mobile"))
  /\ (forall (before after : list (RawRow float)) (r : RawRow float) (row : Row float)
             (out : list (AggregatedRow float)),
         derive_columns r = Ok row ->
         ad_unit_level_0 row <> Some (py "20minutes_web") ->
         ad_unit_level_0 row <> Some (py "20minutes_web_video_P2") ->
         ad_unit_level_0 row <> Some (py "20minutes_mobile") ->
         transform_report_data (before ++ r :: after) = Ok out ->
         aggregated (before ++ after) = Ok out
         /\ (transform_report_data (before ++ after) = Ok out
             \/ transform_report_data (before ++ after) = Raise AttributeError))
  /\ (forall (report : list (RawRow float)) (out : list (AggregatedRow float))
             (r : RawRow float) (row : Row float) (s t : pystr),
         transform_report_data report = Ok out ->
         In r report -> derive_columns r = Ok row ->
         filter_1 row = true -> filter_2 row = true ->
         section row = Some s -> sub_section row = Some t ->
         exists o, In o out
                   /\ agg_date o = date row
                   /\ Some (agg_device_type o) = device_type row
                   /\ agg_section o = s
                   /\ agg_sub_section o = t)
  /\ (forall (report : list (RawRow float)) (out : list (AggregatedRow float))
             (o : AggregatedRow float),
         transform_report_data report = Ok out -> In o out ->
         exists r row,
           In r report /\ derive_columns r = Ok row /\ filter_1 row = true
           /\ date row = agg_date o
           /\ device_type row = Some (agg_device_type o)
           /\ section row = Some (agg_section o)
           /\ sub_section row = Some (agg_sub_section o)).
Proof.
  split; [apply filter_1_spec|]. split; [|split].
  - intros before after r row out Hr H1 H2 H3.
    apply (transform_drop before after r row out Hr). left.
    destruct (filter_1 row) eqn:Hf; [|easy].
    apply filter_1_spec in Hf. tauto.
  - apply transform_retains.
  - intros report out o Hout Ho.
    destruct (transform_origin report out o Hout Ho)
      as [r [row [Hr [Hd [H1 [_ Hkey]]]]]].
    exists r, row. auto.
Qed.

(** C6.  The device type of a row is its [ad_unit_level_0] sent through
    the table "20minutes_web" to "Desktop", "20minutes_web_video_P2" to
    "Desktop", "20minutes_mobile" to "Mobile Web"; any other label is kept
    as it is, and a missing label stays missing. *)
Theorem C6_device_type (r : RawRow float) (row : Row float) :
  derive_columns r = Ok row ->
  (ad_unit_level_0 row = Some (py "20minutes_web") ->
   device_type row = Some (py "Desktop"))
  /\ (ad_unit_level_0 row = Some (py "20minutes_web_video_P2") ->
      device_type row = Some (py "Desktop"))
  /\ (ad_unit_level_0 row = Some (py "20minutes_mobile") ->
      device_type row = Some (py "Mobile Web"))
  /\ (forall v, ad_unit_level_0 row = Some v ->
                v <> py "20minutes_web" -> v <> py "20minutes_web_video_P2" ->
                v <> py "20minutes_mobile" ->
                device_type row = Some v)
  /\ (ad_unit_level_0 row = None -> device_type row = None).
Proof.
  intros Hr. rewrite (derive_columns_device_type r row Hr).
  repeat split.
  - intros ->. now vm_compute.
  - intros ->. now vm_compute.
  - intros ->. now vm_compute.
  - intros v -> H1 H2 H3. simpl.
    now rewrite lookup_device_types_other.
  - now intros ->.
Qed.

(** C10.  A row that passes both filters but has no section or no
    sub-section is in no group: the table that a run returns is what the
    other rows give, and it is what the run on the other rows returns
    unless that run raises, so that none of the metrics of the row is
    counted. *)
Theorem C10_absent_label_dropped
    (before after : list (RawRow float)) (r : RawRow float) (row : Row float)
    (out : list (AggregatedRow float)) :
  derive_columns r = Ok row ->
  filter_1 row = true -> filter_2 row = true ->
  section row = None \/ sub_section row = None ->
  transform_report_data (before ++ r :: after) = Ok out ->
  aggregated (before ++ after) = Ok out
  /\ (transform_report_data (before ++ after) = Ok out
      \/ transform_report_data (before ++ after) = Raise AttributeError).
Proof.
  intros Hr _ _ Habsent. apply (transform_drop before after r row out Hr). right.
  unfold group_key.
  destruct (device_type row); simpl; [|easy].
  destruct Habsent as [-> | ->]; simpl; [easy|].
  now destruct (section row).
Qed.

(** C3, as amended.  Filter 2 keeps a row exactly when its sub-section
    ends with "_Diapo" or with "_art" or its section is "amp".  A row that
    it does not keep, and so a row with no sub-section and a section other
    than "amp", is not in the table that a run returns: the table is what
    the other rows give, and what the run on the other rows returns unless
    that run raises; and every row of the table comes from rows that
    Filter 2 keeps.  A row with the section "amp" passes Filter 2 whatever
    its sub-section is, missing or not; when it also passes Filter 1 and
    has a sub-section, the table that the run returns has the row of its
    group. *)
Theorem C3_content_filter :
  (forall row : Row float,
      filter_2 row = true <->
      (exists s q, sub_section row = Some s /\ s = q ++ py "_Diapo")
      \/ (exists s q, sub_section row = Some s /\ s = q ++ py "_art")
      \/ section row = Some (py "amp"))
  /\ (forall (before after : list (RawRow float)) (r : RawRow float) (row : Row float)
             (out : list (AggregatedRow float)),
         derive_columns r = Ok row ->
         filter_2 row = false ->
         transform_report_data (before ++ r :: after) = Ok out ->
         aggregated (before ++ after) = Ok out
         /\ (transform_report_data (before ++ after) = Ok out
             \/ transform_report_data (before ++ after) = Raise AttributeError))
  /\ (forall (before after : list (RawRow float)) (r : RawRow float) (row : Row float)
             (out : list (AggregatedRow float)),
         derive_columns r = Ok row ->
         sub_section row = None -> section row <> Some (py "amp") ->
         transform_report_data (before ++ r :: after) = Ok out ->
         aggregated (before ++ after) = Ok out
         /\ (transform_report_data (before ++ after) = Ok out
             \/ transform_report_data (before ++ after) = Raise AttributeError))
  /\ (forall (report : list (RawRow float)) (out : list (AggregatedRow float))
             (o : AggregatedRow float),
         transform_report_data report = Ok out -> In o out ->
         exists r row,
           In r report /\ derive_columns r = Ok row /\ filter_2 row = true
           /\ date row = agg_date o
           /\ device_type row = Some (agg_device_type o)
           /\ section row = Some (agg_section o)
           /\ sub_section row = Some (agg_sub_section o))
  /\ (forall row : Row float, section row = Some (py "amp") -> filter_2 row = true)
  /\ (forall (report : list (RawRow float)) (out : list (AggregatedRow float))
             (r : RawRow float) (row : Row float) (s : pystr),
         transform_report_data report = Ok out ->
         In r report -> derive_columns r = Ok row ->
         filter_1 row = true ->
         section row = Some (py "amp") -> sub_section row = Some s ->
         exists o, In o out
                   /\ agg_date o = date row
                   /\ Some (agg_device_type o) = device_type row
                   /\ agg_section o = py "amp"
                   /\ agg_sub_section o = s).
Proof.
  split; [apply filter_2_spec|]. split; [|split; [|split; [|split]]].
  - intros before after r row out Hr Hf.
    apply (transform_drop before after r row out Hr). left.
    rewrite Hf. apply andb_false_r.
  - intros before after r row out Hr Hsub Hsec.
    apply (transform_drop before after r row out Hr). left.
    destruct (filter_2 row) eqn:Hf; [|apply andb_false_r].
    apply filter_2_spec in Hf.
    destruct Hf as [[s [q [Hs _]]]|[[s [q [Hs _]]]|H]]; congruence.
  - intros report out o Hout Ho.
    destruct (transform_origin report out o Hout Ho)
      as [r [row [Hr [Hd [_ [H2 Hkey]]]]]].
    exists r, row. auto.
  - intros row H. apply filter_2_spec. tauto.
  - intros report out r row s Hout Hin Hr H1 Hsec Hsub.
    assert (filter_2 row = true) as H2 by (apply filter_2_spec; tauto).
    exact (transform_retains report out r row (py "amp") s Hout Hin Hr H1 H2 Hsec Hsub).
Qed.


(** C1, as amended.  In a report whose counts fit (none is negative and
    those of a column add up to less than 2^63), the impressions of the
    output rows add up to the impressions of the input rows that pass both
    filters and have both a section and a sub-section. *)
Theorem C1_impressions_total (report : list (RawRow float)) (out : list (AggregatedRow float)) :
  counts_fit report = true ->
  transform_report_data report = Ok out ->
  exists kept,
    filtered report = Ok kept
    /\ sum_int (map agg_impressions out)
       = sum_int (map impressions
           (List.filter
              (fun row => bool_decide (is_Some (section row) /\ is_Some (sub_section row)))
              kept)).
Proof.
  intros Hfit Hout. apply transform_filtered in Hout as [kept [Hkept ->]].
  exists kept. split; [easy|].
  rewrite (groupby_sum_total impressions agg_impressions)
    by (intros k _; apply (counts_fit_kept report kept (in_group k) Hfit Hkept)).
  f_equal. f_equal. apply filter_ext_in. intros row Hrow.
  destruct (filtered_derived report kept row Hkept Hrow) as [[r [_ Hr]] [H1 _]].
  destruct (filter_1_device_type r row Hr H1) as [dev Hdev].
  apply bool_decide_ext. unfold group_key. rewrite Hdev. simpl.
  destruct (section row) as [s|], (sub_section row) as [t|]; simpl; split;
    try (intros [x Hx]; discriminate);
    try (intros [[x Hx] [y Hy]]; discriminate);
    intros _; unfold is_Some; eauto.
Qed.


End Claims.

(** ** The transformer on the sample reports *)

(** [H : f x = Ok y] for a closed [f x]: [y] becomes the value. *)
Ltac evaluated H := vm_compute in H; injection H as <-.

Ltac derive_row r row Hr :=
  destruct (derive_columns (F := binary64) r) as [row|] eqn:Hr;
  [|vm_compute in Hr; discriminate].

Lemma C5_platform_filter_witness :
  transform_report_data (F := binary64) [report_row photos_path_split 100 5.5 120]
  = Ok [photos_row 100 5.5 120]
  \/ transform_report_data (F := binary64) [report_row photos_path_split 100 5.5 120]
     = Raise AttributeError.
Proof.
  pose (r := report_row tablet_path 50 1.5 60).
  derive_row r row Hr.
  refine (proj2 (proj1 (proj2 (@C5_platform_filter binary64)) [] _ r row
                   [photos_row 100 5.5 120] Hr _ _ _ _));
    [evaluated Hr; vm_compute; discriminate ..|].
  vm_compute. reflexivity.
Defined.

Lemma C6_device_type_witness :
  exists row, derive_columns (F := binary64) (report_row amp_path 40 0.5 45) = Ok row
              /\ device_type row = Some (py "Mobile Web").
Proof.
  derive_row (report_row amp_path 40 0.5 45) row Hr.
  exists row. split; [reflexivity|].
  refine (proj1 (proj2 (proj2 (@C6_device_type binary64 _ row Hr))) _).
  evaluated Hr. vm_compute. reflexivity.
Defined.

Lemma C10_absent_label_dropped_witness :
  aggregated (F := binary64) [report_row photos_path_split 100 5.5 120]
  = Ok [photos_row 100 5.5 120].
Proof.
  pose (r := report_row amp_path 40 0.5 45).
  derive_row r row Hr.
  refine (proj1 (@C10_absent_label_dropped binary64 [] _ r row
                   [photos_row 100 5.5 120] Hr _ _ _ _));
    [| |right|]; [evaluated Hr; vm_compute; reflexivity ..|].
  vm_compute. reflexivity.
Defined.

(** A row with the section "amp" and no sub-section passes both filters,
    and the table that the run returns has no row for it: its only row is
    that of the other row of the report. *)
Lemma C3_counterexample :
  exists row,
    derive_columns (F := binary64) (report_row amp_path 40 0.5 45) = Ok row
    /\ section row = Some (py "amp") /\ sub_section row = None
    /\ filter_1 row = true /\ filter_2 row = true
    /\ transform_report_data (F := binary64)
         [report_row amp_path 40 0.5 45; report_row photos_path_split 100 5.5 120]
       = Ok [photos_row 100 5.5 120].
Proof.
  derive_row (report_row amp_path 40 0.5 45) row Hr.
  exists row. split; [reflexivity|]. evaluated Hr.
  repeat split; vm_compute; reflexivity.
Qed.

Lemma C3_content_filter_witness :
  exists o,
    In o [amp_other_row]
    /\ agg_section o = py "amp" /\ agg_sub_section o = py "Other".
Proof.
  pose (r := report_row amp_other_path 40 0.5 45).
  derive_row r row Hr.
  destruct (proj2 (proj2 (proj2 (proj2 (proj2 (@C3_content_filter binary64)))))
              [r] [amp_other_row] r row (py "Other"))
    as [o [Ho [_ [_ [Hs Ht]]]]];
    [vm_compute; reflexivity | left; reflexivity | exact Hr
    | evaluated Hr; vm_compute; reflexivity
    | evaluated Hr; vm_compute; reflexivity
    | evaluated Hr; vm_compute; reflexivity |].
  exists o. split; [exact Ho | split; [exact Hs | exact Ht]].
Defined.


(** Both rows pass both filters, with 40 and 100 impressions; the first
    has no sub-section, and the output has the 100 impressions of the
    second only. *)
Lemma C1_counterexample :
  exists kept,
    transform_report_data (F := binary64)
      [report_row amp_path 40 0.5 45; report_row photos_path_split 100 5.5 120]
    = Ok [photos_row 100 5.5 120]
    /\ filtered (F := binary64)
         [report_row amp_path 40 0.5 45; report_row photos_path_split 100 5.5 120]
       = Ok kept
    /\ sum_int (map agg_impressions [photos_row 100 5.5 120]) = 100%Z
    /\ sum_int (map impressions kept) = 140%Z.
Proof.
  destruct (filtered (F := binary64)
              [report_row amp_path 40 0.5 45; report_row photos_path_split 100 5.5 120])
    as [kept|] eqn:Hk; [|vm_compute in Hk; discriminate].
  exists kept. split; [vm_compute; reflexivity|]. split; [reflexivity|].
  evaluated Hk. split; reflexivity.
Qed.

Lemma C1_impressions_total_witness :
  sum_int (map agg_impressions [photos_row 100 5.5 120]) = 100%Z.
Proof.
  destruct (@C1_impressions_total binary64
              [report_row amp_path 40 0.5 45; report_row photos_path_split 100 5.5 120]
              [photos_row 100 5.5 120]) as [kept [Hkept Hsum]];
    [vm_compute; reflexivity | vm_compute; reflexivity |].
  evaluated Hkept. exact Hsum.
Defined.



(** C4.  On the row of the scenario, with the path "20minutes_web (1) »
    News (2) » Photos_Diapo (3)", 100 impressions, a revenue of 5.5 and 120
    ad requests on 2024-01-01, the transformer returns no table: the path
    holds no [delimiter], so that it is one piece, the column of the second
    pieces holds NaN only, and line 67 raises [AttributeError]. *)
Theorem C4_scenario_raises :
  transform_report_data (F := binary64) [report_row photos_path 100 5.5 120]
  = Raise AttributeError
  /\ split delimiter photos_path = [photos_path]
  /\ map (str_get 1) [split delimiter photos_path] = [None]
  /\ str_extract_column (map (str_get 1) [split delimiter photos_path])
     = Raise AttributeError.
Proof. repeat split; vm_compute; reflexivity. Qed.

(** When the segments of that path are joined by [delimiter] instead, the
    output is the row that the scenario expects. *)
Lemma scenario_with_delimiter :
  transform_report_data (F := binary64) [report_row photos_path_split 100 5.5 120]
  = Ok [photos_row 100 5.5 120].
Proof. vm_compute. reflexivity. Qed.

(** ** Labels *)

Lemma one_inv {R : Type} (p : N -> bool) (k : pystr -> option R) (s : pystr) (r : R) :
  one p k s = Some r -> exists c s', s = c :: s' /\ p c = true /\ k s' = Some r.
Proof.
  destruct s as [|c s']; simpl; [easy|].
  destruct (p c) eqn:Hc; [|easy]. intros H. now exists c, s'.
Qed.

Lemma many1_inv {R : Type} (p : N -> bool) (k : pystr -> pystr -> option R)
    (acc s : pystr) (r : R) :
  many1 p k acc s = Some r ->
  exists g rest, g <> [] /\ forallb p g = true /\ k (acc ++ g) rest = Some r.
Proof.
  revert acc. induction s as [|c s IH]; intros acc; simpl; [easy|].
  destruct (p c) eqn:Hc; [|easy].
  destruct (many1 p k (acc ++ [c]) s) as [r'|] eqn:Hm.
  - intros [= <-]. destruct (IH _ Hm) as [g [rest [_ [Hg Hk]]]].
    exists (c :: g), rest. split; [easy|]. split.
    + simpl. now rewrite Hc.
    + now rewrite <- app_assoc in Hk.
  - intros Hk. exists [c], s. split; [easy|]. split; [|easy].
    simpl. now rewrite Hc.
Qed.

(** Group 1 of a match is a non-empty run of [[a-zA-Z_.0-9]]. *)
Lemma match_here_label (s g : pystr) :
  match_here s = Some g -> g <> [] /\ forallb is_label_char g = true.
Proof.
  unfold match_here. intros H.
  apply many1_inv in H as [g1 [s1 [Hne [Hg H]]]].
  apply one_inv in H as [c1 [s2 [_ [_ H]]]].
  apply one_inv in H as [c2 [s3 [_ [_ H]]]].
  apply many1_inv in H as [digits [s4 [_ [_ H]]]].
  apply one_inv in H as [c3 [s5 [_ [_ H]]]].
  injection H as <-. easy.
Qed.

Lemma search_label (s g : pystr) :
  search s = Some g -> g <> [] /\ forallb is_label_char g = true.
Proof.
  induction s as [|c s IH]; simpl.
  - easy.
  - destruct (match_here (c :: s)) eqn:Hm.
    + intros [= <-]. now apply match_here_label in Hm.
    + exact IH.
Qed.

Lemma str_extract_label (cell : option pystr) (g : pystr) :
  str_extract cell = Some g -> forallb is_label_char g = true.
Proof.
  destruct cell as [s|]; simpl; [|easy]. intros H. now apply search_label in H.
Qed.

Lemma label_char_plain (c : N) : is_label_char c = true -> needs_quoting c = false.
Proof.
  unfold is_label_char, needs_quoting, comma, lineterminator, quotechar. simpl.
  rewrite !orb_true_iff, !andb_true_iff, !N.leb_le, !N.eqb_eq.
  intros H. rewrite !orb_false_r.
  destruct (N.eqb_spec c 44), (N.eqb_spec c 34), (N.eqb_spec c 10); simpl; try easy; lia.
Qed.

Lemma label_plain (s : pystr) : forallb is_label_char s = true -> plain s = true.
Proof.
  unfold plain. rewrite !forallb_forall. intros H c Hc.
  now rewrite label_char_plain by auto.
Qed.

(** ** Texts of numbers and days *)

Lemma plain_app (a b : pystr) : plain (a ++ b) = plain a && plain b.
Proof. apply forallb_app. Qed.

Lemma plain_string_of_uint (d : Decimal.uint) : plain (py (NilEmpty.string_of_uint d)) = true.
Proof. induction d; simpl; try easy; exact IHd. Qed.

Lemma plain_str_of_Z (z : Z) : plain (str_of_Z z) = true.
Proof.
  unfold str_of_Z. destruct (Z.to_int z) as [d|d]; simpl.
  - apply plain_string_of_uint.
  - apply (plain_string_of_uint d).
Qed.

Lemma plain_zfill (width : nat) (s : pystr) : plain s = true -> plain (zfill width s) = true.
Proof.
  intros H. unfold zfill. rewrite plain_app, H, andb_true_r.
  induction (width - length s)%nat as [|n IH]; simpl; [easy | exact IH].
Qed.

Lemma plain_isoformat (d : Date) : plain (isoformat d) = true.
Proof.
  unfold isoformat. rewrite !plain_app, !plain_zfill by apply plain_str_of_Z.
  reflexivity.
Qed.

Lemma plain_csv_field (s : pystr) : plain s = true -> csv_field s = s.
Proof.
  unfold csv_field, plain. intros H.
  assert (existsb needs_quoting s = false) as ->; [|easy].
  induction s as [|c s IH]; simpl in *; [easy|].
  apply andb_true_iff in H as [Hc Hs]. rewrite IH by easy.
  now destruct (needs_quoting c).
Qed.

Lemma plain_no_char (s : pystr) (c : N) :
  needs_quoting c = true -> plain s = true -> ~ In c s.
Proof.
  unfold plain. rewrite forallb_forall. intros Hc H Hin.
  apply H in Hin. now rewrite Hc in Hin.
Qed.

(** ** Splitting on one character *)

Lemma split_go_piece (c : N) (cur a rest : pystr) :
  ~ In c a ->
  split_go [c] 0 cur (a ++ c :: rest) = (cur ++ a) :: split_go [c] 0 [] rest.
Proof.
  revert cur. induction a as [|x a IH]; intros cur Hn; simpl.
  - rewrite N.eqb_refl. simpl. now rewrite app_nil_r.
  - destruct (N.eqb_spec c x) as [->|Hx]; simpl.
    + exfalso. apply Hn. now left.
    + rewrite IH by (intros H; apply Hn; now right).
      now rewrite <- app_assoc.
Qed.

Lemma split_go_last (c : N) (cur a : pystr) :
  ~ In c a -> split_go [c] 0 cur a = [cur ++ a].
Proof.
  revert cur. induction a as [|x a IH]; intros cur Hn; simpl.
  - now rewrite app_nil_r.
  - destruct (N.eqb_spec c x) as [->|Hx]; simpl.
    + exfalso. apply Hn. now left.
    + rewrite IH by (intros H; apply Hn; now right).
      now rewrite <- app_assoc.
Qed.

Lemma split_join (c : N) (parts : list pystr) :
  parts <> [] -> Forall (fun p => ~ In c p) parts ->
  split [c] (join [c] parts) = parts.
Proof.
  unfold split. intros Hne Hall.
  induction Hall as [|p parts Hp Hall IH]; [easy|].
  destruct parts as [|q parts].
  - simpl. now rewrite split_go_last.
  - change (join [c] (p :: q :: parts)) with (p ++ c :: join [c] (q :: parts)).
    rewrite split_go_piece by easy. simpl app. f_equal. now apply IH.
Qed.

Lemma split_lines (c : N) (lines : list pystr) :
  Forall (fun l => ~ In c l) lines ->
  split [c] (concat (map (fun l => l ++ [c]) lines)) = lines ++ [[]].
Proof.
  unfold split. intros Hall. induction Hall as [|l lines Hl Hall IH]; [easy|].
  simpl. rewrite <- app_assoc. simpl.
  rewrite split_go_piece by easy. simpl. now f_equal.
Qed.

Lemma join_no_char (c d : N) (parts : list pystr) :
  c <> d -> Forall (fun p => ~ In c p) parts -> ~ In c (join [d] parts).
Proof.
  intros Hcd Hall. induction Hall as [|p parts Hp Hall IH]; [easy|].
  destruct parts as [|q parts]; [easy|].
  change (join [d] (p :: q :: parts)) with (p ++ d :: join [d] (q :: parts)).
  rewrite in_app_iff. simpl. intros [H|[H|H]]; [easy | congruence | easy].
Qed.

(** ** The CSV text *)

Lemma csv_text_layout (table : list (list pystr)) :
  Forall (fun cs => cs <> [] /\ Forall (fun p => plain p = true) cs) table ->
  map (split comma) (split lineterminator (concat (map csv_line table)))
  = table ++ [[[]]].
Proof.
  intros Htable.
  assert (map csv_line table = map (fun l => l ++ [10]) (map (join comma) table)) as ->.
  { rewrite map_map. apply map_ext_in. intros cs Hcs. unfold csv_line. f_equal. f_equal.
    rewrite List.Forall_forall in Htable. destruct (Htable cs Hcs) as [_ Hplain].
    clear Hcs. induction Hplain as [|p cs Hp Hplain IH]; [easy|].
    simpl. now rewrite plain_csv_field, IH. }
  unfold lineterminator, comma. rewrite split_lines.
  - rewrite map_app, map_map. simpl. f_equal.
    rewrite <- (map_id table) at 2. apply map_ext_in. intros cs Hcs.
    rewrite List.Forall_forall in Htable. destruct (Htable cs Hcs) as [Hne Hplain].
    apply split_join; [easy|].
    eapply List.Forall_impl; [|exact Hplain]. intros p Hp.
    now apply plain_no_char.
  - rewrite List.Forall_map. eapply List.Forall_impl; [|exact Htable].
    intros cs [_ Hplain]. apply join_no_char; [easy|].
    eapply List.Forall_impl; [|exact Hplain]. intros p Hp.
    now apply plain_no_char.
Qed.

Section Output.
Context {F : Float64}.

Lemma derive_columns_labels (r : RawRow float) (row : Row float) :
  derive_columns r = Ok row ->
  (forall s, section row = Some s -> plain s = true)
  /\ (forall s, sub_section row = Some s -> plain s = true).
Proof.
  unfold derive_columns. intros H.
  destruct (to_datetime (Dimension_DATE r)); simpl in H; [|easy].
  destruct (astype_float (Column_TOTAL_LINE_ITEM_LEVEL_ALL_REVENUE r)); simpl in H; [|easy].
  injection H as <-. simpl.
  split; intros s Hs; apply label_plain; eapply str_extract_label; exact Hs.
Qed.

Lemma filter_1_device_plain (r : RawRow float) (row : Row float) (dev : pystr) :
  derive_columns r = Ok row -> filter_1 row = true ->
  device_type row = Some dev -> plain dev = true.
Proof.
  intros Hr H1. rewrite (derive_columns_device_type r row Hr).
  apply filter_1_spec in H1.
  destruct H1 as [-> | [-> | ->]]; vm_compute; now intros [= <-].
Qed.

(** The labels of an output row need no quoting. *)
Lemma output_labels_plain (report : list (RawRow float)) (out : list (AggregatedRow float))
    (o : AggregatedRow float) :
  transform_report_data report = Ok out -> In o out ->
  plain (agg_device_type o) = true
  /\ plain (agg_section o) = true /\ plain (agg_sub_section o) = true.
Proof.
  intros Hout Ho. apply transform_filtered in Hout as [kept [Hkept ->]].
  assert (In (agg_key o) (group_keys kept)) as Hk.
  { rewrite <- groupby_sum_keys. now apply in_map. }
  apply group_keys_In in Hk as [row [Hrow Hkey]].
  destruct (filtered_derived report kept row Hkept Hrow) as [[r [_ Hr]] [H1 _]].
  destruct (derive_columns_labels r row Hr) as [Hsec Hsub].
  unfold group_key in Hkey.
  destruct (device_type row) as [dev|] eqn:Hdev; simpl in Hkey; [|easy].
  destruct (section row) as [s|]; simpl in Hkey; [|easy].
  destruct (sub_section row) as [t|]; simpl in Hkey; [|easy].
  injection Hkey as Hd -> -> ->. simpl.
  split; [|split]; [|now apply Hsec|now apply Hsub].
  eapply filter_1_device_plain; eauto.
Qed.

(** C9.  The text that is published for the table of the transformer,
    numbers being written without comma, quote or line break: cut at the
    line breaks and then at the commas, it is the header date,
    device_type, section, sub_section, impressions, revenue,
    total_ad_requests, then for each row of the table, in order, the texts
    of those seven columns, and nothing after the last line break. *)
Theorem C9_csv_layout (report : list (RawRow float)) (out : list (AggregatedRow float)) :
  (forall x, plain (float_text x) = true) ->
  transform_report_data report = Ok out ->
  map (split comma) (split lineterminator (to_csv out))
  = [py "date"; py "device_type"; py "section"; py "sub_section";
     py "impressions"; py "revenue"; py "total_ad_requests"]
    :: map (fun o => [isoformat (agg_date o); agg_device_type o; agg_section o;
                      agg_sub_section o; str_of_Z (agg_impressions o);
                      float_text (agg_revenue o);
                      str_of_Z (agg_total_ad_requests o)]) out
    ++ [[[]]].
Proof.
  intros Hfloat Hout. unfold to_csv. rewrite csv_text_layout; [reflexivity|].
  constructor.
  - split; [easy|]. repeat constructor.
  - rewrite List.Forall_map. apply List.Forall_forall. intros o Ho.
    destruct (output_labels_plain report out o Hout Ho) as [Hdev [Hsec Hsub]].
    split; [easy|]. unfold cells.
    repeat constructor; auto using plain_isoformat, plain_str_of_Z.
Qed.

(** C8.  Two runs of the pipeline on the same report for the same date,
    whatever the bucket holds before each, either both raise the same
    exception or both leave the same bytes in the object of that date: the
    encoded CSV text of the transformed report; and a run on the bucket
    that a run has left changes nothing. *)
Theorem C8_rerun_identical (report : list (RawRow float)) (date_ : Date)
    (gcs other : gmap pystr (list byte)) :
  match data_processing report date_ gcs, data_processing report date_ other with
  | Ok after, Ok after' =>
      (exists out f,
          transform_report_data report = Ok out /\ encode (to_csv out) = Ok f
          /\ after !! blob_name (name_file date_) = Some f
          /\ after' !! blob_name (name_file date_) = Some f)
      /\ data_processing report date_ after = Ok after
  | Raise e, Raise e' => e = e'
  | _, _ => False
  end.
Proof.
  unfold data_processing, send_to_gs.
  set (name := blob_name (name_file date_)). clearbody name.
  destruct (transform_report_data report) as [out|e];
    unfold mbind, result_bind; [|reflexivity].
  destruct (encode (to_csv out)) as [f|e] eqn:Hf; [|reflexivity].
  split.
  - exists out, f. rewrite !lookup_insert_eq. repeat split; [exact Hf | reflexivity ..].
  - rewrite insert_insert_eq. reflexivity.
Qed.

End Output.

(** ** The published text of the sample reports *)

Lemma plain_rstrip0 (s : pystr) : plain s = true -> plain (rstrip0 s) = true.
Proof.
  induction s as [|c s IH]; [easy|]. intros H.
  change (plain (c :: s)) with (negb (needs_quoting c) && plain s) in H.
  apply andb_true_iff in H as [Hc Hs]. specialize (IH Hs). simpl.
  destruct (rstrip0 s) as [|d t].
  - destruct (c =? 48); [easy|].
    change (negb (needs_quoting c) && true = true). now rewrite Hc.
  - change (negb (needs_quoting c) && plain (d :: t) = true). now rewrite Hc, IH.
Qed.

Lemma plain_fraction_text (digits : pystr) :
  plain digits = true -> plain (fraction_text digits) = true.
Proof.
  intros H. apply plain_rstrip0 in H. unfold fraction_text.
  now destruct (rstrip0 digits).
Qed.

Lemma plain_decimal_text (x : PrimFloat.float) : plain (decimal_text x) = true.
Proof.
  unfold decimal_text. destruct (Prim2SF x) as [s|s| |s m e].
  - now destruct s.
  - now destruct s.
  - reflexivity.
  - rewrite plain_app. apply andb_true_iff. split; [now destruct s|].
    destruct e as [|k|k].
    + rewrite plain_app, plain_str_of_Z. reflexivity.
    + rewrite plain_app, plain_str_of_Z. reflexivity.
    + rewrite !plain_app, plain_str_of_Z. simpl.
      apply plain_fraction_text, plain_zfill, plain_str_of_Z.
Qed.

Example scenario_csv :
  to_csv (F := binary64) [photos_row 100 5.5 120]
  = py "date,device_type,section,sub_section,impressions,revenue,total_ad_requests"
    ++ [10] ++ py "2024-01-01,Desktop,News,Photos_Diapo,100,5.5,120" ++ [10].
Proof. vm_compute. reflexivity. Qed.

Lemma C9_csv_layout_witness :
  map (split comma)
      (split lineterminator (to_csv (F := binary64) [photos_row 100 5.5 120]))
  = [ [py "date"; py "device_type"; py "section"; py "sub_section";
       py "impressions"; py "revenue"; py "total_ad_requests"];
      [py "2024-01-01"; py "Desktop"; py "News"; py "Photos_Diapo";
       py "100"; py "5.5"; py "120"];
      [[]] ].
Proof.
  rewrite (C9_csv_layout (F := binary64)
             [report_row photos_path_split 100 5.5 120] [photos_row 100 5.5 120]
             plain_decimal_text);
    vm_compute; reflexivity.
Defined.

(** The run on the sample report uploads its object. *)
Example sample_run :
  match data_processing (F := binary64)
          [report_row photos_path_split 100 5.5 120] day_2024_01_01 ∅ with
  | Ok after => is_Some (after !! blob_name (name_file day_2024_01_01))
  | Raise _ => False
  end.
Proof. vm_compute. eexists. reflexivity. Qed.

(** ** The regular expression, match by match *)

Lemma many1_inv_split {R : Type} (p : N -> bool) (k : pystr -> pystr -> option R)
    (acc s : pystr) (r : R) :
  many1 p k acc s = Some r ->
  exists g rest, s = g ++ rest /\ g <> [] /\ forallb p g = true
                 /\ k (acc ++ g) rest = Some r.
Proof.
  revert acc. induction s as [|c s IH]; intros acc; simpl; [easy|].
  destruct (p c) eqn:Hc; [|easy].
  destruct (many1 p k (acc ++ [c]) s) as [r'|] eqn:Hm.
  - intros [= <-]. destruct (IH _ Hm) as [g [rest [-> [_ [Hg Hk]]]]].
    exists (c :: g), rest. repeat split; [easy| |].
    + simpl. now rewrite Hc.
    + now rewrite <- app_assoc in Hk.
  - intros Hk. exists [c], s. repeat split; [easy| |easy].
    simpl. now rewrite Hc.
Qed.

Lemma many1_stop {R : Type} (p : N -> bool) (k : pystr -> pystr -> option R)
    (acc s : pystr) :
  match s with [] => True | c :: _ => p c = false end ->
  many1 p k acc s = None.
Proof. destruct s as [|c s]; simpl; [easy|]. now intros ->. Qed.

(** A repetition takes a whole run when what follows the run then
    matches. *)
Lemma many1_greedy {R : Type} (p : N -> bool) (k : pystr -> pystr -> option R)
    (acc g rest : pystr) (r : R) :
  g <> [] -> forallb p g = true ->
  match rest with [] => True | c :: _ => p c = false end ->
  k (acc ++ g) rest = Some r ->
  many1 p k acc (g ++ rest) = Some r.
Proof.
  revert acc. induction g as [|c g IH]; intros acc Hne Hg Hrest Hk; [easy|].
  simpl in Hg. apply andb_true_iff in Hg as [Hc Hg]. simpl. rewrite Hc.
  destruct g as [|d g].
  - simpl. now rewrite (many1_stop p k (acc ++ [c]) rest Hrest).
  - rewrite (IH (acc ++ [c])); [easy|easy|easy|easy|].
    now rewrite <- app_assoc.
Qed.

Lemma space_not_label (c : N) : is_space c = true -> is_label_char c = false.
Proof.
  unfold is_space, is_label_char.
  rewrite !orb_true_iff, !andb_true_iff, !N.leb_le, !N.eqb_eq. intros H.
  repeat (apply orb_false_iff; split);
    try (apply andb_false_iff);
    rewrite ?N.leb_gt, ?N.eqb_neq; lia.
Qed.

Lemma match_here_sound (s g : pystr) :
  match_here s = Some g ->
  exists sp digits post,
    s = matched g sp digits ++ post
    /\ is_label g = true /\ is_space sp = true /\ is_id digits = true.
Proof.
  unfold match_here. intros H.
  apply many1_inv_split in H as [g1 [s1 [-> [Hne [Hg H]]]]].
  apply one_inv in H as [sp [s2 [-> [Hsp H]]]].
  apply one_inv in H as [c2 [s3 [-> [Hc2 H]]]].
  apply many1_inv_split in H as [digits [s4 [-> [Hdne [Hd H]]]]].
  apply one_inv in H as [c3 [s5 [-> [Hc3 H]]]].
  injection H as <-. apply N.eqb_eq in Hc2, Hc3. subst c2 c3.
  exists sp, digits, s5. unfold matched. simpl.
  repeat split.
  - rewrite <- !app_assoc. simpl. now rewrite <- app_assoc.
  - destruct g1; [easy | exact Hg].
  - exact Hsp.
  - destruct digits; [easy | exact Hd].
Qed.

Lemma match_here_complete (g : pystr) (sp : N) (digits post : pystr) :
  is_label g = true -> is_space sp = true -> is_id digits = true ->
  match_here (matched g sp digits ++ post) = Some g.
Proof.
  intros Hg Hsp Hd. unfold match_here, matched.
  rewrite <- app_assoc.
  apply many1_greedy.
  - now destruct g.
  - now destruct g.
  - simpl. now apply space_not_label.
  - simpl. rewrite Hsp. simpl. rewrite <- app_assoc.
    apply many1_greedy.
    + now destruct digits.
    + now destruct digits.
    + reflexivity.
    + reflexivity.
Qed.

Lemma search_app_found (pre s : pystr) (g : pystr) :
  match_here s = Some g -> exists g', search (pre ++ s) = Some g'.
Proof.
  intros Hs. induction pre as [|c pre IH]; simpl.
  - destruct s as [|c s]; [discriminate Hs|]. simpl. rewrite Hs. eauto.
  - destruct (match_here (c :: pre ++ s)); eauto.
Qed.

(** ** X1: what the search finds *)

(** X1.  [search] returns a label exactly when the subject holds, somewhere,
    a word of [[a-zA-Z_.0-9]], one white space and a number in brackets; the
    label it returns is such a word of the subject, followed there by a
    white space and a number in brackets. *)
Theorem X1_search_finds_labels (s : pystr) :
  (forall g, search s = Some g ->
     exists pre sp digits post,
       s = pre ++ matched g sp digits ++ post
       /\ is_label g = true /\ is_space sp = true /\ is_id digits = true)
  /\ (forall pre g sp digits post,
        s = pre ++ matched g sp digits ++ post ->
        is_label g = true -> is_space sp = true -> is_id digits = true ->
        exists g', search s = Some g').
Proof.
  split.
  - induction s as [|c s IH]; intros g; simpl; [easy|].
    destruct (match_here (c :: s)) as [g0|] eqn:Hm.
    + intros [= <-]. apply match_here_sound in Hm as [sp [digits [post [Hs H]]]].
      exists [], sp, digits, post. now split.
    + intros H. destruct (IH g H) as [pre [sp [digits [post [-> Hrest]]]]].
      exists (c :: pre), sp, digits, post. now split.
  - intros pre g sp digits post -> Hg Hsp Hd.
    apply (search_app_found pre _ g). now apply match_here_complete.
Qed.

(** ** Splitting a path *)

Lemma split_go_delimiter (cur a rest : pystr) :
  ~ In 194 a ->
  split_go delimiter 0 cur (a ++ delimiter ++ rest)
  = (cur ++ a) :: split_go delimiter 0 [] rest.
Proof.
  revert cur. induction a as [|x a IH]; intros cur Hn.
  - simpl. now rewrite app_nil_r.
  - change ((x :: a) ++ delimiter ++ rest) with (x :: (a ++ delimiter ++ rest)).
    cbn [split_go startswith delimiter].
    destruct (N.eqb_spec 194 x) as [<-|Hx].
    + exfalso. apply Hn. now left.
    + cbn [andb]. rewrite IH by (intros H; apply Hn; now right).
      now rewrite <- app_assoc.
Qed.

Lemma split_go_no_delimiter (cur a : pystr) :
  ~ In 194 a -> split_go delimiter 0 cur a = [cur ++ a].
Proof.
  revert cur. induction a as [|x a IH]; intros cur Hn.
  - simpl. now rewrite app_nil_r.
  - cbn [split_go startswith delimiter].
    destruct (N.eqb_spec 194 x) as [<-|Hx].
    + exfalso. apply Hn. now left.
    + cbn [andb]. rewrite IH by (intros H; apply Hn; now right).
      now rewrite <- app_assoc.
Qed.

Lemma split_join_delimiter (pieces : list pystr) :
  pieces <> [] -> Forall (fun p => ~ In 194 p) pieces ->
  split delimiter (join delimiter pieces) = pieces.
Proof.
  unfold split. intros Hne Hall.
  induction Hall as [|p pieces Hp Hall IH]; [easy|].
  destruct pieces as [|q pieces].
  - simpl. now rewrite split_go_no_delimiter.
  - change (join delimiter (p :: q :: pieces))
      with (p ++ delimiter ++ join delimiter (q :: pieces)).
    rewrite split_go_delimiter by easy. simpl app. f_equal. now apply IH.
Qed.

Lemma join_pieces (first : bool) (segments : list pystr) :
  segments <> [] ->
  (if first then [] else [32]) ++ join (py " " ++ delimiter ++ py " ") segments
  = join delimiter (pieces_from first segments).
Proof.
  revert first. induction segments as [|s rest IH]; intros first Hne; [easy|].
  destruct rest as [|t rest].
  - simpl. unfold piece. now rewrite app_nil_r.
  - change (join (py " " ++ delimiter ++ py " ") (s :: t :: rest))
      with (s ++ (py " " ++ delimiter ++ py " ")
              ++ join (py " " ++ delimiter ++ py " ") (t :: rest)).
    change (pieces_from first (s :: t :: rest))
      with (piece first false s :: pieces_from false (t :: rest)).
    assert (pieces_from false (t :: rest) <> []) as Hp by (now destruct rest).
    destruct (pieces_from false (t :: rest)) as [|p ps] eqn:Hps; [easy|].
    change (join delimiter (piece first false s :: p :: ps))
      with (piece first false s ++ delimiter ++ join delimiter (p :: ps)).
    rewrite <- Hps, <- (IH false) by easy.
    unfold piece. rewrite <- !app_assoc. reflexivity.
Qed.

Lemma label_char_not_194 (g : pystr) : forallb is_label_char g = true -> ~ In 194 g.
Proof.
  rewrite forallb_forall. intros H Hin. apply H in Hin. discriminate.
Qed.

Lemma digit_not_194 (g : pystr) : forallb is_digit g = true -> ~ In 194 g.
Proof.
  rewrite forallb_forall. intros H Hin. apply H in Hin. discriminate.
Qed.

Lemma segment_no_delimiter (u : pystr * pystr) :
  well_formed u -> ~ In 194 (segment u).
Proof.
  intros [Hl Hd]. unfold segment. rewrite !in_app_iff.
  assert (~ In 194 (fst u)) by (apply label_char_not_194; now destruct (fst u)).
  assert (~ In 194 (snd u)) by (apply digit_not_194; now destruct (snd u)).
  simpl. intros [H1|[[H1|[H1|[]]]|[H1|[H1|[]]]]]; try easy.
Qed.

Lemma pieces_no_delimiter (first : bool) (units : list (pystr * pystr)) :
  Forall well_formed units ->
  Forall (fun p => ~ In 194 p) (pieces_from first (map segment units)).
Proof.
  intros Hall. revert first. induction Hall as [|u units Hu Hall IH]; intros first.
  - constructor.
  - assert (forall l, ~ In 194 (piece first l (segment u))) as Hp.
    { intros l. unfold piece. rewrite !in_app_iff.
      pose proof (segment_no_delimiter u Hu).
      destruct first, l; simpl; intros [H1|[H1|H1]]; try easy;
        destruct H1 as [H1|[]]; discriminate. }
    destruct units as [|v units]; simpl.
    + constructor; [apply Hp | constructor].
    + constructor; [apply Hp | apply (IH false)].
Qed.

(** ** The label of a piece *)

Lemma search_piece (first last : bool) (u : pystr * pystr) :
  well_formed u -> search (piece first last (segment u)) = Some (fst u).
Proof.
  intros [Hl Hd].
  assert (match_here (segment u ++ (if last then [] else [32])) = Some (fst u)) as Hm.
  { apply (match_here_complete (fst u) 32 (snd u)); easy. }
  assert (search (segment u ++ (if last then [] else [32])) = Some (fst u)) as Hs.
  { destruct (segment u ++ (if last then [] else [32])) as [|c s] eqn:Hseg;
      [discriminate Hm|]. simpl. now rewrite Hm. }
  unfold piece. destruct first; [exact Hs|].
  change ([32] ++ segment u ++ (if last then [] else [32]))
    with (32 :: (segment u ++ (if last then [] else [32]))).
  cbn [search]. now rewrite Hs.
Qed.

Lemma extract_piece (first : bool) (units : list (pystr * pystr)) (i : nat) :
  Forall well_formed units ->
  str_extract (nth_error (pieces_from first (map segment units)) i)
  = fst <$> nth_error units i.
Proof.
  intros Hall. revert first i.
  induction Hall as [|u units Hu Hall IH]; intros first i.
  - now destruct i.
  - destruct units as [|v units].
    + destruct i as [|i]; simpl; [now apply search_piece | now destruct i].
    + change (pieces_from first (map segment (u :: v :: units)))
        with (piece first false (segment u)
                :: pieces_from false (map segment (v :: units))).
      destruct i as [|i]; [simpl; now apply search_piece|].
      exact (IH false i).
Qed.

Lemma pieces_from_length (first : bool) (segments : list pystr) :
  length (pieces_from first segments) = length segments.
Proof.
  revert first. induction segments as [|s rest IH]; intros first; [easy|].
  destruct rest as [|t rest]; [easy|].
  change (pieces_from first (s :: t :: rest))
    with (piece first false s :: pieces_from false (t :: rest)).
  cbn [length]. f_equal. exact (IH false).
Qed.

(** ** [.str[i]] *)

Section PathLabels.
Context {F : Float64}.

(** X2.  For a path of well-formed segments (a label of [[a-zA-Z_.0-9]], a
    space and a number in brackets) joined by the delimiter between two
    spaces, the columns that [transform_report_data] derives are the labels
    of the path: [ad_unit_level_0] of the first segment, [section] of the
    second, [sub_section] of the third and [ad_unit_name] of the last; a
    column whose segment the path does not have is missing. *)
Theorem X2_path_labels (units : list (pystr * pystr)) (r : RawRow float) (row : Row float) :
  units <> [] -> Forall well_formed units ->
  Dimension_AD_UNIT_NAME r = path units ->
  derive_columns r = Ok row ->
  ad_unit_all_level row = pieces_from true (map segment units)
  /\ ad_unit_level_0 row = fst <$> nth_error units 0
  /\ section row = fst <$> nth_error units 1
  /\ sub_section row = fst <$> nth_error units 2
  /\ ad_unit_name row = fst <$> nth_error units (length units - 1).
Proof.
  intros Hne Hall Hname Hr.
  assert (split delimiter (Dimension_AD_UNIT_NAME r)
          = pieces_from true (map segment units)) as Hsplit.
  { rewrite Hname. unfold path.
    rewrite <- (app_nil_l (join _ _)).
    rewrite (join_pieces true) by (now destruct units).
    apply split_join_delimiter.
    - destruct units as [|u [|v units]]; easy.
    - now apply pieces_no_delimiter. }
  unfold derive_columns in Hr. rewrite Hsplit in Hr.
  destruct (to_datetime (Dimension_DATE r)); simpl in Hr; [|easy].
  destruct (astype_float (Column_TOTAL_LINE_ITEM_LEVEL_ALL_REVENUE r)); simpl in Hr; [|easy].
  injection Hr as <-. cbn [ad_unit_all_level ad_unit_level_0 section sub_section ad_unit_name].
  split; [reflexivity|].
  rewrite (str_get_nat 0), (str_get_nat 1), (str_get_nat 2).
  rewrite !extract_piece by easy.
  repeat split.
  rewrite str_get_last.
  - rewrite pieces_from_length, length_map. now apply extract_piece.
  - destruct units as [|u [|v units]]; easy.
Qed.

End PathLabels.

(** ** The order of the keys *)

Lemma str_compare_antisym (a b : pystr) : str_compare b a = CompOpp (str_compare a b).
Proof.
  revert b. induction a as [|x a IH]; intros [|y b]; simpl; try easy.
  rewrite (N.compare_antisym x y). destruct (x ?= y); simpl; [apply IH|easy|easy].
Qed.

Lemma str_compare_trans (a b c : pystr) :
  str_compare a b = Lt -> str_compare b c = Lt -> str_compare a c = Lt.
Proof.
  revert b c. induction a as [|x a IH]; intros [|y b] [|z c]; simpl; try easy.
  destruct (N.compare_spec x y) as [->|Hxy|Hxy]; [| |easy].
  - destruct (N.compare_spec y z) as [->|Hyz|Hyz]; [|easy|easy]. apply IH.
  - intros _. destruct (N.compare_spec y z) as [->|Hyz|Hyz]; [| |easy].
    + intros _. now apply N.compare_lt_iff in Hxy as ->.
    + intros _. assert (x < z) as H by lia. now apply N.compare_lt_iff in H as ->.
Qed.

Lemma date_compare_antisym (a b : Date) : date_compare b a = CompOpp (date_compare a b).
Proof.
  unfold date_compare.
  rewrite (N.compare_antisym (year a)), (N.compare_antisym (month a)),
    (N.compare_antisym (day a)).
  destruct (year a ?= year b); simpl; [|easy|easy].
  now destruct (month a ?= month b).
Qed.

Lemma date_compare_trans (a b c : Date) :
  date_compare a b = Lt -> date_compare b c = Lt -> date_compare a c = Lt.
Proof.
  unfold date_compare.
  destruct (N.compare_spec (year a) (year b)) as [Hy|Hy|Hy];
  destruct (N.compare_spec (year b) (year c)) as [Hy'|Hy'|Hy']; try easy;
  destruct (N.compare_spec (year a) (year c)) as [Hy''|Hy''|Hy'']; try lia; try easy.
  destruct (N.compare_spec (month a) (month b)) as [Hm|Hm|Hm];
  destruct (N.compare_spec (month b) (month c)) as [Hm'|Hm'|Hm']; try easy;
  destruct (N.compare_spec (month a) (month c)) as [Hm''|Hm''|Hm'']; try lia; try easy.
  rewrite !N.compare_lt_iff. lia.
Qed.

Lemma key_compare_antisym (a b : GroupKey) : key_compare b a = CompOpp (key_compare a b).
Proof.
  unfold key_compare.
  rewrite (date_compare_antisym (key_date a)),
    (str_compare_antisym (key_device_type a)),
    (str_compare_antisym (key_section a)),
    (str_compare_antisym (key_sub_section a)).
  destruct (date_compare (key_date a) (key_date b)); simpl; [|easy|easy].
  destruct (str_compare (key_device_type a) (key_device_type b)); simpl; [|easy|easy].
  now destruct (str_compare (key_section a) (key_section b)).
Qed.

Lemma key_compare_trans (a b c : GroupKey) :
  key_compare a b = Lt -> key_compare b c = Lt -> key_compare a c = Lt.
Proof.
  unfold key_compare.
  destruct (date_compare (key_date a) (key_date b)) eqn:Hd; [| |easy];
  destruct (date_compare (key_date b) (key_date c)) eqn:Hd'; try easy;
  try (apply date_compare_eq in Hd; rewrite Hd);
  try (apply date_compare_eq in Hd'; rewrite <- Hd');
  try (now rewrite Hd); try (now rewrite Hd');
  try (now rewrite (date_compare_trans _ _ _ Hd Hd')).
  rewrite date_compare_refl.
  destruct (str_compare (key_device_type a) (key_device_type b)) eqn:Hv; [| |easy];
  destruct (str_compare (key_device_type b) (key_device_type c)) eqn:Hv'; try easy;
  try (apply str_compare_eq in Hv; rewrite Hv);
  try (apply str_compare_eq in Hv'; rewrite <- Hv');
  try (now rewrite Hv); try (now rewrite Hv');
  try (now rewrite (str_compare_trans _ _ _ Hv Hv')).
  rewrite str_compare_refl.
  destruct (str_compare (key_section a) (key_section b)) eqn:Hs; [| |easy];
  destruct (str_compare (key_section b) (key_section c)) eqn:Hs'; try easy;
  try (apply str_compare_eq in Hs; rewrite Hs);
  try (apply str_compare_eq in Hs'; rewrite <- Hs');
  try (now rewrite Hs); try (now rewrite Hs');
  try (now rewrite (str_compare_trans _ _ _ Hs Hs')).
  rewrite str_compare_refl. apply str_compare_trans.
Qed.

Lemma insert_sorted_In (k x : GroupKey) (l : list GroupKey) :
  In x (insert_sorted k l) <-> x = k \/ In x l.
Proof.
  split; intros H.
  - apply (Permutation_in _ (insert_sorted_Permutation k l)) in H.
    destruct H as [->|H]; tauto.
  - apply (Permutation_in _ (Permutation_sym (insert_sorted_Permutation k l))).
    destruct H as [->|H]; [now left | now right].
Qed.

Lemma insert_sorted_ascending (k : GroupKey) (l : list GroupKey) :
  StronglySorted (fun a b => key_compare a b = Lt) l -> ~ In k l ->
  StronglySorted (fun a b => key_compare a b = Lt) (insert_sorted k l).
Proof.
  intros Hl. induction Hl as [|h t Ht IH Hh]; intros Hk; simpl.
  - repeat constructor.
  - assert (k <> h) as Hne by (intros ->; apply Hk; now left).
    unfold key_leb. destruct (key_compare k h) eqn:Hc.
    + now apply key_compare_eq in Hc.
    + constructor; [now constructor|]. constructor; [easy|].
      rewrite List.Forall_forall in Hh |- *. intros x Hx.
      apply (key_compare_trans k h x Hc). now apply Hh.
    + constructor; [apply IH; intros H; apply Hk; now right|].
      rewrite List.Forall_forall in Hh |- *. intros x Hx.
      apply insert_sorted_In in Hx as [->|Hx]; [|now apply Hh].
      rewrite key_compare_antisym, Hc. reflexivity.
Qed.

Lemma sort_keys_ascending (l : list GroupKey) :
  List.NoDup l -> StronglySorted (fun a b => key_compare a b = Lt) (sort_keys l).
Proof.
  induction 1 as [|k l Hk Hnd IH]; simpl; [constructor|].
  apply insert_sorted_ascending; [exact IH|].
  intros H. apply Hk. now apply (Permutation_in _ (sort_keys_Permutation l)).
Qed.

(** Two ascending lists of keys with the same keys are the same list. *)
Lemma ascending_unique (l1 l2 : list GroupKey) :
  StronglySorted (fun a b => key_compare a b = Lt) l1 ->
  StronglySorted (fun a b => key_compare a b = Lt) l2 ->
  (forall k, In k l1 <-> In k l2) -> l1 = l2.
Proof.
  intros H1. revert l2. induction H1 as [|a l1 Hl1 IH Ha]; intros l2 H2 Hsame.
  - destruct l2 as [|b l2]; [easy|]. exfalso. apply (Hsame b). now left.
  - destruct H2 as [|b l2 Hl2 Hb]; [exfalso; apply (Hsame a); now left|].
    rewrite List.Forall_forall in Ha, Hb.
    assert (forall x, key_compare x x = Lt -> False) as Hirr.
    { intros x Hx. now rewrite key_compare_refl in Hx. }
    assert (a = b) as ->.
    { destruct (proj1 (Hsame a) (or_introl eq_refl)) as [Hab|Hab]; [easy|].
      destruct (proj2 (Hsame b) (or_introl eq_refl)) as [Hba|Hba]; [easy|].
      exfalso. apply (Hirr a).
      apply (key_compare_trans a b a); [now apply Ha | now apply Hb]. }
    f_equal. apply IH; [easy|]. intros k. split; intros Hk.
    + destruct (proj1 (Hsame k) (or_intror Hk)) as [->|H]; [|easy].
      exfalso. apply (Hirr k). now apply Ha.
    + destruct (proj2 (Hsame k) (or_intror Hk)) as [->|H]; [|easy].
      exfalso. apply (Hirr k). now apply Hb.
Qed.

(** ** When the transformer returns, and what its rows are *)

Lemma traverse_Ok_iff {A B : Type} (f : A -> result B) (l : list A) :
  (exists bs, traverse f l = Ok bs) <-> Forall (fun a => exists b, f a = Ok b) l.
Proof.
  induction l as [|a l IH]; simpl.
  - split; [constructor | now exists []].
  - split.
    + intros [bs H]. destruct (f a) as [b|e] eqn:Ha; simpl in H; [|easy].
      destruct (traverse f l) as [bl|e] eqn:Hl; simpl in H; [|easy].
      constructor; [now exists b | apply IH; now exists bl].
    + intros H. inversion H as [|a' l' [b Hb] Hl]; subst.
      apply IH in Hl as [bl Hl]. exists (b :: bl). now rewrite Hb, Hl.
Qed.

Lemma traverse_length {A B : Type} (f : A -> result B) (l : list A) (bs : list B) :
  traverse f l = Ok bs -> length bs = length l.
Proof.
  revert bs. induction l as [|a l IH]; intros bs H; simpl in H.
  - now injection H as <-.
  - destruct (f a) as [b|e]; simpl in H; [|easy].
    destruct (traverse f l) as [bl|e]; simpl in H; [|easy].
    injection H as <-. simpl. f_equal. now apply IH.
Qed.

Lemma traverse_Permutation {A B : Type} (f : A -> result B) (l l' : list A) (bs : list B) :
  Permutation l l' -> traverse f l = Ok bs ->
  exists bs', traverse f l' = Ok bs' /\ Permutation bs bs'.
Proof.
  intros Hp. revert bs.
  induction Hp as [|a l l' Hp IH|a a' l|l l' l'' Hp IH Hp' IH']; intros bs H.
  - exists bs. now split.
  - simpl in H |- *. destruct (f a) as [b|e]; simpl in H |- *; [|easy].
    destruct (traverse f l) as [bl|e]; simpl in H; [|easy].
    injection H as <-. destruct (IH bl eq_refl) as [bl' [-> Hbl]].
    exists (b :: bl'). split; [easy | now constructor].
  - simpl in H |- *.
    destruct (f a') as [b'|e]; simpl in H |- *; [|easy].
    destruct (f a) as [b|e]; simpl in H |- *; [|easy].
    destruct (traverse f l) as [bl|e]; simpl in H |- *; [|easy].
    injection H as <-. exists (b :: b' :: bl). split; [easy | apply perm_swap].
  - destruct (IH bs H) as [bs' [H' Hbs]].
    destruct (IH' bs' H') as [bs'' [H'' Hbs']].
    exists bs''. split; [easy | now transitivity bs'].
Qed.

Lemma filter_Permutation {A : Type} (p : A -> bool) (l l' : list A) :
  Permutation l l' -> Permutation (List.filter p l) (List.filter p l').
Proof.
  induction 1 as [|a l l' Hp IH|a a' l|l l' l'' Hp IH Hp' IH']; simpl.
  - constructor.
  - destruct (p a); [now constructor | easy].
  - destruct (p a), (p a'); try easy. apply perm_swap.
  - now transitivity (List.filter p l').
Qed.

Lemma sum_int_Permutation (l l' : list Z) : Permutation l l' -> sum_int l = sum_int l'.
Proof.
  unfold sum_int.
  induction 1 as [|a l l' Hp IH|a a' l|l l' l'' Hp IH Hp' IH']; simpl.
  - reflexivity.
  - lia.
  - lia.
  - congruence.
Qed.

Lemma StronglySorted_map {A B : Type} (f : A -> B) (R : B -> B -> Prop) (l : list A) :
  StronglySorted R (map f l) -> StronglySorted (fun a b => R (f a) (f b)) l.
Proof.
  induction l as [|a l IH]; simpl; intros H; [constructor|].
  apply StronglySorted_inv in H as [Hl Ha]. constructor; [now apply IH|].
  now apply List.Forall_map.
Qed.

Lemma is_label_spec (s : pystr) :
  is_label s = true <-> s <> [] /\ forallb is_label_char s = true.
Proof. destruct s; simpl; [easy|]. split; [now intros H | now intros [_ H]]. Qed.

Section Transformed.
Context {F : Float64}.

Lemma derive_columns_Ok_iff (r : RawRow float) :
  (exists row, derive_columns r = Ok row) <->
  (exists d, Dimension_DATE r = DateValue d)
  /\ (exists x, Column_TOTAL_LINE_ITEM_LEVEL_ALL_REVENUE r = RevenueValue x).
Proof.
  unfold derive_columns.
  destruct (Dimension_DATE r) as [d|t], (Column_TOTAL_LINE_ITEM_LEVEL_ALL_REVENUE r) as [x|t'];
    simpl; split; try (intros [row H]; discriminate);
    try (intros [[d' H1] [x' H2]]; discriminate).
  - intros _. split; eauto.
  - intros _. eauto.
Qed.

Lemma group_keys_ascending (df : list (Row float)) :
  StronglySorted (fun a b => key_compare a b = Lt) (group_keys df).
Proof. unfold group_keys. apply sort_keys_ascending, unique_NoDup. Qed.

Lemma group_keys_Permutation (df df' : list (Row float)) :
  Permutation df df' -> group_keys df = group_keys df'.
Proof.
  intros Hp. apply ascending_unique; try apply group_keys_ascending.
  intros k. rewrite !group_keys_In. split; intros [r [Hr Hk]]; exists r; split; try easy.
  - now apply (Permutation_in _ Hp).
  - now apply (Permutation_in _ (Permutation_sym Hp)).
Qed.

Lemma group_key_fields (row : Row float) (k : GroupKey) :
  group_key row = Some k <->
  date row = key_date k /\ device_type row = Some (key_device_type k)
  /\ section row = Some (key_section k) /\ sub_section row = Some (key_sub_section k).
Proof.
  unfold group_key. destruct k as [d v s t]. simpl.
  destruct (device_type row) as [v'|], (section row) as [s'|], (sub_section row) as [t'|];
    simpl; split; try easy; try (intros [_ [H1 [H2 H3]]]; discriminate).
  - intros [= <- <- <- <-]. easy.
  - intros [-> [[= ->] [[= ->] [= ->]]]]. reflexivity.
Qed.

Lemma aggregated_returns (report : list (RawRow float)) :
  (exists out, aggregated report = Ok out) <->
  Forall (fun r => (exists d, Dimension_DATE r = DateValue d)
                   /\ (exists x, Column_TOTAL_LINE_ITEM_LEVEL_ALL_REVENUE r
                                 = RevenueValue x)) report.
Proof.
  transitivity (exists df, traverse derive_columns report = Ok df).
  - unfold aggregated, filtered.
    destruct (traverse derive_columns report) as [df|e]; simpl; split; eauto;
      intros [x H]; discriminate.
  - rewrite traverse_Ok_iff. apply Forall_iff. intros r. apply derive_columns_Ok_iff.
Qed.

Lemma aggregated_raises (report : list (RawRow float)) (e : exn) :
  aggregated report = Raise e -> e = ValueError.
Proof.
  unfold aggregated, filtered.
  destruct (traverse derive_columns report) as [df|e'] eqn:Hdf; simpl; [easy|].
  intros [= <-]. clear -Hdf. induction report as [|r report IH]; simpl in Hdf; [easy|].
  destruct (derive_columns r) as [row|e] eqn:Hr; simpl in Hdf.
  - destruct (traverse derive_columns report); simpl in Hdf; [easy|].
    injection Hdf as ->. now apply IH.
  - injection Hdf as <-. now apply derive_columns_raises in Hr.
Qed.

(** X3.  [transform_report_data] returns a table exactly when the report
    has no row or has a path of three pieces, and every row of it has a
    date of the format and a revenue that is a number.  It raises
    [AttributeError] exactly when the report has rows and no path of three
    pieces; when it fails otherwise, it raises [ValueError]. *)
Theorem X3_transform_returns (report : list (RawRow float)) :
  ((exists out, transform_report_data report = Ok out) <->
   (report = [] \/ exists r, In r report /\ (3 <= levels r)%nat)
   /\ Forall (fun r => (exists d, Dimension_DATE r = DateValue d)
                       /\ (exists x, Column_TOTAL_LINE_ITEM_LEVEL_ALL_REVENUE r
                                     = RevenueValue x)) report)
  /\ (transform_report_data report = Raise AttributeError <->
      report <> [] /\ forall r, In r report -> (levels r < 3)%nat)
  /\ (forall e, transform_report_data report = Raise e ->
                e = AttributeError \/ e = ValueError).
Proof.
  rewrite transform_extractable, <- extractable_spec, <- aggregated_returns.
  destruct (extractable report) eqn:Hx.
  - split; [|split].
    + split; [intros H; now split | now intros [_ H]].
    + split.
      * intros H. apply aggregated_raises in H. discriminate.
      * intros [Hne Hnarrow]. apply extractable_spec in Hx as [->|[r [Hr H]]]; [easy|].
        specialize (Hnarrow r Hr). lia.
    + intros e H. right. now apply aggregated_raises in H.
  - split; [|split].
    + split; [intros [out H]; discriminate | now intros [H _]].
    + split; [|reflexivity]. intros _. split.
      * intros ->. discriminate.
      * intros r Hr. destruct (Nat.ltb_spec (levels r) 3) as [H|H]; [easy|].
        assert (extractable report = true) as E
          by (apply extractable_spec; right; now exists r).
        congruence.
    + intros e [= <-]. now left.
Qed.

Lemma transform_keys (report : list (RawRow float)) (out : list (AggregatedRow float))
    (k : GroupKey) :
  transform_report_data report = Ok out ->
  (In k (map agg_key out) <->
   exists r row,
     In r report /\ derive_columns r = Ok row
     /\ filter_1 row = true /\ filter_2 row = true
     /\ date row = key_date k /\ device_type row = Some (key_device_type k)
     /\ section row = Some (key_section k)
     /\ sub_section row = Some (key_sub_section k)).
Proof.
  intros Hout. apply transform_filtered in Hout as [kept [Hkept ->]].
  rewrite groupby_sum_keys, group_keys_In. split.
  - intros [row [Hrow Hk]].
    destruct (filtered_derived report kept row Hkept Hrow) as [[r [Hr Hd]] [H1 H2]].
    exists r, row. apply group_key_fields in Hk. tauto.
  - intros [r [row [Hr [Hd [H1 [H2 Hk]]]]]]. exists row. split.
    + eapply filtered_In; eauto.
    + now apply group_key_fields.
Qed.

(** X4.  The keys of the output are the keys of the rows that pass both
    filters: the output has a row for (date, device type, section,
    sub-section) exactly when some row of the report passes Filter 1 and
    Filter 2 and has that date, that device type, that section and that
    sub-section. *)
Theorem X4_output_keys (report : list (RawRow float)) (out : list (AggregatedRow float))
    (k : GroupKey) :
  transform_report_data report = Ok out ->
  (In k (map agg_key out) <->
   exists r row,
     In r report /\ derive_columns r = Ok row
     /\ filter_1 row = true /\ filter_2 row = true
     /\ date row = key_date k /\ device_type row = Some (key_device_type k)
     /\ section row = Some (key_section k)
     /\ sub_section row = Some (key_sub_section k)).
Proof. apply transform_keys. Qed.

(** X5.  The rows of the output are in strictly ascending order of (date,
    device type, section, sub-section): dates by the calendar, texts by
    code points. *)
Theorem X5_output_sorted (report : list (RawRow float)) (out : list (AggregatedRow float)) :
  transform_report_data report = Ok out ->
  StronglySorted (fun a b => key_compare (agg_key a) (agg_key b) = Lt) out.
Proof.
  intros Hout. apply transform_filtered in Hout as [kept [Hkept ->]].
  apply (StronglySorted_map agg_key (fun a b => key_compare a b = Lt)).
  rewrite groupby_sum_keys. apply group_keys_ascending.
Qed.

Lemma transform_rows (report : list (RawRow float)) (out : list (AggregatedRow float))
    (o : AggregatedRow float) :
  transform_report_data report = Ok out -> In o out ->
  (agg_device_type o = py "Desktop" \/ agg_device_type o = py "Mobile Web")
  /\ is_label (agg_section o) = true
  /\ is_label (agg_sub_section o) = true
  /\ ((exists q, agg_sub_section o = q ++ py "_Diapo")
      \/ (exists q, agg_sub_section o = q ++ py "_art")
      \/ agg_section o = py "amp").
Proof.
  intros Hout Ho.
  assert (In (agg_key o) (map agg_key out)) as Hk by now apply in_map.
  apply (transform_keys report out (agg_key o) Hout) in Hk
    as [r [row [Hr [Hd [H1 [H2 [_ [Hdev [Hsec Hsub]]]]]]]]].
  simpl in Hdev, Hsec, Hsub.
  split; [|split; [|split]].
  - rewrite (derive_columns_device_type r row Hd) in Hdev.
    apply filter_1_spec in H1.
    assert (replace device_types (Some (py "20minutes_web")) = Some (py "Desktop"))
      as E1 by (vm_compute; reflexivity).
    assert (replace device_types (Some (py "20minutes_web_video_P2")) = Some (py "Desktop"))
      as E2 by (vm_compute; reflexivity).
    assert (replace device_types (Some (py "20minutes_mobile")) = Some (py "Mobile Web"))
      as E3 by (vm_compute; reflexivity).
    destruct H1 as [H|[H|H]]; rewrite H in Hdev;
      rewrite ?E1, ?E2, ?E3 in Hdev; injection Hdev as <-; auto.
  - unfold derive_columns in Hd.
    destruct (to_datetime (Dimension_DATE r)); simpl in Hd; [|easy].
    destruct (astype_float (Column_TOTAL_LINE_ITEM_LEVEL_ALL_REVENUE r)); simpl in Hd; [|easy].
    injection Hd as <-. simpl in Hsec.
    unfold str_extract in Hsec.
    destruct (str_get 1 _) as [p|]; simpl in Hsec; [|easy].
    apply is_label_spec. now apply search_label in Hsec.
  - unfold derive_columns in Hd.
    destruct (to_datetime (Dimension_DATE r)); simpl in Hd; [|easy].
    destruct (astype_float (Column_TOTAL_LINE_ITEM_LEVEL_ALL_REVENUE r)); simpl in Hd; [|easy].
    injection Hd as <-. simpl in Hsub.
    unfold str_extract in Hsub.
    destruct (str_get 2 _) as [p|]; simpl in Hsub; [|easy].
    apply is_label_spec. now apply search_label in Hsub.
  - apply filter_2_spec in H2.
    destruct H2 as [[s [q [Hs ->]]]|[[s [q [Hs ->]]]|H]].
    + left. exists q. congruence.
    + right. left. exists q. congruence.
    + right. right. congruence.
Qed.

(** X6.  Every row of the output has the device type "Desktop" or
    "Mobile Web", a section and a sub-section that are words of
    [[a-zA-Z_.0-9]], and a sub-section that ends with "_Diapo" or "_art"
    unless the section is "amp". *)
Theorem X6_output_rows (report : list (RawRow float)) (out : list (AggregatedRow float))
    (o : AggregatedRow float) :
  transform_report_data report = Ok out -> In o out ->
  (agg_device_type o = py "Desktop" \/ agg_device_type o = py "Mobile Web")
  /\ is_label (agg_section o) = true
  /\ is_label (agg_sub_section o) = true
  /\ ((exists q, agg_sub_section o = q ++ py "_Diapo")
      \/ (exists q, agg_sub_section o = q ++ py "_art")
      \/ agg_section o = py "amp").
Proof. apply transform_rows. Qed.

End Transformed.

(** ** Totals, row order, and the columns that are not displayed *)

Lemma Forall2_map_same {A B C : Type} (P : B -> C -> Prop) (f : A -> B) (g : A -> C)
    (l : list A) :
  (forall a, In a l -> P (f a) (g a)) -> Forall2 P (map f l) (map g l).
Proof.
  induction l as [|a l IH]; intros H; simpl; constructor.
  - apply H. now left.
  - apply IH. intros x Hx. apply H. now right.
Qed.

Section Invariance.
Context {F : Float64}.

(** The columns that [groupby(...).sum()] reads. *)
Lemma groupby_sum_ext (df df' : list (Row float)) :
  Forall2 (fun a b => group_key a = group_key b /\ impressions a = impressions b
                      /\ revenue a = revenue b
                      /\ total_ad_requests a = total_ad_requests b) df df' ->
  groupby_sum df = groupby_sum df'.
Proof.
  intros H. unfold groupby_sum, group_keys.
  assert (omap group_key df = omap group_key df') as <-.
  { induction H as [|a b df df' [Hk _] _ IH]; simpl; [easy|].
    rewrite Hk. destruct (group_key b); [f_equal|]; exact IH. }
  apply map_ext. intros k. unfold sum_group. f_equal.
  - f_equal. induction H as [|a b df df' [Hk [Hi _]] _ IH]; simpl; [easy|].
    assert (in_group k a = in_group k b) as -> by (unfold in_group; now rewrite Hk).
    destruct (in_group k b); simpl; [rewrite Hi; f_equal|]; exact IH.
  - f_equal. induction H as [|a b df df' [Hk [_ [Hv _]]] _ IH]; simpl; [easy|].
    assert (in_group k a = in_group k b) as -> by (unfold in_group; now rewrite Hk).
    destruct (in_group k b); simpl; [rewrite Hv; f_equal|]; exact IH.
  - f_equal. induction H as [|a b df df' [Hk [_ [_ Hq]]] _ IH]; simpl; [easy|].
    assert (in_group k a = in_group k b) as -> by (unfold in_group; now rewrite Hk).
    destruct (in_group k b); simpl; [rewrite Hq; f_equal|]; exact IH.
Qed.

Lemma Forall2_same (df : list (Row float)) :
  Forall2 (fun a b => group_key a = group_key b /\ impressions a = impressions b
                      /\ revenue a = revenue b
                      /\ total_ad_requests a = total_ad_requests b) df df.
Proof. induction df; constructor; easy. Qed.

(** X7.  In a report whose counts fit (none is negative and those of a
    column add up to less than 2^63), the ad requests of the output rows
    add up to the ad requests of the input rows that pass both filters and
    have both a section and a sub-section. *)
Theorem X7_ad_requests_total (report : list (RawRow float)) (out : list (AggregatedRow float)) :
  counts_fit report = true ->
  transform_report_data report = Ok out ->
  exists kept,
    filtered report = Ok kept
    /\ sum_int (map agg_total_ad_requests out)
       = sum_int (map total_ad_requests
           (List.filter
              (fun row => bool_decide (is_Some (section row) /\ is_Some (sub_section row)))
              kept)).
Proof.
  intros Hfit Hout. apply transform_filtered in Hout as [kept [Hkept ->]].
  exists kept. split; [easy|].
  rewrite (groupby_sum_total total_ad_requests agg_total_ad_requests)
    by (intros k _; apply (counts_fit_kept report kept (in_group k) Hfit Hkept)).
  f_equal. f_equal. apply filter_ext_in. intros row Hrow.
  destruct (filtered_derived report kept row Hkept Hrow) as [[r [_ Hr]] [H1 _]].
  destruct (filter_1_device_type r row Hr H1) as [dev Hdev].
  apply bool_decide_ext. unfold group_key. rewrite Hdev. simpl.
  destruct (section row) as [s|], (sub_section row) as [t|]; simpl; split;
    try (intros [x Hx]; discriminate);
    try (intros [[x Hx] [y Hy]]; discriminate);
    intros _; unfold is_Some; eauto.
Qed.

(** X8.  The order of the rows of the report does not matter to the keys
    and the counts of the output: a report with the same rows in another
    order gives output rows with the same keys in the same order, the same
    impressions and the same ad requests, and each revenue is the sum of
    the same values, taken in the order of the report. *)
Theorem X8_row_order (report report' : list (RawRow float)) (out : list (AggregatedRow float)) :
  Permutation report report' ->
  transform_report_data report = Ok out ->
  exists out',
    transform_report_data report' = Ok out'
    /\ map agg_key out' = map agg_key out
    /\ map agg_impressions out' = map agg_impressions out
    /\ map agg_total_ad_requests out' = map agg_total_ad_requests out
    /\ Forall2 (fun o o' => exists values values',
                  Permutation values values'
                  /\ agg_revenue o = group_sum values
                  /\ agg_revenue o' = group_sum values') out out'.
Proof.
  intros Hp Hout. apply transform_Ok in Hout as [Hx Hout].
  rewrite transform_extractable.
  assert (extractable report' = true) as ->.
  { apply extractable_spec. apply extractable_spec in Hx as [->|[r [Hr H]]].
    - left. now apply Permutation_nil.
    - right. exists r. split; [now apply (Permutation_in _ Hp) | exact H]. }
  unfold aggregated, filtered in *.
  destruct (traverse derive_columns report) as [df|e] eqn:Hdf; simpl in Hout; [|easy].
  injection Hout as <-.
  destruct (traverse_Permutation derive_columns report report' df Hp Hdf)
    as [df' [-> Hdf']]. simpl.
  set (kept := List.filter (fun r => filter_1 r && filter_2 r) df).
  set (kept' := List.filter (fun r => filter_1 r && filter_2 r) df').
  assert (Permutation kept kept') as Hk by now apply filter_Permutation.
  exists (groupby_sum kept'). split; [easy|].
  assert (group_keys kept' = group_keys kept) as Hkeys
    by (symmetry; now apply group_keys_Permutation).
  split; [now rewrite !groupby_sum_keys|].
  unfold groupby_sum. rewrite Hkeys, !map_map. simpl.
  split; [|split].
  - apply map_ext. intros k. rewrite !sum_int64_wraps. f_equal.
    apply sum_int_Permutation, Permutation_map.
    apply filter_Permutation. now symmetry.
  - apply map_ext. intros k. rewrite !sum_int64_wraps. f_equal.
    apply sum_int_Permutation, Permutation_map.
    apply filter_Permutation. now symmetry.
  - apply Forall2_map_same. intros k _.
    exists (map revenue (List.filter (in_group k) kept)),
           (map revenue (List.filter (in_group k) kept')).
    split; [|easy]. now apply Permutation_map, filter_Permutation.
Qed.

Lemma aggregated_displayed (before after : list (RawRow float)) (r r' : RawRow float)
    (row row' : Row float) :
  derive_columns r = Ok row -> derive_columns r' = Ok row' ->
  ad_unit_level_0 row = ad_unit_level_0 row' ->
  section row = section row' -> sub_section row = sub_section row' ->
  date row = date row' -> impressions row = impressions row' ->
  revenue row = revenue row' -> total_ad_requests row = total_ad_requests row' ->
  aggregated (before ++ r :: after) = aggregated (before ++ r' :: after).
Proof.
  intros Hr Hr' H0 Hs Ht Hd Hi Hv Hq.
  unfold aggregated, filtered.
  rewrite !traverse_app. simpl. rewrite Hr, Hr'. simpl.
  destruct (traverse derive_columns before) as [a|e]; [|easy].
  destruct (traverse derive_columns after) as [b|e]; [|easy].
  simpl. f_equal. rewrite !List.filter_app. simpl.
  assert (filter_1 row = filter_1 row') as ->
    by (unfold filter_1; now rewrite H0).
  assert (filter_2 row = filter_2 row') as ->
    by (unfold filter_2; now rewrite Hs, Ht).
  apply groupby_sum_ext. apply Forall2_app; [apply Forall2_same|].
  destruct (filter_1 row' && filter_2 row'); [|apply Forall2_same].
  constructor; [|apply Forall2_same].
  split; [|easy]. unfold group_key.
  rewrite (derive_columns_device_type r row Hr), (derive_columns_device_type r' row' Hr').
  now rewrite H0, Hs, Ht, Hd.
Qed.

(** X9.  The table that a run returns depends on a row of the report only
    through its date, its two counts, its revenue and the labels of the
    first three pieces of its path: with a row in its place that agrees
    with it on these, whatever the rest of the two paths is, the rows give
    the same table, and the run returns it unless it raises
    [AttributeError], which it does when the row replaced was the only one
    whose path had three pieces. *)
Theorem X9_displayed_columns (before after : list (RawRow float)) (r r' : RawRow float)
    (row row' : Row float) (out : list (AggregatedRow float)) :
  derive_columns r = Ok row -> derive_columns r' = Ok row' ->
  ad_unit_level_0 row = ad_unit_level_0 row' ->
  section row = section row' -> sub_section row = sub_section row' ->
  date row = date row' -> impressions row = impressions row' ->
  revenue row = revenue row' -> total_ad_requests row = total_ad_requests row' ->
  transform_report_data (before ++ r :: after) = Ok out ->
  aggregated (before ++ r' :: after) = Ok out
  /\ (transform_report_data (before ++ r' :: after) = Ok out
      \/ transform_report_data (before ++ r' :: after) = Raise AttributeError)
  /\ ((3 <= levels r')%nat -> transform_report_data (before ++ r' :: after) = Ok out).
Proof.
  intros Hr Hr' H0 Hs Ht Hd Hi Hv Hq Hout.
  apply transform_Ok in Hout as [_ Hout].
  rewrite (aggregated_displayed before after r r' row row' Hr Hr' H0 Hs Ht Hd Hi Hv Hq)
    in Hout.
  split; [exact Hout|]. rewrite transform_extractable. split.
  - destruct (extractable (before ++ r' :: after)); [now left | now right].
  - intros Hwide.
    assert (extractable (before ++ r' :: after) = true) as ->; [|exact Hout].
    apply extractable_spec. right. exists r'. split; [|exact Hwide].
    apply in_or_app. right. now left.
Qed.

End Invariance.

(** ** The bytes of the published text *)

Lemma is_ascii_app (a b : pystr) : is_ascii (a ++ b) = is_ascii a && is_ascii b.
Proof. apply forallb_app. Qed.

Lemma encode_ascii (s : pystr) : is_ascii s = true -> encode s = Ok (map octet s).
Proof.
  unfold encode. intros H.
  assert (traverse utf8 s = Ok (map (fun c => [octet c]) s)) as ->.
  { induction s as [|c s IH]; [easy|]. simpl in H.
    apply andb_true_iff in H as [Hc Hs]. cbn [traverse map].
    assert (utf8 c = Ok [octet c]) as -> by (unfold utf8; now rewrite Hc).
    now rewrite IH. }
  simpl. f_equal. induction s as [|c s IH]; simpl; [easy|]. f_equal.
  apply IH. simpl in H. now apply andb_true_iff in H as [_ Hs].
Qed.

Lemma label_char_ascii (c : N) : is_label_char c = true -> (c <? 128) = true.
Proof.
  unfold is_label_char.
  rewrite !orb_true_iff, !andb_true_iff, !N.leb_le, !N.eqb_eq, N.ltb_lt. lia.
Qed.

Lemma is_label_ascii (s : pystr) : is_label s = true -> is_ascii s = true.
Proof.
  intros H. apply is_label_spec in H as [_ H]. unfold is_ascii.
  rewrite forallb_forall in H |- *. intros c Hc. now apply label_char_ascii, H.
Qed.

Lemma string_of_uint_ascii (d : Decimal.uint) :
  is_ascii (py (NilEmpty.string_of_uint d)) = true.
Proof. induction d; simpl; try easy; exact IHd. Qed.

Lemma str_of_Z_ascii (z : Z) : is_ascii (str_of_Z z) = true.
Proof.
  unfold str_of_Z. destruct (Z.to_int z) as [d|d]; simpl.
  - apply string_of_uint_ascii.
  - apply (string_of_uint_ascii d).
Qed.

Lemma zfill_ascii (width : nat) (s : pystr) :
  is_ascii s = true -> is_ascii (zfill width s) = true.
Proof.
  intros H. unfold zfill. rewrite is_ascii_app, H, andb_true_r.
  induction (width - length s)%nat as [|n IH]; simpl; [easy | exact IH].
Qed.

Lemma isoformat_ascii (d : Date) : is_ascii (isoformat d) = true.
Proof.
  unfold isoformat. rewrite !is_ascii_app, !zfill_ascii by apply str_of_Z_ascii.
  reflexivity.
Qed.

Lemma csv_field_ascii (s : pystr) : is_ascii s = true -> is_ascii (csv_field s) = true.
Proof.
  intros H. unfold csv_field. destruct (existsb needs_quoting s); [|easy].
  change (is_ascii (flat_map (fun c => if c =? quotechar then [c; c] else [c]) s
                    ++ [quotechar]) = true).
  rewrite is_ascii_app, andb_true_r.
  induction s as [|c s IH]; [easy|]. simpl in H.
  apply andb_true_iff in H as [Hc Hs]. simpl. rewrite is_ascii_app, IH by easy.
  rewrite andb_true_r. destruct (c =? quotechar); simpl; now rewrite Hc.
Qed.

Lemma join_ascii (sep : pystr) (parts : list pystr) :
  is_ascii sep = true -> Forall (fun p => is_ascii p = true) parts ->
  is_ascii (join sep parts) = true.
Proof.
  intros Hsep H. induction H as [|p parts Hp H IH]; [easy|]. simpl.
  destruct parts as [|q parts]; [easy|].
  now rewrite !is_ascii_app, Hp, Hsep, IH.
Qed.

Lemma csv_line_ascii (cs : list pystr) :
  Forall (fun p => is_ascii p = true) cs -> is_ascii (csv_line cs) = true.
Proof.
  intros H. unfold csv_line. rewrite is_ascii_app, andb_true_r.
  apply join_ascii; [easy|]. rewrite List.Forall_map.
  eapply List.Forall_impl; [|exact H]. intros p. apply csv_field_ascii.
Qed.

Lemma concat_ascii (lines : list pystr) :
  Forall (fun l => is_ascii l = true) lines -> is_ascii (concat lines) = true.
Proof.
  induction 1 as [|l lines Hl H IH]; [easy|]. simpl. now rewrite is_ascii_app, Hl, IH.
Qed.

Section Published.
Context {F : Float64}.

Lemma to_csv_ascii (report : list (RawRow float)) (out : list (AggregatedRow float)) :
  (forall x, is_ascii (float_text x) = true) ->
  transform_report_data report = Ok out ->
  is_ascii (to_csv out) = true.
Proof.
  intros Hfloat Hout. unfold to_csv. apply concat_ascii.
  rewrite List.Forall_map. constructor.
  - apply csv_line_ascii. repeat constructor.
  - rewrite List.Forall_map. apply List.Forall_forall. intros o Ho.
    destruct (transform_rows report out o Hout Ho) as [Hdev [Hsec [Hsub _]]].
    apply csv_line_ascii. unfold cells.
    repeat constructor; auto using isoformat_ascii, str_of_Z_ascii, is_label_ascii.
    destruct Hdev as [-> | ->]; reflexivity.
Qed.

Lemma data_processing_ascii (report : list (RawRow float)) (date_ : Date)
    (gcs : gmap pystr (list byte)) (out : list (AggregatedRow float)) :
  (forall x, is_ascii (float_text x) = true) ->
  transform_report_data report = Ok out ->
  data_processing report date_ gcs
  = Ok (<[blob_name (name_file date_) := map octet (to_csv out)]> gcs).
Proof.
  intros Hfloat Hout. unfold data_processing, send_to_gs.
  set (name := blob_name (name_file date_)). clearbody name.
  rewrite Hout. unfold mbind, result_bind.
  now rewrite (encode_ascii _ (to_csv_ascii report out Hfloat Hout)).
Qed.

(** X10.  When the numbers are written in ASCII, publishing the table of
    the transformer cannot fail: [data_processing] returns when
    [transform_report_data] does, and the object of the date then holds one
    byte for each character of the CSV text. *)
Theorem X10_published_bytes (report : list (RawRow float)) (date_ : Date)
    (gcs : gmap pystr (list byte)) (out : list (AggregatedRow float)) :
  (forall x, is_ascii (float_text x) = true) ->
  transform_report_data report = Ok out ->
  data_processing report date_ gcs
  = Ok (<[blob_name (name_file date_) := map octet (to_csv out)]> gcs).
Proof. apply data_processing_ascii. Qed.

(** X11.  A run of [data_processing] that returns writes one object, that
    of its date: every other object of the bucket is as it was, and none
    is deleted. *)
Theorem X11_other_objects (report : list (RawRow float)) (date_ : Date)
    (gcs after : gmap pystr (list byte)) (name : pystr) :
  data_processing report date_ gcs = Ok after ->
  name <> blob_name (name_file date_) ->
  after !! name = gcs !! name.
Proof.
  unfold data_processing, send_to_gs.
  set (target := blob_name (name_file date_)). clearbody target.
  destruct (transform_report_data report) as [out|e];
    unfold mbind, result_bind; [|easy].
  destruct (encode (to_csv out)) as [f|e]; [|easy].
  intros [= <-] Hname. now apply lookup_insert_ne.
Qed.

End Published.

(** ** The names of the objects *)

Lemma unpy_py (s : string) : unpy (py s) = s.
Proof.
  unfold unpy, py. rewrite map_map.
  rewrite (map_ext _ (fun a => a)) by apply ascii_N_embedding.
  rewrite map_id. apply string_of_list_ascii_of_string.
Qed.

Lemma py_inj (s t : string) : py s = py t -> s = t.
Proof. intros H. now rewrite <- (unpy_py s), <- (unpy_py t), H. Qed.

Lemma int_of_str_zeros (k : nat) (s : pystr) :
  int_of_str (repeat 48 k ++ s) = int_of_str s.
Proof.
  induction k as [|k IH]; [easy|]. rewrite <- IH. unfold int_of_str.
  change (unpy (repeat 48 (S k) ++ s)) with (String "0" (unpy (repeat 48 k ++ s))).
  cbn [NilEmpty.uint_of_string].
  now destruct (NilEmpty.uint_of_string (unpy (repeat 48 k ++ s))).
Qed.

Lemma str_of_N (n : N) : str_of_Z (Z.of_N n) = py (NilEmpty.string_of_uint (N.to_uint n)).
Proof. now destruct n. Qed.

Lemma int_of_str_zfill (width : nat) (n : N) :
  int_of_str (zfill width (str_of_Z (Z.of_N n))) = Some n.
Proof.
  unfold zfill. rewrite int_of_str_zeros, str_of_N. unfold int_of_str.
  rewrite unpy_py, NilEmpty.usu. simpl. f_equal. apply DecimalN.Unsigned.of_to.
Qed.

Lemma digits_no_minus (width : nat) (n : N) :
  ~ In 45 (zfill width (str_of_Z (Z.of_N n))).
Proof.
  unfold zfill. rewrite str_of_N, in_app_iff. intros [H|H].
  - apply repeat_spec in H. discriminate.
  - revert H. generalize (N.to_uint n). intros d.
    induction d; simpl; intros H; try easy;
      destruct H as [H|H]; try discriminate; auto.
Qed.

Lemma isoformat_split (d : Date) :
  split [45] (isoformat d)
  = [zfill 4 (str_of_Z (Z.of_N (year d))); zfill 2 (str_of_Z (Z.of_N (month d)));
     zfill 2 (str_of_Z (Z.of_N (day d)))].
Proof.
  set (parts := [zfill 4 (str_of_Z (Z.of_N (year d)));
                 zfill 2 (str_of_Z (Z.of_N (month d)));
                 zfill 2 (str_of_Z (Z.of_N (day d)))]).
  transitivity (split [45] (join [45] parts)).
  - f_equal.
  - apply split_join; [easy|]. repeat constructor; apply digits_no_minus.
Qed.

Lemma isoformat_inj (d d' : Date) : isoformat d = isoformat d' -> d = d'.
Proof.
  intros H. apply (f_equal (split [45])) in H. rewrite !isoformat_split in H.
  injection H as Hy Hm Hd.
  apply (f_equal int_of_str) in Hy, Hm, Hd. rewrite !int_of_str_zfill in Hy, Hm, Hd.
  destruct d, d'. simpl in *. congruence.
Qed.

(** X12.  Two dates have the same object name only when they are the same
    date: [name_file] and the name of the object in the bucket determine
    the date. *)
Theorem X12_names_of_dates (d d' : Date) :
  (name_file d = name_file d' -> d = d')
  /\ (blob_name (name_file d) = blob_name (name_file d') -> d = d').
Proof.
  assert (name_file d = name_file d' -> d = d') as Hname.
  { unfold name_file. intros H. apply app_inv_head, app_inv_tail in H.
    now apply isoformat_inj. }
  split; [exact Hname|].
  unfold blob_name. intros H. apply app_inv_head in H. now apply Hname.
Qed.

Section Runs.
Context {F : Float64}.

(** X13.  A run for another date leaves the object of a date as it is:
    after a run for [d] and then a run for a different date [d'], the
    object of [d] still holds what the first run wrote. *)
Theorem X13_two_dates (report report' : list (RawRow float)) (d d' : Date)
    (gcs after after' : gmap pystr (list byte)) :
  d <> d' ->
  data_processing report d gcs = Ok after ->
  data_processing report' d' after = Ok after' ->
  after' !! blob_name (name_file d) = after !! blob_name (name_file d)
  /\ is_Some (after' !! blob_name (name_file d))
  /\ is_Some (after' !! blob_name (name_file d')).
Proof.
  intros Hd H H'.
  assert (blob_name (name_file d) <> blob_name (name_file d')) as Hne.
  { intros E. apply Hd. apply isoformat_inj.
    unfold blob_name, name_file in E.
    now apply app_inv_head, app_inv_head, app_inv_tail in E. }
  revert H H'. unfold data_processing, send_to_gs.
  set (target := blob_name (name_file d)) in *.
  set (target' := blob_name (name_file d')) in *. clearbody target target'.
  destruct (transform_report_data report) as [out|e];
    unfold mbind, result_bind; [|easy].
  destruct (encode (to_csv out)) as [f|e]; [|easy].
  intros [= <-].
  destruct (transform_report_data report') as [out'|e]; [|easy].
  destruct (encode (to_csv out')) as [f'|e]; [|easy].
  intros [= <-].
  rewrite lookup_insert_ne by congruence.
  rewrite !lookup_insert_eq. eauto.
Qed.

End Runs.

(** ** The properties on the sample reports *)

Lemma rstrip0_ascii (s : pystr) : is_ascii s = true -> is_ascii (rstrip0 s) = true.
Proof.
  induction s as [|c s IH]; [easy|]. intros H.
  change (is_ascii (c :: s)) with ((c <? 128) && is_ascii s) in H.
  apply andb_true_iff in H as [Hc Hs]. specialize (IH Hs). simpl.
  destruct (rstrip0 s) as [|d t].
  - destruct (c =? 48); [easy|].
    change ((c <? 128) && true = true). now rewrite Hc.
  - change ((c <? 128) && is_ascii (d :: t) = true). now rewrite Hc, IH.
Qed.

Lemma fraction_text_ascii (digits : pystr) :
  is_ascii digits = true -> is_ascii (fraction_text digits) = true.
Proof.
  intros H. apply rstrip0_ascii in H. unfold fraction_text.
  now destruct (rstrip0 digits).
Qed.

Lemma decimal_text_ascii (x : PrimFloat.float) : is_ascii (decimal_text x) = true.
Proof.
  unfold decimal_text. destruct (Prim2SF x) as [s|s| |s m e].
  - now destruct s.
  - now destruct s.
  - reflexivity.
  - rewrite is_ascii_app. apply andb_true_iff. split; [now destruct s|].
    destruct e as [|k|k].
    + rewrite is_ascii_app, str_of_Z_ascii. reflexivity.
    + rewrite is_ascii_app, str_of_Z_ascii. reflexivity.
    + rewrite !is_ascii_app, str_of_Z_ascii. simpl.
      apply fraction_text_ascii, zfill_ascii, str_of_Z_ascii.
Qed.

Lemma X1_search_finds_labels_witness : exists g, search (py " News (2) ") = Some g.
Proof.
  apply (proj2 (X1_search_finds_labels (py " News (2) "))
           [32] (py "News") 32 (py "2") [32]); reflexivity.
Defined.

Lemma X2_path_labels_witness :
  exists row,
    derive_columns (F := binary64) (report_row (path photos_units) 100 5.5 120) = Ok row
    /\ section row = Some (py "News") /\ sub_section row = Some (py "Photos_Diapo")
    /\ ad_unit_name row = Some (py "Photos_Diapo").
Proof.
  derive_row (report_row (path photos_units) 100 5.5 120) row Hr.
  exists row. split; [reflexivity|].
  destruct (@X2_path_labels binary64 photos_units
              (report_row (path photos_units) 100 5.5 120) row)
    as [_ [_ [Hs [Ht Hn]]]];
    [easy | repeat constructor | reflexivity | exact Hr |].
  split; [exact Hs | split; [exact Ht | exact Hn]].
Defined.

Lemma X3_transform_returns_witness :
  exists out,
    transform_report_data (F := binary64) [report_row photos_path_split 100 5.5 120]
    = Ok out.
Proof.
  apply (proj2 (proj1 (@X3_transform_returns binary64
                         [report_row photos_path_split 100 5.5 120]))).
  split.
  - right. exists (report_row photos_path_split 100 5.5 120).
    split; [left; reflexivity|]. apply Nat.leb_le. vm_compute. reflexivity.
  - constructor; [|constructor].
    split; [exists day_2024_01_01; reflexivity | exists 5.5%float; reflexivity].
Defined.

Lemma X4_output_keys_witness :
  exists r row,
    In r [report_row photos_path_split 100 5.5 120]
    /\ derive_columns (F := binary64) r = Ok row
    /\ section row = Some (py "News").
Proof.
  destruct (proj1 (@X4_output_keys binary64
                     [report_row photos_path_split 100 5.5 120]
                     [photos_row 100 5.5 120]
                     (agg_key (F := binary64) (photos_row 100 5.5 120))
                     ltac:(vm_compute; reflexivity)))
    as [r [row [Hr [Hd [_ [_ [_ [_ [Hs _]]]]]]]]]; [left; reflexivity|].
  exists r, row. split; [exact Hr | split; [exact Hd | exact Hs]].
Defined.

Lemma X5_output_sorted_witness :
  StronglySorted
    (fun a b => key_compare (agg_key (F := binary64) a) (agg_key b) = Lt)
    [photos_row 100 5.5 120; amp_other_row].
Proof.
  apply (@X5_output_sorted binary64
           [report_row amp_other_path 40 0.5 45;
            report_row photos_path_split 100 5.5 120]).
  vm_compute. reflexivity.
Defined.

Lemma X6_output_rows_witness :
  is_label (agg_section amp_other_row) = true
  /\ is_label (agg_sub_section amp_other_row) = true.
Proof.
  destruct (@X6_output_rows binary64 [report_row amp_other_path 40 0.5 45]
              [amp_other_row] amp_other_row) as [_ [Hs [Ht _]]];
    [vm_compute; reflexivity | left; reflexivity |].
  split; [exact Hs | exact Ht].
Defined.

Lemma X7_ad_requests_total_witness :
  sum_int (map agg_total_ad_requests [photos_row 100 5.5 120]) = 120%Z.
Proof.
  destruct (@X7_ad_requests_total binary64
              [report_row amp_path 40 0.5 45; report_row photos_path_split 100 5.5 120]
              [photos_row 100 5.5 120]) as [kept [Hkept Hsum]];
    [vm_compute; reflexivity | vm_compute; reflexivity |].
  evaluated Hkept. exact Hsum.
Defined.

Lemma X8_row_order_witness :
  exists out',
    transform_report_data (F := binary64)
      [report_row photos_path_split 100 5.5 120; report_row amp_other_path 40 0.5 45]
    = Ok out'
    /\ map agg_impressions out' = [100%Z; 40%Z].
Proof.
  destruct (@X8_row_order binary64
              [report_row amp_other_path 40 0.5 45;
               report_row photos_path_split 100 5.5 120]
              [report_row photos_path_split 100 5.5 120;
               report_row amp_other_path 40 0.5 45]
              [photos_row 100 5.5 120; amp_other_row])
    as [out' [Hout' [_ [Hi _]]]];
    [apply perm_swap | vm_compute; reflexivity |].
  exists out'. split; [exact Hout' | exact Hi].
Defined.

Lemma X9_displayed_columns_witness :
  transform_report_data (F := binary64) [report_row (path banner_units) 100 5.5 120]
  = Ok [photos_row 100 5.5 120].
Proof.
  pose (r := report_row (path photos_units) 100 5.5 120).
  pose (r' := report_row (path banner_units) 100 5.5 120).
  derive_row r row Hr. derive_row r' row' Hr'.
  refine (proj2 (proj2 (@X9_displayed_columns binary64 [] [] r r' row row'
                          [photos_row 100 5.5 120] Hr Hr' _ _ _ _ _ _ _ _)) _);
    [evaluated Hr; evaluated Hr'; reflexivity ..| |].
  - vm_compute. reflexivity.
  - apply Nat.leb_le. vm_compute. reflexivity.
Defined.

Lemma X10_published_bytes_witness :
  data_processing (F := binary64)
    [report_row photos_path_split 100 5.5 120] day_2024_01_01 ∅
  = Ok (<[blob_name (name_file day_2024_01_01)
          := map octet (to_csv (F := binary64) [photos_row 100 5.5 120])]> ∅).
Proof.
  apply (@X10_published_bytes binary64); [apply decimal_text_ascii|].
  vm_compute. reflexivity.
Defined.

Lemma X11_other_objects_witness :
  (<[blob_name (name_file day_2024_01_01)
     := map octet (to_csv (F := binary64) [photos_row 100 5.5 120])]>
     (∅ : gmap pystr (list byte))) !! py "README"
  = (∅ : gmap pystr (list byte)) !! py "README".
Proof.
  apply (@X11_other_objects binary64
           [report_row photos_path_split 100 5.5 120] day_2024_01_01).
  - apply (@data_processing_ascii binary64); [apply decimal_text_ascii|].
    vm_compute. reflexivity.
  - intros H. vm_compute in H. discriminate.
Defined.

Lemma X12_names_of_dates_witness : day_2024_01_02 = day_2024_01_02.
Proof.
  apply (proj1 (X12_names_of_dates day_2024_01_02 day_2024_01_02)). reflexivity.
Defined.

Lemma X13_two_dates_witness :
  is_Some
    ((<[blob_name (name_file day_2024_01_02)
        := map octet (to_csv (F := binary64) [amp_other_row])]>
        (<[blob_name (name_file day_2024_01_01)
           := map octet (to_csv (F := binary64) [photos_row 100 5.5 120])]>
           (∅ : gmap pystr (list byte))))
     !! blob_name (name_file day_2024_01_01)).
Proof.
  refine (proj1 (proj2 (@X13_two_dates binary64
                          [report_row photos_path_split 100 5.5 120]
                          [report_row amp_other_path 40 0.5 45]
                          day_2024_01_01 day_2024_01_02 ∅ _ _ _ _ _))).
  - discriminate.
  - apply (@data_processing_ascii binary64); [apply decimal_text_ascii|].
    vm_compute. reflexivity.
  - apply (@data_processing_ascii binary64); [apply decimal_text_ascii|].
    vm_compute. reflexivity.
Defined.

(** ** The calendar *)

Lemma all_below_spec (p : Z -> bool) (k : N) :
  all_below p k = true -> forall i, (0 <= i < Z.of_N k)%Z -> p i = true.
Proof.
  unfold all_below.
  set (step := fun st : Z * bool => ((fst st + 1)%Z, snd st && p (fst st))).
  assert (forall k, fst (N.iter k step (0%Z, true)) = Z.of_N k
                    /\ (snd (N.iter k step (0%Z, true)) = true ->
                        forall i, (0 <= i < Z.of_N k)%Z -> p i = true)) as H.
  { clear k. intros k. induction k as [|k [IH1 IH2]] using N.peano_ind.
    - split; [reflexivity|]. intros _ i Hi. lia.
    - rewrite N.iter_succ. unfold step at 1 3. simpl. rewrite IH1. split; [lia|].
      intros H i Hi. apply andb_true_iff in H as [Hs Hp].
      destruct (Z.eq_dec i (Z.of_N k)) as [->|Hne]; [exact Hp|].
      apply IH2; [exact Hs | lia]. }
  apply H.
Qed.

Lemma year_checked (n100 n4 n1 : Z) :
  (0 <= n100 < 4)%Z -> (0 <= n4 < 25)%Z -> (0 <= n1 < 4)%Z ->
  year_check n100 n4 n1 = true.
Proof.
  intros H100 H4 H1.
  assert (all_below (fun a => all_below (fun b => all_below (year_check a b) 4) 25) 4
          = true) as H by (vm_compute; reflexivity).
  apply (all_below_spec _ _ (all_below_spec _ _ (all_below_spec _ _ H n100 H100) n4 H4)).
  exact H1.
Qed.

Lemma day_checked (leapyear : bool) (n : Z) :
  (0 <= n < 365)%Z -> day_check leapyear n = true.
Proof.
  intros Hn.
  assert (all_below (day_check true) 365 = true) as Ht by (vm_compute; reflexivity).
  assert (all_below (day_check false) 365 = true) as Hf by (vm_compute; reflexivity).
  destruct leapyear; [exact (all_below_spec _ _ Ht n Hn) | exact (all_below_spec _ _ Hf n Hn)].
Qed.

Lemma year_end_checked (n100 n4 : Z) :
  (0 <= n100 < 4)%Z -> (0 <= n4 < 24)%Z -> year_end_check n100 n4 = true.
Proof.
  intros H100 H4.
  assert (all_below (fun a => all_below (year_end_check a) 24) 4 = true) as H
    by (vm_compute; reflexivity).
  exact (all_below_spec _ _ (all_below_spec _ _ H n100 H100) n4 H4).
Qed.

(** Within the first cycle of 400 years. *)
Lemma ord2ymd_first_cycle (r : Z) :
  (0 <= r < DI400Y)%Z ->
  let '(y, m, d) := ord2ymd (r + 1) in
  ymd2ord y m d = (r + 1)%Z /\ (1 <= y)%Z /\ (1 <= m <= 12)%Z /\ (1 <= d <= 31)%Z.
Proof.
  intros Hr. unfold ord2ymd.
  replace (r + 1 - 1)%Z with r by lia.
  rewrite (Z.div_small r DI400Y Hr), (Z.mod_small r DI400Y Hr).
  cbv zeta.
  pose proof (Z.div_mod r DI100Y ltac:(discriminate)) as E100.
  pose proof (Z.mod_pos_bound r DI100Y ltac:(reflexivity)) as B100.
  pose proof (Z.div_mod (r mod DI100Y) DI4Y ltac:(discriminate)) as E4.
  pose proof (Z.mod_pos_bound (r mod DI100Y) DI4Y ltac:(reflexivity)) as B4.
  pose proof (Z.div_mod (r mod DI100Y mod DI4Y) 365 ltac:(discriminate)) as E1.
  pose proof (Z.mod_pos_bound (r mod DI100Y mod DI4Y) 365 ltac:(reflexivity)) as B1.
  set (n100 := (r / DI100Y)%Z) in *.
  set (r2 := (r mod DI100Y)%Z) in *.
  set (n4 := (r2 / DI4Y)%Z) in *.
  set (r3 := (r2 mod DI4Y)%Z) in *.
  set (n1 := (r3 / 365)%Z) in *.
  set (n := (r3 mod 365)%Z) in *.
  clearbody n100 r2 n4 r3 n1 n.
  unfold DI400Y, DI100Y, DI4Y in *.
  replace (0 * 400 + 1 + (n100 * 100 + n4 * 4 + n1))%Z
    with (1 + (n100 * 100 + n4 * 4 + n1))%Z by lia.
  destruct (Z.eqb_spec n1 4) as [H1|H1]; [|destruct (Z.eqb_spec n100 4) as [H100|H100]];
    cbn [orb].
  - assert (0 <= n100 < 4)%Z as B by lia.
    assert (0 <= n4 < 24)%Z as B' by lia.
    pose proof (year_end_checked n100 n4 B B') as Hc.
    unfold year_end_check in Hc. apply Z.eqb_eq in Hc.
    replace (1 + (n100 * 100 + n4 * 4 + n1) - 1)%Z with (n100 * 100 + n4 * 4 + 4)%Z by lia.
    rewrite Hc. lia.
  - assert (n4 = 0 /\ n1 = 0 /\ r = 146096)%Z as [-> [-> ->]] by lia. subst n100.
    vm_compute. repeat split; discriminate.
  - assert (0 <= n100 < 4)%Z as B by lia.
    assert (0 <= n4 < 25)%Z as B' by lia.
    assert (0 <= n1 < 4)%Z as B'' by lia.
    pose proof (year_checked n100 n4 n1 B B' B'') as Hy.
    unfold year_check in Hy. cbv zeta in Hy.
    apply andb_true_iff in Hy as [Hdby Hleap].
    apply Z.eqb_eq in Hdby. apply eqb_prop in Hleap.
    pose proof (day_checked ((n1 =? 3) && (negb (n4 =? 24) || (n100 =? 3)))%Z n B1) as Hd.
    unfold day_check in Hd. cbv zeta in Hd.
    match type of Hd with
    | context [if (n <? ?p)%Z then _ else _] => destruct (n <? p)%Z
    end;
      rewrite !andb_true_iff, !Z.leb_le, Z.eqb_eq in Hd;
      unfold ymd2ord, days_before_month; rewrite Hleap, Hdby; lia.
Qed.

Lemma ord2ymd_cycle (n : Z) :
  ord2ymd n
  = let '(y, m, d) := ord2ymd ((n - 1) mod DI400Y + 1) in
    ((y + 400 * ((n - 1) / DI400Y))%Z, m, d).
Proof.
  unfold ord2ymd.
  set (q := ((n - 1) / DI400Y)%Z). set (r := ((n - 1) mod DI400Y)%Z).
  assert (0 <= r < DI400Y)%Z as Hr by (apply Z.mod_pos_bound; reflexivity).
  replace (r + 1 - 1)%Z with r by lia.
  rewrite (Z.div_small r DI400Y Hr), (Z.mod_small r DI400Y Hr).
  cbv zeta.
  destruct ((r mod DI100Y mod DI4Y / 365 =? 4) || (r / DI100Y =? 4))%Z.
  - f_equal. f_equal. lia.
  - match goal with |- context [(?a <? ?b)%Z] => destruct (a <? b)%Z end;
      (f_equal; f_equal; lia).
Qed.

Lemma is_leap_shift (y q : Z) : is_leap (y + 400 * q) = is_leap y.
Proof.
  unfold is_leap.
  replace (y + 400 * q)%Z with (y + (100 * q) * 4)%Z at 1 by lia.
  replace (y + 400 * q)%Z with (y + (4 * q) * 100)%Z at 1 by lia.
  replace (y + 400 * q)%Z with (y + q * 400)%Z by lia.
  now rewrite !Z.mod_add.
Qed.

Lemma ymd2ord_shift (y m d q : Z) :
  ymd2ord (y + 400 * q) m d = (ymd2ord y m d + DI400Y * q)%Z.
Proof.
  unfold ymd2ord, days_before_month, days_before_year. rewrite is_leap_shift. cbv zeta.
  replace ((y + 400 * q - 1) / 4)%Z with ((y - 1) / 4 + 100 * q)%Z
    by (replace (y + 400 * q - 1)%Z with (y - 1 + (100 * q) * 4)%Z by lia;
        now rewrite Z.div_add).
  replace ((y + 400 * q - 1) / 100)%Z with ((y - 1) / 100 + 4 * q)%Z
    by (replace (y + 400 * q - 1)%Z with (y - 1 + (4 * q) * 100)%Z by lia;
        now rewrite Z.div_add).
  replace ((y + 400 * q - 1) / 400)%Z with ((y - 1) / 400 + q)%Z
    by (replace (y + 400 * q - 1)%Z with (y - 1 + q * 400)%Z by lia;
        now rewrite Z.div_add).
  unfold DI400Y. lia.
Qed.

(** [ord2ymd] gives the day that has the ordinal. *)
Lemma ord2ymd_inverse (n : Z) :
  (1 <= n)%Z ->
  let '(y, m, d) := ord2ymd n in
  ymd2ord y m d = n /\ (1 <= y)%Z /\ (1 <= m <= 12)%Z /\ (1 <= d <= 31)%Z.
Proof.
  intros Hn. rewrite ord2ymd_cycle.
  set (q := ((n - 1) / DI400Y)%Z). set (r := ((n - 1) mod DI400Y)%Z).
  assert (0 <= r < DI400Y)%Z as Hr by (apply Z.mod_pos_bound; reflexivity).
  assert (0 <= q)%Z as Hq by (apply Z.div_pos; [lia | reflexivity]).
  assert (n = DI400Y * q + r + 1)%Z as Hnqr.
  { pose proof (Z.div_mod (n - 1) DI400Y ltac:(discriminate)). unfold q, r. lia. }
  pose proof (ord2ymd_first_cycle r Hr) as Hc.
  destruct (ord2ymd (r + 1)) as [[y m] d].
  rewrite ymd2ord_shift. lia.
Qed.

Lemma toordinal_fromordinal (n : Z) : (1 <= n)%Z -> toordinal (fromordinal n) = n.
Proof.
  intros Hn. pose proof (ord2ymd_inverse n Hn) as H.
  unfold toordinal, fromordinal. destruct (ord2ymd n) as [[y m] d]. simpl.
  rewrite !Z2N.id by lia. apply H.
Qed.

Lemma fromordinal_inj (a b : Z) :
  (1 <= a)%Z -> (1 <= b)%Z -> fromordinal a = fromordinal b -> a = b.
Proof.
  intros Ha Hb H. now rewrite <- (toordinal_fromordinal a), <- (toordinal_fromordinal b), H.
Qed.

(** ** The program, run by run *)

Lemma In_range (n i : Z) : In i (Pipeline.range n) <-> (0 <= i < n)%Z.
Proof.
  unfold Pipeline.range. rewrite in_map_iff. split.
  - intros [k [<- Hk]]. apply in_seq in Hk. lia.
  - intros Hi. exists (Z.to_nat i). split; [lia|]. apply in_seq. lia.
Qed.

Lemma NoDup_map_inj {A B : Type} (f : A -> B) (l : list A) :
  (forall a b, In a l -> In b l -> f a = f b -> a = b) ->
  List.NoDup l -> List.NoDup (map f l).
Proof.
  intros Hf Hl. induction Hl as [|a l Ha Hl IH]; simpl; constructor.
  - intros H. apply in_map_iff in H as [b [Hb Hin]]. apply Ha.
    rewrite (Hf a b); [easy | now left | now right | easy].
  - apply IH. intros x y Hx Hy. apply Hf; now right.
Qed.

Lemma NoDup_range (n : Z) : List.NoDup (Pipeline.range n).
Proof.
  unfold Pipeline.range. apply NoDup_map_inj; [|apply seq_NoDup].
  intros a b _ _. apply Nat2Z.inj.
Qed.

Lemma toordinal_from_date : toordinal Pipeline.from_date = 737991%Z.
Proof. reflexivity. Qed.

Lemma date_add_Some (d : Date) (days : Z) :
  (0 < toordinal d + days <= MAXORDINAL)%Z ->
  date_add d days = Some (fromordinal (toordinal d + days))
  /\ toordinal (fromordinal (toordinal d + days)) = (toordinal d + days)%Z.
Proof.
  intros H. unfold date_add.
  destruct (Z.ltb_spec 0 (toordinal d + days)); [|lia].
  destruct (Z.leb_spec (toordinal d + days) MAXORDINAL); [|lia].
  split; [reflexivity|]. apply toordinal_fromordinal. lia.
Qed.

Section ProgramFacts.
Context {F : Float64}.

Lemma for_in_map {A B : Type} (f : A -> B) (items : list A)
    (body : B -> Pipeline.World float -> Pipeline.World float * Pipeline.outcome unit)
    (w : Pipeline.World float) :
  Pipeline.for_in (map f items) body w = Pipeline.for_in items (fun a => body (f a)) w.
Proof.
  revert w. induction items as [|a items IH]; intros w; simpl; [easy|].
  destruct (body (f a) w) as [w' [[]|e]]; [apply IH | easy].
Qed.

Lemma for_in_ext {A : Type} (items : list A)
    (body body' : A -> Pipeline.World float -> Pipeline.World float * Pipeline.outcome unit)
    (w : Pipeline.World float) :
  (forall a w, In a items -> body a w = body' a w) ->
  Pipeline.for_in items body w = Pipeline.for_in items body' w.
Proof.
  revert w. induction items as [|a items IH]; intros w H; simpl; [easy|].
  rewrite (H a w) by now left.
  destruct (body' a w) as [w' [[]|e]]; [|easy].
  apply IH. intros b w0 Hb. apply H. now right.
Qed.

Lemma data_processing_failed (client : Pipeline.AdManagerClient float) (date_ : Date)
    (w : Pipeline.World float) (message : pystr) :
  Pipeline.WaitForReport client (Pipeline.report_job date_) = inl message ->
  Pipeline.data_processing client date_ w
  = ({| Pipeline.stdout :=
          Pipeline.stdout w ++ [py "Failed to generate report. Error was: " ++ message];
        Pipeline.temporary_files := Pipeline.temporary_files w ++ [None];
        Pipeline.downloads := Pipeline.downloads w;
        Pipeline.gcs := Pipeline.gcs w |},
     Pipeline.Failed (Pipeline.UnboundLocalError (py "report_job_id"))).
Proof.
  intros H. unfold Pipeline.data_processing, Pipeline.get_report_data. rewrite H.
  reflexivity.
Qed.

Lemma data_processing_completed (client : Pipeline.AdManagerClient float) (date_ : Date)
    (w : Pipeline.World float) (id : N) :
  Pipeline.WaitForReport client (Pipeline.report_job date_) = inr id ->
  Pipeline.data_processing client date_ w
  = let report := Pipeline.DownloadReportToFile client id in
    let fetched :=
      {| Pipeline.stdout := Pipeline.stdout w;
         Pipeline.temporary_files := Pipeline.temporary_files w ++ [Some report];
         Pipeline.downloads := Pipeline.downloads w ++ [id];
         Pipeline.gcs := Pipeline.gcs w |} in
    match data_processing report date_ (Pipeline.gcs w) with
    | Ok bucket => (Pipeline.uploaded bucket fetched, Pipeline.Returned tt)
    | Raise e => (fetched, Pipeline.Failed (Pipeline.Raised e))
    end.
Proof.
  intros H. unfold Pipeline.data_processing, Pipeline.get_report_data. rewrite H.
  cbv zeta. unfold data_processing.
  destruct (transform_report_data (Pipeline.DownloadReportToFile client id)) as [out|e];
    unfold mbind, result_bind; [|reflexivity].
  cbn [Pipeline.gcs Pipeline.NamedTemporaryFile Pipeline.downloaded].
  destruct (send_to_gs out (name_file date_) (Pipeline.gcs w)); reflexivity.
Qed.

(** X14.  When the report of the date fails to generate
    ([AdManagerReportError]), [get_report_data] prints the message and goes
    on to raise [UnboundLocalError] for [report_job_id]: [data_processing]
    fails with it, downloads nothing, uploads nothing, and leaves an empty
    temporary file behind. *)
Theorem X14_failed_report (client : Pipeline.AdManagerClient float) (date_ : Date)
    (w : Pipeline.World float) (message : pystr) :
  Pipeline.WaitForReport client (Pipeline.report_job date_) = inl message ->
  Pipeline.data_processing client date_ w
  = ({| Pipeline.stdout :=
          Pipeline.stdout w ++ [py "Failed to generate report. Error was: " ++ message];
        Pipeline.temporary_files := Pipeline.temporary_files w ++ [None];
        Pipeline.downloads := Pipeline.downloads w;
        Pipeline.gcs := Pipeline.gcs w |},
     Pipeline.Failed (Pipeline.UnboundLocalError (py "report_job_id"))).
Proof. apply data_processing_failed. Qed.

(** X15.  When the report of the date is generated, [data_processing]
    downloads it once into a new temporary file, which it leaves there,
    prints nothing, and then does what the transformer and the publisher
    do with the downloaded table: the bucket becomes the one they give, or
    stays as it is when they raise, and the run raises the same
    exception. *)
Theorem X15_completed_report (client : Pipeline.AdManagerClient float) (date_ : Date)
    (w : Pipeline.World float) (id : N) :
  Pipeline.WaitForReport client (Pipeline.report_job date_) = inr id ->
  Pipeline.data_processing client date_ w
  = let report := Pipeline.DownloadReportToFile client id in
    let fetched :=
      {| Pipeline.stdout := Pipeline.stdout w;
         Pipeline.temporary_files := Pipeline.temporary_files w ++ [Some report];
         Pipeline.downloads := Pipeline.downloads w ++ [id];
         Pipeline.gcs := Pipeline.gcs w |} in
    match data_processing report date_ (Pipeline.gcs w) with
    | Ok bucket => (Pipeline.uploaded bucket fetched, Pipeline.Returned tt)
    | Raise e => (fetched, Pipeline.Failed (Pipeline.Raised e))
    end.
Proof. apply data_processing_completed. Qed.

End ProgramFacts.

Lemma blob_name_inj (d d' : Date) :
  blob_name (name_file d) = blob_name (name_file d') -> d = d'.
Proof.
  unfold blob_name, name_file. intros E.
  apply app_inv_head, app_inv_head, app_inv_tail in E. now apply isoformat_inj.
Qed.

Section Extractions.
Context {F : Float64}.

Lemma process_and_print_returns (client : Pipeline.AdManagerClient float) (date_ : Date)
    (w : Pipeline.World float) (f : list byte) :
  Pipeline.expected_object client date_ = Some f ->
  exists id,
    Pipeline.WaitForReport client (Pipeline.report_job date_) = inr id
    /\ Pipeline.process_and_print client date_ w
       = ({| Pipeline.stdout := Pipeline.stdout w ++ [isoformat date_];
             Pipeline.temporary_files :=
               Pipeline.temporary_files w
               ++ [Some (Pipeline.DownloadReportToFile client id)];
             Pipeline.downloads := Pipeline.downloads w ++ [id];
             Pipeline.gcs := <[blob_name (name_file date_) := f]> (Pipeline.gcs w) |},
          Pipeline.Returned tt).
Proof.
  unfold Pipeline.expected_object, Pipeline.process_and_print. intros H.
  destruct (Pipeline.WaitForReport client (Pipeline.report_job date_)) as [e|id] eqn:Hw;
    [discriminate|].
  exists id. split; [reflexivity|].
  rewrite (data_processing_completed client date_ w id Hw). cbv zeta.
  unfold data_processing, send_to_gs.
  destruct (transform_report_data (Pipeline.DownloadReportToFile client id)) as [out|e];
    unfold mbind, result_bind; [|discriminate].
  destruct (encode (to_csv out)) as [f'|e]; [|discriminate].
  injection H as ->. reflexivity.
Qed.

Lemma process_and_print_fails (client : Pipeline.AdManagerClient float) (date_ : Date)
    (w : Pipeline.World float) :
  Pipeline.expected_object client date_ = None ->
  exists e w',
    Pipeline.process_and_print client date_ w = (w', Pipeline.Failed e)
    /\ Pipeline.gcs w' = Pipeline.gcs w
    /\ e <> Pipeline.OverflowError
    /\ (forall message,
          Pipeline.WaitForReport client (Pipeline.report_job date_) = inl message ->
          e = Pipeline.UnboundLocalError (py "report_job_id"))
    /\ length (Pipeline.temporary_files w') = S (length (Pipeline.temporary_files w))
    /\ match e with
       | Pipeline.UnboundLocalError _ =>
           exists message,
             Pipeline.WaitForReport client (Pipeline.report_job date_) = inl message
             /\ Pipeline.stdout w'
                = Pipeline.stdout w
                  ++ [py "Failed to generate report. Error was: " ++ message]
       | _ => Pipeline.stdout w' = Pipeline.stdout w
       end.
Proof.
  unfold Pipeline.expected_object, Pipeline.process_and_print. intros H.
  destruct (Pipeline.WaitForReport client (Pipeline.report_job date_)) as [m|id] eqn:Hw.
  - rewrite (data_processing_failed client date_ w m Hw).
    eexists _, _. split; [reflexivity|]. cbn.
    rewrite length_app. simpl. repeat split; [easy|lia|]. now exists m.
  - rewrite (data_processing_completed client date_ w id Hw). cbv zeta.
    unfold data_processing, send_to_gs.
    destruct (transform_report_data (Pipeline.DownloadReportToFile client id)) as [out|e];
      unfold mbind, result_bind.
    + destruct (encode (to_csv out)) as [f'|e]; [discriminate|].
      eexists _, _. split; [reflexivity|]. cbn.
      rewrite length_app. simpl. repeat split; [easy|discriminate|lia].
    + eexists _, _. split; [reflexivity|]. cbn.
      rewrite length_app. simpl. repeat split; [easy|discriminate|lia].
Qed.

(** The loop over days that all give an object. *)
Lemma for_in_returns (client : Pipeline.AdManagerClient float) (days : list Date)
    (w : Pipeline.World float) :
  (forall d, In d days -> is_Some (Pipeline.expected_object client d)) ->
  exists w',
    Pipeline.for_in days (Pipeline.process_and_print client) w = (w', Pipeline.Returned tt)
    /\ Pipeline.stdout w' = Pipeline.stdout w ++ map isoformat days
    /\ length (Pipeline.temporary_files w')
       = (length (Pipeline.temporary_files w) + length days)%nat
    /\ (forall name, (forall d, In d days -> name <> blob_name (name_file d)) ->
                     Pipeline.gcs w' !! name = Pipeline.gcs w !! name)
    /\ (forall d, In d days ->
                  Pipeline.gcs w' !! blob_name (name_file d)
                  = Pipeline.expected_object client d).
Proof.
  revert w. induction days as [|d days IH]; intros w Hall.
  - exists w. simpl. rewrite app_nil_r. repeat split; [lia|easy].
  - destruct (Hall d (or_introl eq_refl)) as [f Hf].
    destruct (process_and_print_returns client d w f Hf) as [id [_ Hrun]].
    cbn [Pipeline.for_in]. rewrite Hrun.
    destruct (IH {| Pipeline.stdout := Pipeline.stdout w ++ [isoformat d];
                    Pipeline.temporary_files :=
                      Pipeline.temporary_files w
                      ++ [Some (Pipeline.DownloadReportToFile client id)];
                    Pipeline.downloads := Pipeline.downloads w ++ [id];
                    Pipeline.gcs := <[blob_name (name_file d) := f]> (Pipeline.gcs w) |})
      as [w' [Hloop [Hout [Htmp [Hframe Hobj]]]]].
    { intros d' Hd'. apply Hall. now right. }
    cbn [Pipeline.stdout Pipeline.temporary_files Pipeline.gcs] in Hout, Htmp, Hframe.
    exists w'. split; [exact Hloop|]. split; [|split; [|split]].
    + rewrite Hout, <- app_assoc. reflexivity.
    + rewrite Htmp, length_app. simpl. lia.
    + intros name Hname. rewrite Hframe by (intros d' Hd'; apply Hname; now right).
      apply lookup_insert_ne. intros E. now apply (Hname d (or_introl eq_refl)).
    + intros d' [<-|Hd']; [|now apply Hobj].
      destruct (in_dec Date_eq_dec d days) as [Hin|Hout'].
      * now apply Hobj.
      * rewrite Hframe.
        -- rewrite Hf. apply lookup_insert_eq.
        -- intros d' Hd' E. apply blob_name_inj in E. congruence.
Qed.

Lemma date_sub_yesterday (today : Date) :
  (1 < toordinal today <= MAXORDINAL)%Z ->
  date_sub today 1 = Some (fromordinal (toordinal today - 1))
  /\ toordinal (fromordinal (toordinal today - 1)) = (toordinal today - 1)%Z.
Proof.
  intros H. unfold date_sub.
  replace (toordinal today - 1)%Z with (toordinal today + - (1))%Z by lia.
  apply date_add_Some. unfold MAXORDINAL in *. lia.
Qed.

(** X16.  The program, as it is configured ([historical] is [False]), makes
    one run, for the day before today: it prints "Authentification : Done"
    and "Extraction", leaves one more temporary file, and touches no
    object of the bucket but that of this day.  When the run returns, the
    date is printed last and the object of the day is there; when it
    fails, the bucket is as before and the date is not printed. *)
Theorem X16_daily_run (LoadFromStorage : pystr -> Pipeline.AdManagerClient float)
    (today : Date) (w : Pipeline.World float) :
  (1 < toordinal today <= MAXORDINAL)%Z ->
  exists date_ w' r,
    Pipeline.main LoadFromStorage today w = (w', r)
    /\ toordinal date_ = (toordinal today - 1)%Z
    /\ length (Pipeline.temporary_files w') = S (length (Pipeline.temporary_files w))
    /\ (forall name, name <> blob_name (name_file date_) ->
                     Pipeline.gcs w' !! name = Pipeline.gcs w !! name)
    /\ match r with
       | Pipeline.Returned _ =>
           Pipeline.stdout w'
           = Pipeline.stdout w
             ++ [py "Authentification : Done"; py "Extraction"; isoformat date_]
           /\ Pipeline.gcs w' !! blob_name (name_file date_)
              = Pipeline.expected_object (LoadFromStorage Pipeline.path_yaml) date_
           /\ is_Some (Pipeline.gcs w' !! blob_name (name_file date_))
       | Pipeline.Failed (Pipeline.UnboundLocalError _) =>
           Pipeline.gcs w' = Pipeline.gcs w
           /\ exists message,
                Pipeline.stdout w'
                = Pipeline.stdout w
                  ++ [py "Authentification : Done"; py "Extraction";
                      py "Failed to generate report. Error was: " ++ message]
       | Pipeline.Failed (Pipeline.Raised _) =>
           Pipeline.gcs w' = Pipeline.gcs w
           /\ Pipeline.stdout w'
              = Pipeline.stdout w ++ [py "Authentification : Done"; py "Extraction"]
       | Pipeline.Failed Pipeline.OverflowError => False
       end.
Proof.
  intros Htoday. destruct (date_sub_yesterday today Htoday) as [Hsub Hord].
  set (date_ := fromordinal (toordinal today - 1)) in *.
  exists date_.
  unfold Pipeline.main, Pipeline.historical, Pipeline.authentificate_ad_manager.
  cbn [negb]. unfold Pipeline.daily_extraction. rewrite Hsub. cbv zeta.
  set (client := LoadFromStorage Pipeline.path_yaml).
  set (w1 := Pipeline.print (py "Extraction")
               (Pipeline.print (py "Authentification : Done") w)).
  assert (Pipeline.stdout w1
          = Pipeline.stdout w ++ [py "Authentification : Done"; py "Extraction"]) as Hout1.
  { unfold w1, Pipeline.print. cbn [Pipeline.stdout]. now rewrite <- app_assoc. }
  assert (Pipeline.gcs w1 = Pipeline.gcs w) as Hgcs1 by reflexivity.
  assert (Pipeline.temporary_files w1 = Pipeline.temporary_files w) as Htmp1 by reflexivity.
  clearbody w1.
  destruct (Pipeline.expected_object client date_) as [f|] eqn:Hf.
  - destruct (process_and_print_returns client date_ w1 f Hf) as [id [_ Hrun]].
    rewrite Hrun. eexists _, _. split; [reflexivity|].
    cbn [Pipeline.stdout Pipeline.temporary_files Pipeline.gcs].
    split; [exact Hord|]. split; [|split; [|split; [|split]]].
    + rewrite length_app, Htmp1. simpl. lia.
    + intros name Hname. rewrite Hgcs1. now apply lookup_insert_ne.
    + rewrite Hout1, <- app_assoc. reflexivity.
    + apply lookup_insert_eq.
    + rewrite lookup_insert_eq. eauto.
  - destruct (process_and_print_fails client date_ w1 Hf)
      as [e [w' [Hrun [Hgcs [Hne [_ [Htmp Hout]]]]]]].
    rewrite Hrun. exists w', (Pipeline.Failed e). split; [reflexivity|].
    split; [exact Hord|]. split; [congruence|]. split; [intros; congruence|].
    destruct e as [name| |e]; [| easy |].
    + split; [congruence|]. destruct Hout as [message [_ Hout]]. exists message.
      rewrite Hout, Hout1, <- app_assoc. reflexivity.
    + split; congruence.
Qed.

Lemma historical_extraction_loop (client : Pipeline.AdManagerClient float) (today : Date)
    (w : Pipeline.World float) :
  (1 < toordinal today <= MAXORDINAL)%Z ->
  Pipeline.historical_extraction client today w
  = Pipeline.for_in
      (Pipeline.days_from Pipeline.from_date (toordinal today - toordinal Pipeline.from_date))
      (Pipeline.process_and_print client) (Pipeline.print (py "Extraction") w).
Proof.
  intros Htoday. destruct (date_sub_yesterday today Htoday) as [Hsub Hord].
  unfold Pipeline.historical_extraction. rewrite Hsub. cbv zeta.
  unfold days_between. rewrite Hord.
  replace (toordinal today - 1 - toordinal Pipeline.from_date + 1)%Z
    with (toordinal today - toordinal Pipeline.from_date)%Z by lia.
  unfold Pipeline.days_from. rewrite for_in_map. apply for_in_ext.
  intros i w0 Hi. apply In_range in Hi.
  destruct (date_add_Some Pipeline.from_date i) as [-> _]; [|reflexivity].
  rewrite toordinal_from_date in *. unfold MAXORDINAL in *. lia.
Qed.

(** X17.  The historical extraction makes its runs for the days from
    2021-07-20 to the day before today, in order, one run a day, each date
    printed after its run, and an exception ends it; no date of the loop
    is beyond the calendar, and the [i]-th day is [i] days after
    2021-07-20.  When today is 2021-07-20 or before, it prints
    "Extraction" and makes no run. *)
Theorem X17_historical_days (client : Pipeline.AdManagerClient float) (today : Date)
    (w : Pipeline.World float) :
  (1 < toordinal today <= MAXORDINAL)%Z ->
  let count := (toordinal today - toordinal Pipeline.from_date)%Z in
  Pipeline.historical_extraction client today w
  = Pipeline.for_in (Pipeline.days_from Pipeline.from_date count)
      (Pipeline.process_and_print client) (Pipeline.print (py "Extraction") w)
  /\ length (Pipeline.days_from Pipeline.from_date count) = Z.to_nat count
  /\ (forall i, (0 <= i < count)%Z ->
        nth_error (Pipeline.days_from Pipeline.from_date count) (Z.to_nat i)
        = Some (fromordinal (toordinal Pipeline.from_date + i))
        /\ toordinal (fromordinal (toordinal Pipeline.from_date + i))
           = (toordinal Pipeline.from_date + i)%Z)
  /\ ((count <= 0)%Z ->
      Pipeline.historical_extraction client today w
      = (Pipeline.print (py "Extraction") w, Pipeline.Returned tt)).
Proof.
  intros Htoday count.
  pose proof (historical_extraction_loop client today w Htoday) as Hloop.
  fold count in Hloop.
  split; [exact Hloop|]. split; [|split].
  - unfold Pipeline.days_from, Pipeline.range. now rewrite !length_map, length_seq.
  - intros i Hi. split.
    + unfold Pipeline.days_from, Pipeline.range. rewrite !nth_error_map.
      rewrite nth_error_seq.
      destruct (Nat.ltb_spec (Z.to_nat i) (Z.to_nat count)); [|lia].
      simpl. now rewrite Z2Nat.id by lia.
    + apply toordinal_fromordinal. rewrite toordinal_from_date. lia.
  - intros Hc. rewrite Hloop. unfold Pipeline.days_from, Pipeline.range.
    replace (Z.to_nat count) with 0%nat by lia. reflexivity.
Qed.

(** X18.  When every day from 2021-07-20 to the day before today gives an
    object (its report is generated, transformed and encoded), the
    historical extraction returns, having printed "Extraction" and then
    the dates in order, left one temporary file a day, put in the bucket
    the object of each of these days, and touched no other object. *)
Theorem X18_historical_complete (client : Pipeline.AdManagerClient float) (today : Date)
    (w : Pipeline.World float) :
  (1 < toordinal today <= MAXORDINAL)%Z ->
  let days :=
    Pipeline.days_from Pipeline.from_date (toordinal today - toordinal Pipeline.from_date) in
  (forall d, In d days -> is_Some (Pipeline.expected_object client d)) ->
  exists w',
    Pipeline.historical_extraction client today w = (w', Pipeline.Returned tt)
    /\ Pipeline.stdout w' = Pipeline.stdout w ++ py "Extraction" :: map isoformat days
    /\ length (Pipeline.temporary_files w')
       = (length (Pipeline.temporary_files w) + length days)%nat
    /\ (forall d, In d days ->
          Pipeline.gcs w' !! blob_name (name_file d) = Pipeline.expected_object client d)
    /\ (forall name, (forall d, In d days -> name <> blob_name (name_file d)) ->
          Pipeline.gcs w' !! name = Pipeline.gcs w !! name).
Proof.
  intros Htoday days Hall.
  rewrite (historical_extraction_loop client today w Htoday). fold days.
  destruct (for_in_returns client days (Pipeline.print (py "Extraction") w) Hall)
    as [w' [Hloop [Hout [Htmp [Hframe Hobj]]]]].
  exists w'. split; [exact Hloop|].
  cbn [Pipeline.print Pipeline.stdout Pipeline.temporary_files Pipeline.gcs] in Hout, Htmp, Hframe.
  split; [|split; [exact Htmp | split; [exact Hobj | exact Hframe]]].
  rewrite Hout, <- app_assoc. reflexivity.
Qed.

End Extractions.

Section Stops.
Context {F : Float64}.

Lemma for_in_app {A : Type} (a b : list A)
    (body : A -> Pipeline.World float -> Pipeline.World float * Pipeline.outcome unit)
    (w : Pipeline.World float) :
  Pipeline.for_in (a ++ b) body w
  = match Pipeline.for_in a body w with
    | (w', Pipeline.Returned _) => Pipeline.for_in b body w'
    | (w', Pipeline.Failed e) => (w', Pipeline.Failed e)
    end.
Proof.
  revert w. induction a as [|x a IH]; intros w; simpl; [easy|].
  destruct (body x w) as [w' [[]|e]]; [apply IH | easy].
Qed.

(** X19.  The historical extraction ends at the first day that gives no
    object: it raises there, with [UnboundLocalError] when the report of
    that day failed to generate, after printing the message; the days
    before it have their objects and their dates printed, and no later day
    is run: no other object of the bucket is touched, and there is one
    temporary file for each day before and one for the day of the
    failure. *)
Theorem X19_historical_stops (client : Pipeline.AdManagerClient float) (today : Date)
    (w : Pipeline.World float) (before after : list Date) (d : Date) :
  (1 < toordinal today <= MAXORDINAL)%Z ->
  Pipeline.days_from Pipeline.from_date (toordinal today - toordinal Pipeline.from_date)
  = before ++ d :: after ->
  (forall d', In d' before -> is_Some (Pipeline.expected_object client d')) ->
  Pipeline.expected_object client d = None ->
  exists w' e,
    Pipeline.historical_extraction client today w = (w', Pipeline.Failed e)
    /\ e <> Pipeline.OverflowError
    /\ (forall message,
          Pipeline.WaitForReport client (Pipeline.report_job d) = inl message ->
          e = Pipeline.UnboundLocalError (py "report_job_id"))
    /\ match e with
       | Pipeline.UnboundLocalError _ =>
           exists message,
             Pipeline.WaitForReport client (Pipeline.report_job d) = inl message
             /\ Pipeline.stdout w'
                = Pipeline.stdout w
                  ++ py "Extraction" :: map isoformat before
                  ++ [py "Failed to generate report. Error was: " ++ message]
       | _ =>
           Pipeline.stdout w'
           = Pipeline.stdout w ++ py "Extraction" :: map isoformat before
       end
    /\ length (Pipeline.temporary_files w')
       = S (length (Pipeline.temporary_files w) + length before)
    /\ (forall d', In d' before ->
          Pipeline.gcs w' !! blob_name (name_file d') = Pipeline.expected_object client d')
    /\ (forall name, (forall d', In d' before -> name <> blob_name (name_file d')) ->
          Pipeline.gcs w' !! name = Pipeline.gcs w !! name).
Proof.
  intros Htoday Hdays Hbefore Hd.
  rewrite (historical_extraction_loop client today w Htoday), Hdays, for_in_app.
  destruct (for_in_returns client before (Pipeline.print (py "Extraction") w) Hbefore)
    as [w1 [-> [Hout [Htmp [Hframe Hobj]]]]].
  cbn [Pipeline.print Pipeline.stdout Pipeline.temporary_files Pipeline.gcs] in Hout, Htmp, Hframe.
  cbn [Pipeline.for_in].
  destruct (process_and_print_fails client d w1 Hd)
    as [e [w' [-> [Hgcs [Hne [Hunbound [Htmp' Hout']]]]]]].
  exists w', e. split; [reflexivity|]. split; [exact Hne|]. split; [exact Hunbound|].
  split; [|split; [|split]].
  - destruct e as [name| |e].
    + destruct Hout' as [message [Hm Hout']]. exists message. split; [exact Hm|].
      rewrite Hout', Hout, <- !app_assoc. reflexivity.
    + rewrite Hout', Hout, <- app_assoc. reflexivity.
    + rewrite Hout', Hout, <- app_assoc. reflexivity.
  - rewrite Htmp', Htmp. reflexivity.
  - intros d' Hd'. rewrite Hgcs. now apply Hobj.
  - intros name Hname. rewrite Hgcs. now apply Hframe.
Qed.

End Stops.

(** ** The program on the sample services *)

Lemma X14_failed_report_witness :
  Pipeline.data_processing (F := binary64) failing_client day_2021_07_21 empty_world
  = ({| Pipeline.stdout := [py "Failed to generate report. Error was: FAILED"];
        Pipeline.temporary_files := [None];
        Pipeline.downloads := [];
        Pipeline.gcs := ∅ |},
     Pipeline.Failed (Pipeline.UnboundLocalError (py "report_job_id"))).
Proof.
  exact (@X14_failed_report binary64 failing_client day_2021_07_21 empty_world
           (py "FAILED") eq_refl).
Defined.

Lemma X15_completed_report_witness :
  Pipeline.data_processing (F := binary64) sample_client day_2024_01_01 empty_world
  = match data_processing (F := binary64)
            [report_row photos_path_split 100 5.5 120] day_2024_01_01 ∅ with
    | Ok bucket =>
        ({| Pipeline.stdout := [];
            Pipeline.temporary_files := [Some [report_row photos_path_split 100 5.5 120]];
            Pipeline.downloads := [7];
            Pipeline.gcs := bucket |}, Pipeline.Returned tt)
    | Raise e =>
        ({| Pipeline.stdout := [];
            Pipeline.temporary_files := [Some [report_row photos_path_split 100 5.5 120]];
            Pipeline.downloads := [7];
            Pipeline.gcs := ∅ |}, Pipeline.Failed (Pipeline.Raised e))
    end.
Proof.
  exact (@X15_completed_report binary64 sample_client day_2024_01_01 empty_world 7
           eq_refl).
Defined.

Lemma X16_daily_run_witness :
  exists date_ w' r,
    Pipeline.main (F := binary64) (fun _ => sample_client) day_2024_01_02 empty_world
    = (w', r)
    /\ toordinal date_ = (toordinal day_2024_01_02 - 1)%Z.
Proof.
  destruct (@X16_daily_run binary64 (fun _ => sample_client) day_2024_01_02 empty_world)
    as [date_ [w' [r [Hmain [Hord _]]]]];
    [vm_compute; split; [reflexivity | discriminate]|].
  exists date_, w', r. split; [exact Hmain | exact Hord].
Defined.

Lemma X17_historical_days_witness :
  length (Pipeline.days_from Pipeline.from_date
            (toordinal day_2021_07_23 - toordinal Pipeline.from_date))
  = Z.to_nat (toordinal day_2021_07_23 - toordinal Pipeline.from_date).
Proof.
  refine (proj1 (proj2 (@X17_historical_days binary64 sample_client day_2021_07_23
                          empty_world _))).
  vm_compute. split; [reflexivity | discriminate].
Defined.

Lemma X18_historical_complete_witness :
  exists w',
    Pipeline.historical_extraction (F := binary64) sample_client day_2021_07_23 empty_world
    = (w', Pipeline.Returned tt).
Proof.
  destruct (@X18_historical_complete binary64 sample_client day_2021_07_23 empty_world)
    as [w' [Hrun _]].
  - vm_compute. split; [reflexivity | discriminate].
  - intros d _.
    destruct (Pipeline.expected_object (F := binary64) sample_client d) eqn:H;
      [eauto | vm_compute in H; discriminate].
  - exists w'. exact Hrun.
Defined.

Lemma X19_historical_stops_witness :
  exists w' e,
    Pipeline.historical_extraction (F := binary64) failing_client day_2021_07_23 empty_world
    = (w', Pipeline.Failed e)
    /\ e = Pipeline.UnboundLocalError (py "report_job_id").
Proof.
  destruct (@X19_historical_stops binary64 failing_client day_2021_07_23 empty_world
              [Pipeline.from_date] [day_2021_07_22] day_2021_07_21)
    as [w' [e [Hrun [_ [Hunbound _]]]]].
  - vm_compute. split; [reflexivity | discriminate].
  - vm_compute. reflexivity.
  - intros d' [<-|[]].
    destruct (Pipeline.expected_object (F := binary64) failing_client Pipeline.from_date)
      eqn:H; [eauto | vm_compute in H; discriminate].
  - vm_compute. reflexivity.
  - exists w', e. split; [exact Hrun|]. apply (Hunbound (py "FAILED")). reflexivity.
Defined.
